(** * ansible-network-mcp: the safe-mutation and command-execution substrate

    A shallow embedding of [server.py]: the sanitizers, the path join and
    its inline variants, the backup-before-overwrite file tools, the
    command runner, the output summarizer and the line-level inventory
    editor, with the properties the specification states about them;
    then the variable, configuration, playbook and template tools and
    the device tools, with further properties read off the code.

    Conventions of the model.
    - A Python [str] is a list of characters, [list ascii]; a character is
      a code point below 256.  String literals are written as usual and
      are read as such lists.
    - The file system is a finite map from path strings to nodes; it has
      no permissions, quotas or device errors, so a primitive fails only
      for the structural reasons Python documents (missing parent, a
      directory where a file is expected, ...).  A path is looked up as
      it is spelled: the map does not resolve "..", "." or doubled
      slashes.  What is stated about a tool is therefore stated for the
      paths the tool normalizes itself, or for names without a slash;
      and nothing is stated about what an unreadable directory would
      make a listing raise.
    - Tool bodies run in a state-and-exception monad over a [World]: the
      file system, the wall clock, and the log of system calls made. *)

From Stdlib Require Import Ascii String ZArith DecimalString.
From stdpp Require Import base option list sorting gmap strings.

Local Open Scope string_scope.
Local Open Scope list_scope.

(** ** Python strings *)

Abbreviation str := (list ascii).

Coercion list_ascii_of_string : string >-> list.
Arguments list_ascii_of_string : simpl never.

Definition LF : ascii := "010"%char.
Definition CR : ascii := "013"%char.

Module Py.

(** [not value] on a string: true exactly on the empty string. *)
Definition falsy (s : str) : bool :=
  match s with [] => true | _ => false end.

(** [char in chars] for a character against a set written as a string. *)
Definition char_in (c : ascii) (chars : str) : bool :=
  bool_decide (c ∈ chars).

(** Code points that [str.isspace] accepts below 256. *)
Definition whitespace : str :=
  [ "009"; "010"; "011"; "012"; "013"; "028"; "029"; "030"; "031";
    "032"; "133"; "160" ]%char.

Definition isspace (c : ascii) : bool := char_in c whitespace.

Fixpoint drop_while {A} (p : A → bool) (l : list A) : list A :=
  match l with
  | [] => []
  | x :: l' => if p x then drop_while p l' else l
  end.

(** [s.lstrip(chars)], [s.rstrip(chars)], [s.strip(chars)]. *)
Definition lstrip_chars (chars s : str) : str :=
  drop_while (λ c, char_in c chars) s.
Definition rstrip_chars (chars s : str) : str :=
  reverse (drop_while (λ c, char_in c chars) (reverse s)).
Definition strip_chars (chars s : str) : str :=
  rstrip_chars chars (lstrip_chars chars s).

(** [s.strip()]: whitespace removed at both ends. *)
Definition strip (s : str) : str := strip_chars whitespace s.

(** [s.replace(c, "")] for a one-character [c]. *)
Definition remove_char (c : ascii) (s : str) : str :=
  filter (λ x, x ≠ c) s.

(** [s.startswith(p)], [s.endswith(p)], [needle in s]. *)
Fixpoint startswith (s p : str) {struct p} : bool :=
  match p, s with
  | [], _ => true
  | a :: p', b :: s' => bool_decide (a = b) && startswith s' p'
  | _ :: _, [] => false
  end.

Definition endswith (s p : str) : bool :=
  startswith (reverse s) (reverse p).

Fixpoint contains (needle s : str) : bool :=
  startswith s needle ||
  match s with
  | [] => false
  | _ :: s' => contains needle s'
  end.

(** [s.split(sep)] for a one-character separator. *)
Fixpoint split (sep : ascii) (s : str) : list str :=
  match s with
  | [] => [[]]
  | c :: s' =>
      if bool_decide (c = sep) then [] :: split sep s'
      else match split sep s' with
           | [] => [[c]]
           | w :: ws => (c :: w) :: ws
           end
  end.

(** [sep.join(parts)]. *)
Fixpoint join (sep : str) (parts : list str) : str :=
  match parts with
  | [] => []
  | [p] => p
  | p :: ps => p ++ sep ++ join sep ps
  end.

(** [s.lower()] on code points below 256: the ASCII capitals and the
    Latin-1 capitals 192..222, the multiplication sign 215 excepted. *)
Definition lower_char (c : ascii) : ascii :=
  let n := nat_of_ascii c in
  if (65 <=? n)%nat && (n <=? 90)%nat then ascii_of_nat (n + 32)
  else if (192 <=? n)%nat && (n <=? 222)%nat && negb (n =? 215)%nat
       then ascii_of_nat (n + 32)
  else c.

Definition lower (s : str) : str := map lower_char s.

(** [str(n)] for an integer. *)
Definition str_of_Z (n : Z) : str :=
  NilZero.string_of_int (Z.to_int n).

(** [x in [a, b, ...]] for strings. *)
Definition str_in (x : str) (l : list str) : bool := bool_decide (x ∈ l).

End Py.

(** ** Sanitizers (server.py, lines 45-60) *)

Definition dangerous_chars : list ascii :=
  [ ";"; "&"; "|"; "$"; "`"; "("; ")"; "{"; "}"; "<"; ">"; "\" ]%char.

(** [sanitize_input]: the loop deletes each dangerous character in turn,
    then the value is stripped. *)
Definition sanitize_input (value : str) : str :=
  if Py.falsy value then ""
  else
    let value := fold_left (λ v char, Py.remove_char char v) dangerous_chars value in
    Py.strip value.

(** The character class [[a-zA-Z0-9_\-\.]] of [sanitize_filename]. *)
Definition safe_filename_char (c : ascii) : bool :=
  let n := nat_of_ascii c in
  ((97 <=? n) && (n <=? 122) || (65 <=? n) && (n <=? 90) ||
   (48 <=? n) && (n <=? 57))%nat
  || Py.char_in c "_-.".

Definition sanitize_filename (value : str) : str :=
  if Py.falsy value then ""
  else
    let safe := map (λ c, if safe_filename_char c then c else "_"%char) value in
    Py.strip_chars "_." safe.

(** ** POSIX paths (Python's [posixpath]) *)

Module Path.

(** [os.path.join(a, b)]. *)
Definition join (a b : str) : str :=
  if Py.startswith b "/" then b
  else if Py.falsy a || Py.endswith a "/" then a ++ b
  else a ++ "/" ++ b.

(** The number of leading slashes [normpath] keeps: two for exactly two,
    one for one or for three and more. *)
Definition initial_slashes (path : str) : nat :=
  if Py.startswith path "/" then
    if Py.startswith path "//" && negb (Py.startswith path "///") then 2
    else 1
  else 0.

(** One turn of [normpath]'s loop over the components; [new_comps] is in
    order, [append] adds at the end and [pop] removes the last one. *)
Definition normpath_step (slashes : nat) (new_comps : list str) (comp : str)
  : list str :=
  if Py.str_in comp [ [] ; "." : str ] then new_comps
  else if bool_decide (comp ≠ "..")
          || (bool_decide (slashes = 0) && bool_decide (new_comps = []))
          || (bool_decide (new_comps ≠ []) &&
              bool_decide (last new_comps = Some (".." : str)))
       then new_comps ++ [comp]
  else if bool_decide (new_comps ≠ []) then removelast new_comps
  else new_comps.

(** [os.path.normpath(path)]. *)
Definition normpath (path : str) : str :=
  if Py.falsy path then "."
  else
    let slashes := initial_slashes path in
    let comps := Py.split "/" path in
    let new_comps := fold_left (normpath_step slashes) comps [] in
    let path := replicate slashes "/"%char ++ Py.join "/" new_comps in
    if Py.falsy path then "." else path.

Fixpoint take_while {A} (p : A → bool) (l : list A) : list A :=
  match l with
  | [] => []
  | x :: l' => if p x then x :: take_while p l' else []
  end.

(** [os.path.basename(p)]: what follows the last slash. *)
Definition basename (p : str) : str :=
  reverse (take_while (λ c, bool_decide (c ≠ "/"%char)) (reverse p)).

(** [os.path.dirname(p)]: what precedes the last slash, without its
    trailing slashes unless it consists of slashes only. *)
Definition dirname (p : str) : str :=
  let head := reverse (Py.drop_while (λ c, bool_decide (c ≠ "/"%char)) (reverse p)) in
  if negb (Py.falsy head) && negb (forallb (λ c, bool_decide (c = "/"%char)) head)
  then Py.rstrip_chars "/" head
  else head.

End Path.

(** [safe_path_join] (server.py, lines 63-69): the result is either the
    joined path or the [ValueError] the function raises. *)
Definition safe_path_join (base_dir filename : str) : str + str :=
  let filename := sanitize_filename filename in
  let full_path := Path.normpath (Path.join base_dir filename) in
  if negb (Py.startswith full_path (Path.normpath base_dir))
  then inl ("Path traversal detected" : str)
  else inr full_path.

(** ** The world the tools run in *)

(** A node of the file system: a regular file with its text, or a
    directory. *)
Inductive node :=
  | File (content : str)
  | Dir.

(** Exception classes the modelled code raises or catches.  All of them
    are subclasses of [Exception]. *)
Inductive exn_class :=
  | TimeoutExpired
  | FileNotFoundError
  | FileExistsError
  | IsADirectoryError
  | NotADirectoryError
  | PermissionError
  | ValueError
  | OtherException.

Global Instance exn_class_eq_dec : EqDecision exn_class.
Proof. solve_decision. Defined.

(** An exception: its class and [str(e)]. *)
Record exn := Exn { exn_cls : exn_class; exn_msg : str }.

(** What [subprocess.run] gives: a completed process, or an exception
    (the timeout, a launch failure, anything else). *)
Inductive proc_result :=
  | Completed (returncode : Z) (stdout stderr : str)
  | Failed (e : exn).

(** The arguments of one [subprocess.run] call; [env_overlay] holds the
    keys laid over [os.environ] (empty when the environment is inherited). *)
Record run_args := RunArgs {
  run_cmd : list str;
  run_timeout : Z;
  run_cwd : str;
  run_env_overlay : list (str * str)
}.

(** System calls, as logged. *)
Inductive syscall :=
  | SysExists (p : str)
  | SysIsdir (p : str)
  | SysListdir (p : str)
  | SysRead (p : str)
  | SysWrite (p : str)
  | SysMakedirs (p : str)
  | SysCopy (src dst : str)
  | SysRemove (p : str)
  | SysRun (a : run_args).

(** Does a logged call change the file system? *)
Definition is_mutation (c : syscall) : bool :=
  match c with
  | SysWrite _ | SysMakedirs _ | SysCopy _ _ | SysRemove _ => true
  | _ => false
  end.

(** What [datetime.now()] returns. *)
Record datetime := DateTime {
  year : nat; month : nat; day : nat;
  hour : nat; minute : nat; second : nat
}.

(** The world: the file system (a path string names one node; each node is
    reached through one spelling of its path), the clock, and the log of
    calls, most recent first. *)
Record World := mkWorld {
  fs : gmap str node;
  now : datetime;
  calls : list syscall
}.

Definition set_fs (f : gmap str node) (w : World) : World :=
  {| fs := f; now := now w; calls := calls w |}.

Definition log_call (c : syscall) (w : World) : World :=
  {| fs := fs w; now := now w; calls := c :: calls w |}.

(** *** State and exceptions *)

Inductive outcome (A : Type) :=
  | Ok (a : A)
  | Raise (e : exn).
Arguments Ok {A} a.
Arguments Raise {A} e.

Definition M (A : Type) : Type := World → outcome A * World.

Definition ret {A} (a : A) : M A := λ w, (Ok a, w).

Definition bind {A B} (m : M A) (k : A → M B) : M B :=
  λ w, match m w with
       | (Ok a, w') => k a w'
       | (Raise e, w') => (Raise e, w')
       end.

Definition raise {A} (e : exn) : M A := λ w, (Raise e, w).

(** [try: body  except Exception as e: handler(e)]. *)
Definition try_except {A} (body : M A) (handler : exn → M A) : M A :=
  λ w, match body w with
       | (Ok a, w') => (Ok a, w')
       | (Raise e, w') => handler e w'
       end.

Notation "'let*' x := m 'in' k" := (bind m (λ x, k))
  (at level 10, x name, m at level 100, k at level 200).
Notation "m >> k" := (bind m (λ _, k))
  (at level 100, k at level 200, right associativity).

Definition get_world : M World := λ w, (Ok w, w).
Definition modify_world (f : World → World) : M unit := λ w, (Ok tt, f w).
Definition sys (c : syscall) : M unit := modify_world (log_call c).

(** *** File-system primitives *)

Module OS.

Definition quote (p : str) : str := "'" ++ p ++ "'".

(** [str(e)] of the [OSError]s; the path is printed between quotes
    ([repr]'s escapes are not modelled). *)
Definition err (c : exn_class) (p : str) : exn :=
  Exn c (match c with
         | FileNotFoundError => "[Errno 2] No such file or directory: "
         | FileExistsError => "[Errno 17] File exists: "
         | IsADirectoryError => "[Errno 21] Is a directory: "
         | NotADirectoryError => "[Errno 20] Not a directory: "
         | _ => "[Errno 13] Permission denied: "
         end ++ quote p).

(** The directory that must exist for [p] to be created.  A path with
    no directory part lives in the working directory, taken to exist. *)
Definition parent_ok (f : gmap str node) (p : str) : outcome unit :=
  let d := Path.dirname p in
  if Py.falsy d then Ok tt
  else match f !! d with
       | Some Dir => Ok tt
       | Some (File _) => Raise (err NotADirectoryError p)
       | None => Raise (err FileNotFoundError p)
       end.

(** [os.path.exists(p)].  The path is looked up as spelled, as in every
    primitive below. *)
Definition path_exists (p : str) : M bool :=
  sys (SysExists p) >>
  let* w := get_world in
  ret (bool_decide (is_Some (fs w !! p))).

(** [os.path.isdir(p)]. *)
Definition path_isdir (p : str) : M bool :=
  sys (SysIsdir p) >>
  let* w := get_world in
  ret (match fs w !! p with Some Dir => true | _ => false end).

(** Text mode reading translates ["\r\n"] and ["\r"] to ["\n"]. *)
Fixpoint universal_newlines (s : str) : str :=
  match s with
  | [] => []
  | c :: s' =>
      if bool_decide (c = CR) then
        match s' with
        | c2 :: s'' =>
            if bool_decide (c2 = LF) then LF :: universal_newlines s''
            else LF :: universal_newlines s'
        | [] => [LF]
        end
      else c :: universal_newlines s'
  end.

(** [with open(p, 'r') as f: f.read()]. *)
Definition read_text (p : str) : M str :=
  sys (SysRead p) >>
  let* w := get_world in
  match fs w !! p with
  | Some (File c) => ret (universal_newlines c)
  | Some Dir => raise (err IsADirectoryError p)
  | None => raise (err FileNotFoundError p)
  end.

(** The lines of a text, each with its terminator ([f.readlines()]). *)
Fixpoint keepends (s : str) : list str :=
  match s with
  | [] => []
  | c :: s' =>
      if bool_decide (c = LF) then [c] :: keepends s'
      else match keepends s' with
           | [] => [[c]]
           | l :: ls => (c :: l) :: ls
           end
  end.

(** [with open(p, 'r') as f: f.readlines()]. *)
Definition read_lines (p : str) : M (list str) :=
  let* s := read_text p in ret (keepends s).

(** [with open(p, 'w') as f: f.write(content)]. *)
Definition write_text (p content : str) : M unit :=
  sys (SysWrite p) >>
  let* w := get_world in
  match fs w !! p with
  | Some Dir => raise (err IsADirectoryError p)
  | _ =>
      match parent_ok (fs w) p with
      | Ok _ => modify_world (set_fs (<[p := File content]> (fs w)))
      | Raise e => raise e
      end
  end.

(** [f.writelines(lines)]. *)
Definition write_lines (p : str) (lines : list str) : M unit :=
  write_text p (concat lines).

(** The directories [makedirs] has to find or make for [p]: [p] and the
    paths above it, outermost first. *)
Fixpoint prefixes {A} (l : list A) : list (list A) :=
  match l with
  | [] => []
  | x :: l' => [x] :: map (cons x) (prefixes l')
  end.

Definition dir_chain (p : str) : list str :=
  filter (λ d, d ≠ []) (map (Py.join "/") (prefixes (Py.split "/" p))).

Fixpoint mkdir_chain (f : gmap str node) (ds : list str)
  : outcome (gmap str node) :=
  match ds with
  | [] => Ok f
  | d :: ds' =>
      match f !! d with
      | Some Dir => mkdir_chain f ds'
      | Some (File _) =>
          Raise (match ds' with
                 | [] => err FileExistsError d
                 | d' :: _ => err NotADirectoryError d'
                 end)
      | None => mkdir_chain (<[d := Dir]> f) ds'
      end
  end.

(** [os.makedirs(p, exist_ok=True)]: nothing to do when [p] is a
    directory; otherwise every missing directory down to [p] is made,
    and a regular file in the way is an error: [FileExistsError] on [p]
    when the file is [p] itself, [NotADirectoryError] on the directory
    that could not be made under it otherwise. *)
Definition makedirs (p : str) : M unit :=
  sys (SysMakedirs p) >>
  let* w := get_world in
  if Py.falsy p then raise (err FileNotFoundError p)
  else match fs w !! p with
       | Some Dir => ret tt
       | _ =>
           match mkdir_chain (fs w) (dir_chain p) with
           | Ok f' => modify_world (set_fs f')
           | Raise e => raise e
           end
       end.

(** [shutil.copy2(src, dst)]: a copy of the text of [src]; into the
    directory [dst] under the name of [src] when [dst] is one. *)
Definition copy2 (src dst : str) : M unit :=
  sys (SysCopy src dst) >>
  let* w := get_world in
  match fs w !! src with
  | None => raise (err FileNotFoundError src)
  | Some Dir => raise (err IsADirectoryError src)
  | Some (File c) =>
      let dst := match fs w !! dst with
                 | Some Dir => Path.join dst (Path.basename src)
                 | _ => dst
                 end in
      match fs w !! dst with
      | Some Dir => raise (err IsADirectoryError dst)
      | _ =>
          match parent_ok (fs w) dst with
          | Ok _ => modify_world (set_fs (<[dst := File c]> (fs w)))
          | Raise e => raise e
          end
      end
  end.

(** [os.remove(p)]. *)
Definition remove (p : str) : M unit :=
  sys (SysRemove p) >>
  let* w := get_world in
  match fs w !! p with
  | None => raise (err FileNotFoundError p)
  | Some Dir => raise (err IsADirectoryError p)
  | Some (File _) => modify_world (set_fs (delete p (fs w)))
  end.

(** [os.listdir(p)]: the names directly under [p], in the order of the
    map (Python promises no order).  A directory of the map can be
    listed; the [PermissionError] of an unreadable one is outside the
    model, and no statement below says that a listing cannot raise. *)
Definition children (f : gmap str node) (p : str) : list str :=
  omap (λ kv, if bool_decide (Path.dirname kv.1 = p ∧ kv.1 ≠ p)
              then Some (Path.basename kv.1) else None)
       (map_to_list f).

Definition listdir (p : str) : M (list str) :=
  sys (SysListdir p) >>
  let* w := get_world in
  match fs w !! p with
  | Some Dir => ret (children (fs w) p)
  | Some (File _) => raise (err NotADirectoryError p)
  | None => raise (err FileNotFoundError p)
  end.

End OS.

(** *** The clock *)

(** The decimal digit [m], and the last [k] decimal digits of [n]. *)
Definition digit (m : nat) : ascii := ascii_of_nat (48 + m).

Fixpoint digits (k n : nat) : str :=
  match k with
  | 0 => []
  | S k' => digits k' (n / 10) ++ [digit (n mod 10)]
  end.

(** [n] in decimal, padded with zeros to [width] digits ([%02d]; [%Y] for
    the four-digit years): [width] digits when they suffice, the plain
    decimal otherwise. *)
Definition zero_pad (width n : nat) : str :=
  if (n <? 10 ^ width)%nat then digits width n
  else Py.str_of_Z (Z.of_nat n).

(** [strftime("%Y%m%d_%H%M%S")]. *)
Definition strftime_stamp (t : datetime) : str :=
  zero_pad 4 (year t) ++ zero_pad 2 (month t) ++ zero_pad 2 (day t) ++ "_" ++
  zero_pad 2 (hour t) ++ zero_pad 2 (minute t) ++ zero_pad 2 (second t).

Definition datetime_now : M datetime := let* w := get_world in ret (now w).

(** Lexicographic order on strings by code point, for [sorted]. *)
Fixpoint str_leb (a b : str) : bool :=
  match a, b with
  | [], _ => true
  | _ :: _, [] => false
  | x :: a', y :: b' =>
      if bool_decide (x = y) then str_leb a' b'
      else (nat_of_ascii x <? nat_of_ascii y)%nat
  end.

Definition sorted (l : list str) : list str :=
  merge_sort (λ a b, Is_true (str_leb a b)) l.

Definition nl : str := [LF].

(** [value or default] on strings. *)
Definition or_default (value default : str) : str :=
  if Py.falsy value then default else value.

(** [s.rsplit(sep, 1)[0]]: what precedes the last [sep], or all of [s]
    when it holds none. *)
Definition rsplit1_head (sep : ascii) (s : str) : str :=
  if Py.char_in sep s
  then reverse (tail (Py.drop_while (λ c, bool_decide (c ≠ sep)) (reverse s)))
  else s.

(** *** JSON text *)

Definition DQUOTE : ascii := "034"%char.

(** A lower-case hexadecimal digit. *)
Definition hex_digit (n : nat) : ascii :=
  if (n <? 10)%nat then ascii_of_nat (48 + n) else ascii_of_nat (87 + n).

(** The escape of one character under [ensure_ascii]: the quote and the
    backslash get a backslash, the five named control characters their
    letter, the printable ASCII characters stand for themselves, and the
    others are written [\u00xx]. *)
Definition json_escape (c : ascii) : str :=
  let n := nat_of_ascii c in
  if bool_decide (c = DQUOTE) then ["\"%char; DQUOTE]
  else if bool_decide (c = "\"%char) then "\\"
  else if bool_decide (n = 10) then "\n"
  else if bool_decide (n = 13) then "\r"
  else if bool_decide (n = 9) then "\t"
  else if bool_decide (n = 8) then "\b"
  else if bool_decide (n = 12) then "\f"
  else if (32 <=? n)%nat && (n <=? 126)%nat then [c]
  else "\u00" ++ [hex_digit (n / 16); hex_digit (n mod 16)].

Definition json_string (s : str) : str :=
  [DQUOTE] ++ flat_map json_escape s ++ [DQUOTE].

(** [json.dumps(l)] for a list of strings. *)
Definition json_dumps (l : list str) : str :=
  "[" ++ Py.join ", " (map json_string l) ++ "]".

(** ** The tools *)

Section Server.

(** The managed root, from the environment at start-up. *)
Variable ANSIBLE_DIR : str.

(** The external processes: what a run returns and the file system it
    leaves behind. *)
Variable engine : run_args → gmap str node → proc_result * gmap str node.

Definition INVENTORY_DIR : str := Path.join ANSIBLE_DIR "inventory".
Definition INVENTORY_PATH : str := Path.join INVENTORY_DIR "hosts.ini".
Definition PLAYBOOKS_DIR : str := Path.join ANSIBLE_DIR "playbooks".

Record CompletedProcess := mkCompleted {
  returncode : Z; stdout : str; stderr : str
}.

(** [subprocess.run(cmd, capture_output=True, text=True, ...)]. *)
Definition subprocess_run (a : run_args) : M CompletedProcess :=
  sys (SysRun a) >>
  let* w := get_world in
  match engine a (fs w) with
  | (Completed rc out err, f') =>
      modify_world (set_fs f') >> ret (mkCompleted rc out err)
  | (Failed e, f') =>
      modify_world (set_fs f') >> raise e
  end.

(** The default of the [timeout] parameter. *)
Definition default_timeout : Z := 300.

(** [run_ansible_command] (lines 72-96).  Logging is not modelled. *)
Definition run_ansible_command (cmd : list str) (timeout : Z) : M str :=
  try_except
    (let* result :=
       subprocess_run
         (RunArgs cmd timeout ANSIBLE_DIR
            [ ("ANSIBLE_HOST_KEY_CHECKING" : str, "False" : str);
              ("ANSIBLE_FORCE_COLOR" : str, "false" : str) ]) in
     let output_parts : list str := [] in
     let output_parts :=
       if negb (Py.falsy (stdout result))
       then output_parts ++ ["=== OUTPUT ===" ++ nl ++ stdout result]
       else output_parts in
     let output_parts :=
       if negb (Py.falsy (stderr result))
       then output_parts ++ ["=== STDERR ===" ++ nl ++ stderr result]
       else output_parts in
     let output_parts :=
       if bool_decide (returncode result ≠ 0%Z)
       then output_parts ++
            [nl ++ "=== RETURN CODE: " ++ Py.str_of_Z (returncode result) ++ " ==="]
       else output_parts in
     ret (match output_parts with
          | [] => "Command completed with no output." : str
          | _ => Py.join nl output_parts
          end))
    (λ e,
       match exn_cls e with
       | TimeoutExpired =>
           ret ("ERROR: Command timed out after " ++ Py.str_of_Z timeout ++ " seconds.")
       | _ => ret ("ERROR: " ++ exn_msg e)
       end).

(** One turn of the loop of [parse_ansible_output]; the state is
    [(in_play_recap, summary_lines)]. *)
Definition summary_step (st : bool * list str) (line : str) : bool * list str :=
  let in_play_recap :=
    if Py.contains "PLAY RECAP" line then true else st.1 in
  if in_play_recap then (in_play_recap, st.2 ++ [line])
  else if Py.contains "fatal:" (Py.lower line) || Py.contains "failed:" (Py.lower line)
       then (in_play_recap, st.2 ++ [line])
  else if Py.contains "changed:" (Py.lower line) && negb (Py.contains "ok=" (Py.lower line))
       then (in_play_recap, st.2 ++ [line])
  else (in_play_recap, st.2).

(** [parse_ansible_output] (lines 99-115). *)
Definition parse_ansible_output (raw_output : str) : str :=
  let lines := Py.split LF raw_output in
  let summary_lines := (fold_left summary_step lines (false, [])).2 in
  match summary_lines with
  | [] => raw_output
  | _ => "=== SUMMARY ===" ++ nl ++ Py.join nl summary_lines ++ nl ++ nl ++
         "=== FULL OUTPUT ===" ++ nl ++ raw_output
  end.

(** [name.endswith((".yml", ".yaml"))]. *)
Definition is_yaml_name (f : str) : bool :=
  Py.endswith f ".yml" || Py.endswith f ".yaml".

(** [get_available_playbooks] (lines 118-128). *)
Definition get_available_playbooks : M (list str) :=
  let* ex := OS.path_exists PLAYBOOKS_DIR in
  let* playbooks :=
    (if ex then
       let* names := OS.listdir PLAYBOOKS_DIR in
       ret (filter (λ f, Is_true (is_yaml_name f)) names)
     else ret []) in
  let root_playbook := Path.join ANSIBLE_DIR "playbook.yml" in
  let* ex := OS.path_exists root_playbook in
  ret (if ex then playbooks ++ ["playbook.yml (root)" : str] else playbooks).

(** [backup_file] (lines 131-138). *)
Definition backup_file (filepath : str) : M str :=
  let* ex := OS.path_exists filepath in
  if ex then
    let* t := datetime_now in
    let timestamp := strftime_stamp t in
    let backup_path := filepath ++ "." ++ timestamp ++ ".bak" in
    OS.copy2 filepath backup_path >>
    ret backup_path
  else ret [].

Definition access_denied : str :=
  "ERROR: Access denied - path must be within Ansible directory.".

(** [ansible_read_file] (lines 173-197). *)
Definition ansible_read_file (file_path : str) : M str :=
  if Py.falsy file_path then
    ret ("ERROR: No file path specified. Examples: inventory/hosts.ini, group_vars/qfx_switches.yml, ansible.cfg" : str)
  else
    let file_path := Py.lstrip_chars "/" file_path in
    let full_path := Path.normpath (Path.join ANSIBLE_DIR file_path) in
    if negb (Py.startswith full_path ANSIBLE_DIR) then ret access_denied
    else
      let* ex := OS.path_exists full_path in
      if negb ex then ret ("ERROR: File not found: " ++ file_path)
      else
        let* d := OS.path_isdir full_path in
        if d then
          let* files := OS.listdir full_path in
          ret ("'" ++ file_path ++ "' is a directory containing:" ++ nl ++
               Py.join nl (map (λ f, "  - " ++ f) (sorted files)))
        else
          try_except
            (let* content := OS.read_text full_path in
             ret ("=== FILE: " ++ file_path ++ " ===" ++ nl ++ nl ++ content))
            (λ e, ret ("ERROR: Failed to read file: " ++ exn_msg e)).

(** [value.lower() in ["yes", "true", "1"]]. *)
Definition affirmative (value : str) : bool :=
  Py.str_in (Py.lower value) [ "yes" : str ; "true" : str ; "1" : str ].

(** [ansible_write_file] (lines 200-231). *)
Definition ansible_write_file (file_path content create_backup : str) : M str :=
  if Py.falsy file_path then ret ("ERROR: No file path specified." : str)
  else if Py.falsy content then ret ("ERROR: No content provided." : str)
  else
    let file_path := Py.lstrip_chars "/" file_path in
    let full_path := Path.normpath (Path.join ANSIBLE_DIR file_path) in
    if negb (Py.startswith full_path ANSIBLE_DIR) then ret access_denied
    else
      let parent_dir := Path.dirname full_path in
      OS.makedirs parent_dir >>
      let* backup_path :=
        (if affirmative create_backup then
           let* ex := OS.path_exists full_path in
           if ex then backup_file full_path else ret []
         else ret []) in
      try_except
        (OS.write_text full_path content >>
         let msg := "SUCCESS: File written to " ++ file_path in
         let msg :=
           if negb (Py.falsy backup_path)
           then msg ++ nl ++ "Backup saved to: " ++ Path.basename backup_path
           else msg in
         ret msg)
        (λ e, ret ("ERROR: Failed to write file: " ++ exn_msg e)).

(** [ansible_write_inventory] (lines 253-278). *)
Definition ansible_write_inventory (content : str) : M str :=
  if Py.falsy content then
    ret ("ERROR: No inventory content provided. Example format:" ++ nl ++ nl ++
         "[group_name]" ++ nl ++ "host1 ansible_host=192.168.1.1" ++ nl ++
         "host2 ansible_host=192.168.1.2")
  else
    let* backup_path := backup_file INVENTORY_PATH in
    try_except
      (OS.makedirs INVENTORY_DIR >>
       OS.write_text INVENTORY_PATH content >>
       let cmd : list str :=
         [ "ansible-inventory" : str ; "-i" : str ; INVENTORY_PATH ; "--list" : str ] in
       let* result := subprocess_run (RunArgs cmd 30 ANSIBLE_DIR []) in
       if bool_decide (returncode result = 0%Z) then
         let msg := "SUCCESS: Inventory updated at " ++ INVENTORY_PATH in
         let msg :=
           if negb (Py.falsy backup_path)
           then msg ++ nl ++ "Backup: " ++ Path.basename backup_path
           else msg in
         ret msg
       else
         ret ("WARNING: Inventory written but validation failed:" ++ nl ++
              stderr result ++ nl ++ nl ++ "Backup: " ++ Path.basename backup_path))
      (λ e, ret ("ERROR: Failed to write inventory: " ++ exn_msg e)).

(** One turn of the loop of [ansible_add_host]; the state is
    [(group_found, new_lines)]. *)
Definition add_host_step (group_header host_line : str)
    (st : bool * list str) (line : str) : bool * list str :=
  let new_lines := st.2 ++ [line] in
  if bool_decide (Py.strip line = group_header)
  then (true, new_lines ++ [host_line])
  else (st.1, new_lines).

(** The text [ansible_add_host] writes back, from the text it read
    (lines 303-326). *)
Definition add_host_text (current_content group host_line : str) : str :=
  let lines := Py.split LF current_content in
  let group_header := "[" ++ group ++ "]" in
  let '(group_found, new_lines) :=
    fold_left (add_host_step group_header host_line) lines (false, []) in
  let new_lines :=
    if negb group_found then
      let new_lines :=
        match last new_lines with
        | Some l => if negb (Py.falsy (Py.strip l)) then new_lines ++ [[]]
                    else new_lines
        | None => new_lines
        end in
      new_lines ++ [group_header] ++ [host_line]
    else new_lines in
  Py.join nl new_lines.

(** [ansible_add_host] (lines 281-332). *)
Definition ansible_add_host (hostname ansible_host group extra_vars : str) : M str :=
  if Py.falsy hostname then ret ("ERROR: No hostname specified." : str)
  else if Py.falsy ansible_host then
    ret ("ERROR: No ansible_host (IP address) specified." : str)
  else
    let hostname := sanitize_input hostname in
    let ansible_host := sanitize_input ansible_host in
    let group :=
      let g := sanitize_input group in if Py.falsy g then "all" : str else g in
    let* ex := OS.path_exists INVENTORY_PATH in
    let* current_content :=
      (if ex then OS.read_text INVENTORY_PATH else ret []) in
    if Py.contains hostname current_content then
      ret ("ERROR: Host '" ++ hostname ++ "' already exists in inventory.")
    else
      let host_line := hostname ++ " ansible_host=" ++ ansible_host in
      let host_line :=
        if negb (Py.falsy extra_vars)
        then host_line ++ " " ++ sanitize_input extra_vars
        else host_line in
      let text := add_host_text current_content group host_line in
      backup_file INVENTORY_PATH >>
      OS.write_text INVENTORY_PATH text >>
      ret ("SUCCESS: Added host '" ++ hostname ++ "' (" ++ ansible_host ++
           ") to group '" ++ group ++ "'").

(** One turn of the loop of [ansible_remove_host]; the state is
    [(removed, new_lines)]. *)
Definition remove_host_step (hostname : str)
    (st : bool * list str) (line : str) : bool * list str :=
  if Py.startswith (Py.strip line) (hostname ++ " ")
     || bool_decide (Py.strip line = hostname)
  then (true, st.2)
  else (st.1, st.2 ++ [line]).

(** [ansible_remove_host] (lines 335-367). *)
Definition ansible_remove_host (hostname confirm : str) : M str :=
  if Py.falsy hostname then ret ("ERROR: No hostname specified." : str)
  else if negb (affirmative confirm) then
    ret ("WARNING: This will remove '" ++ hostname ++
         "' from inventory. Set confirm=yes to proceed.")
  else
    let hostname := sanitize_input hostname in
    let* ex := OS.path_exists INVENTORY_PATH in
    if negb ex then ret ("ERROR: Inventory file not found." : str)
    else
      let* lines := OS.read_lines INVENTORY_PATH in
      let '(removed, new_lines) :=
        fold_left (remove_host_step hostname) lines (false, []) in
      if negb removed then
        ret ("ERROR: Host '" ++ hostname ++ "' not found in inventory.")
      else
        backup_file INVENTORY_PATH >>
        OS.write_lines INVENTORY_PATH new_lines >>
        ret ("SUCCESS: Removed host '" ++ hostname ++ "' from inventory.").

(** [ansible_delete_playbook] (lines 714-739). *)
Definition ansible_delete_playbook (playbook_name confirm : str) : M str :=
  if Py.falsy playbook_name then
    let* available := get_available_playbooks in
    match available with
    | [] => ret ("ERROR: No playbook specified." : str)
    | _ => ret ("ERROR: No playbook specified. Available:" ++ nl ++ "- " ++
                Py.join (nl ++ "- ") available)
    end
  else if negb (affirmative confirm) then
    ret ("WARNING: This will delete '" ++ playbook_name ++
         "'. Set confirm=yes to proceed.")
  else
    let playbook_name := sanitize_input playbook_name in
    let playbook_name :=
      if negb (is_yaml_name playbook_name) then playbook_name ++ ".yml"
      else playbook_name in
    let playbook_path := Path.join PLAYBOOKS_DIR playbook_name in
    let* ex := OS.path_exists playbook_path in
    if negb ex then ret ("ERROR: Playbook not found: " ++ playbook_name)
    else
      try_except
        (backup_file playbook_path >>
         OS.remove playbook_path >>
         ret ("SUCCESS: Playbook '" ++ playbook_name ++ "' deleted (backup created)."))
        (λ e, ret ("ERROR: Failed to delete playbook: " ++ exn_msg e)).

(** *** Inventory, variables and configuration files *)

Definition GROUP_VARS_DIR : str := Path.join ANSIBLE_DIR "group_vars".
Definition HOST_VARS_DIR : str := Path.join ANSIBLE_DIR "host_vars".
Definition TEMPLATES_DIR : str := Path.join ANSIBLE_DIR "templates".

(** [ansible_read_inventory] (lines 239-250). *)
Definition ansible_read_inventory : M str :=
  let* ex := OS.path_exists INVENTORY_PATH in
  if negb ex then
    ret ("ERROR: Inventory file not found at " ++ INVENTORY_PATH ++ nl ++ nl ++
         "Use ansible_write_inventory to create one.")
  else
    try_except
      (let* content := OS.read_text INVENTORY_PATH in
       ret ("=== INVENTORY: " ++ INVENTORY_PATH ++ " ===" ++ nl ++ nl ++ content))
      (λ e, ret ("ERROR: Failed to read inventory: " ++ exn_msg e)).

(** [ansible_read_group_vars] (lines 407-428); the loop over the two
    extensions returns at the first file that exists. *)
Definition ansible_read_group_vars (group_name : str) : M str :=
  if Py.falsy group_name then
    let none_found : str :=
      "ERROR: No group name specified and no group_vars found." in
    let* ex := OS.path_exists GROUP_VARS_DIR in
    if ex then
      let* names := OS.listdir GROUP_VARS_DIR in
      let files :=
        map (rsplit1_head ".") (filter (λ f, Is_true (is_yaml_name f)) names) in
      match files with
      | [] => ret none_found
      | _ => ret ("Available group_vars:" ++ nl ++ "- " ++
                  Py.join (nl ++ "- ") (sorted files))
      end
    else ret none_found
  else
    let group_name := sanitize_filename group_name in
    fold_right
      (λ (ext : str) (next : M str),
         let filepath := Path.join GROUP_VARS_DIR (group_name ++ ext) in
         let* ex := OS.path_exists filepath in
         if ex then
           let* content := OS.read_text filepath in
           ret ("=== GROUP VARS: " ++ group_name ++ " ===" ++ nl ++ nl ++ content)
         else next)
      (ret ("ERROR: group_vars file not found for group '" ++ group_name ++ "'"))
      [ ".yml" : str ; ".yaml" : str ].

(** [ansible_write_group_vars] (lines 431-452). *)
Definition ansible_write_group_vars (group_name content : str) : M str :=
  if Py.falsy group_name then ret ("ERROR: No group name specified." : str)
  else if Py.falsy content then
    ret ("ERROR: No content provided. Provide YAML-formatted variables." : str)
  else
    let group_name := sanitize_filename group_name in
    let filepath := Path.join GROUP_VARS_DIR (group_name ++ ".yml") in
    OS.makedirs GROUP_VARS_DIR >>
    let* ex := OS.path_exists filepath in
    (if ex then backup_file filepath else ret []) >>
    try_except
      (OS.write_text filepath content >>
       ret ("SUCCESS: group_vars/" ++ group_name ++ ".yml updated."))
      (λ e, ret ("ERROR: Failed to write group_vars: " ++ exn_msg e)).

(** [ansible_read_host_vars] (lines 455-474). *)
Definition ansible_read_host_vars (hostname : str) : M str :=
  if Py.falsy hostname then
    let none_found : str :=
      "ERROR: No hostname specified and no host_vars found." in
    let* ex := OS.path_exists HOST_VARS_DIR in
    if ex then
      let* names := OS.listdir HOST_VARS_DIR in
      let files :=
        map (rsplit1_head ".") (filter (λ f, Is_true (is_yaml_name f)) names) in
      match files with
      | [] => ret none_found
      | _ => ret ("Available host_vars:" ++ nl ++ "- " ++
                  Py.join (nl ++ "- ") (sorted files))
      end
    else ret none_found
  else
    let hostname := sanitize_filename hostname in
    fold_right
      (λ (ext : str) (next : M str),
         let filepath := Path.join HOST_VARS_DIR (hostname ++ ext) in
         let* ex := OS.path_exists filepath in
         if ex then
           let* content := OS.read_text filepath in
           ret ("=== HOST VARS: " ++ hostname ++ " ===" ++ nl ++ nl ++ content)
         else next)
      (ret ("ERROR: host_vars file not found for host '" ++ hostname ++ "'"))
      [ ".yml" : str ; ".yaml" : str ].

(** [ansible_write_host_vars] (lines 477-498). *)
Definition ansible_write_host_vars (hostname content : str) : M str :=
  if Py.falsy hostname then ret ("ERROR: No hostname specified." : str)
  else if Py.falsy content then
    ret ("ERROR: No content provided. Provide YAML-formatted variables." : str)
  else
    let hostname := sanitize_filename hostname in
    let filepath := Path.join HOST_VARS_DIR (hostname ++ ".yml") in
    OS.makedirs HOST_VARS_DIR >>
    let* ex := OS.path_exists filepath in
    (if ex then backup_file filepath else ret []) >>
    try_except
      (OS.write_text filepath content >>
       ret ("SUCCESS: host_vars/" ++ hostname ++ ".yml updated."))
      (λ e, ret ("ERROR: Failed to write host_vars: " ++ exn_msg e)).

(** [ansible_read_config] (lines 505-515). *)
Definition ansible_read_config : M str :=
  let cfg_path := Path.join ANSIBLE_DIR "ansible.cfg" in
  let* ex := OS.path_exists cfg_path in
  if negb ex then
    ret ("ERROR: ansible.cfg not found. Use ansible_write_config to create one." : str)
  else
    let* content := OS.read_text cfg_path in
    ret ("=== ANSIBLE.CFG ===" ++ nl ++ nl ++ content).

(** [ansible_write_config] (lines 518-534). *)
Definition ansible_write_config (content : str) : M str :=
  if Py.falsy content then
    ret ("ERROR: No content provided. Provide INI-formatted ansible.cfg content." : str)
  else
    let cfg_path := Path.join ANSIBLE_DIR "ansible.cfg" in
    let* ex := OS.path_exists cfg_path in
    (if ex then backup_file cfg_path else ret []) >>
    try_except
      (OS.write_text cfg_path content >>
       ret ("SUCCESS: ansible.cfg updated." : str))
      (λ e, ret ("ERROR: Failed to write ansible.cfg: " ++ exn_msg e)).

(** *** Playbooks *)

(** The answer of the playbook tools to an empty name (lines 545-548 and
    the like): the error, with the available playbooks when there are
    some. *)
Definition no_playbook_specified : M str :=
  let* available := get_available_playbooks in
  match available with
  | [] => ret ("ERROR: No playbook specified." : str)
  | _ => ret ("ERROR: No playbook specified. Available:" ++ nl ++ "- " ++
              Py.join (nl ++ "- ") available)
  end.

(** The name the playbook tools work with (lines 550-552 and the like):
    sanitized as an argument, with [.yml] added unless it ends in
    [.yml] or [.yaml]. *)
Definition playbook_file_name (playbook_name : str) : str :=
  let playbook_name := sanitize_input playbook_name in
  if negb (is_yaml_name playbook_name) then playbook_name ++ ".yml"
  else playbook_name.

(** Where the playbook is (lines 554-560 and the like): under the
    playbooks directory, else directly under the root, else nowhere. *)
Definition find_playbook (playbook_name : str) : M (option str) :=
  let playbook_path := Path.join PLAYBOOKS_DIR playbook_name in
  let* ex := OS.path_exists playbook_path in
  if negb ex then
    let alt_path := Path.join ANSIBLE_DIR playbook_name in
    let* ex := OS.path_exists alt_path in
    if ex then ret (Some alt_path) else ret None
  else ret (Some playbook_path).

(** [ansible_run_playbook] (lines 541-574). *)
Definition ansible_run_playbook
    (playbook_name limit_hosts extra_vars tags verbose : str) : M str :=
  if Py.falsy playbook_name then no_playbook_specified
  else
    let playbook_name := playbook_file_name playbook_name in
    let* found := find_playbook playbook_name in
    match found with
    | None => ret ("ERROR: Playbook not found: " ++ playbook_name)
    | Some playbook_path =>
        let cmd : list str :=
          [ "ansible-playbook" : str ; "-i" : str ; INVENTORY_PATH ; playbook_path ] in
        let cmd :=
          if negb (Py.falsy limit_hosts)
          then cmd ++ [ "--limit" : str ; sanitize_input limit_hosts ] else cmd in
        let cmd :=
          if negb (Py.falsy extra_vars)
          then cmd ++ [ "--extra-vars" : str ; sanitize_input extra_vars ] else cmd in
        let cmd :=
          if negb (Py.falsy tags)
          then cmd ++ [ "--tags" : str ; sanitize_input tags ] else cmd in
        let cmd :=
          if affirmative verbose then cmd ++ [ "-vvv" : str ] else cmd in
        let* raw_output := run_ansible_command cmd default_timeout in
        ret (parse_ansible_output raw_output)
    end.

(** [ansible_check_playbook] (lines 577-604). *)
Definition ansible_check_playbook (playbook_name limit_hosts : str) : M str :=
  if Py.falsy playbook_name then no_playbook_specified
  else
    let playbook_name := playbook_file_name playbook_name in
    let* found := find_playbook playbook_name in
    match found with
    | None => ret ("ERROR: Playbook not found: " ++ playbook_name)
    | Some playbook_path =>
        let cmd : list str :=
          [ "ansible-playbook" : str ; "-i" : str ; INVENTORY_PATH ; playbook_path ;
            "--check" : str ; "--diff" : str ] in
        let cmd :=
          if negb (Py.falsy limit_hosts)
          then cmd ++ [ "--limit" : str ; sanitize_input limit_hosts ] else cmd in
        let* raw_output := run_ansible_command cmd default_timeout in
        ret ("=== DRY RUN (CHECK MODE) ===" ++ nl ++ parse_ansible_output raw_output)
    end.

(** [ansible_create_playbook] (lines 607-641).  The file is opened for
    writing once and receives the description line, when there is one,
    and the content. *)
Definition ansible_create_playbook (playbook_name content description : str)
  : M str :=
  if Py.falsy playbook_name then ret ("ERROR: No playbook name specified." : str)
  else if Py.falsy content then ret ("ERROR: No playbook content provided." : str)
  else
    let playbook_name := sanitize_filename playbook_name in
    let playbook_name :=
      if negb (is_yaml_name playbook_name) then playbook_name ++ ".yml"
      else playbook_name in
    let playbook_path := Path.join PLAYBOOKS_DIR playbook_name in
    let* ex := OS.path_exists playbook_path in
    if ex then
      ret ("ERROR: Playbook '" ++ playbook_name ++
           "' already exists. Use ansible_edit_playbook to modify.")
    else
      OS.makedirs PLAYBOOKS_DIR >>
      try_except
        (OS.write_text playbook_path
           ((if negb (Py.falsy description) then "# " ++ description ++ nl else [])
            ++ content) >>
         let cmd : list str :=
           [ "ansible-playbook" : str ; "-i" : str ; INVENTORY_PATH ; playbook_path ;
             "--syntax-check" : str ] in
         let* result := subprocess_run (RunArgs cmd 60 ANSIBLE_DIR []) in
         if bool_decide (returncode result = 0%Z) then
           ret ("SUCCESS: Playbook '" ++ playbook_name ++ "' created and validated." ++
                nl ++ "Path: " ++ playbook_path)
         else
           ret ("WARNING: Playbook created but has syntax errors:" ++ nl ++
                stdout result ++ nl ++ stderr result))
        (λ e, ret ("ERROR: Failed to create playbook: " ++ exn_msg e)).

(** [ansible_read_playbook] (lines 644-670). *)
Definition ansible_read_playbook (playbook_name : str) : M str :=
  if Py.falsy playbook_name then
    let* available := get_available_playbooks in
    match available with
    | [] => ret ("ERROR: No playbooks found." : str)
    | _ => ret ("Available playbooks:" ++ nl ++ "- " ++
                Py.join (nl ++ "- ") available)
    end
  else
    let playbook_name := playbook_file_name playbook_name in
    let* found := find_playbook playbook_name in
    match found with
    | None => ret ("ERROR: Playbook not found: " ++ playbook_name)
    | Some playbook_path =>
        try_except
          (let* content := OS.read_text playbook_path in
           ret ("=== PLAYBOOK: " ++ playbook_name ++ " ===" ++ nl ++ nl ++ content))
          (λ e, ret ("ERROR: Failed to read playbook: " ++ exn_msg e))
    end.

(** [ansible_edit_playbook] (lines 673-711). *)
Definition ansible_edit_playbook (playbook_name content : str) : M str :=
  if Py.falsy playbook_name then no_playbook_specified
  else if Py.falsy content then ret ("ERROR: No new content provided." : str)
  else
    let playbook_name := playbook_file_name playbook_name in
    let* found := find_playbook playbook_name in
    match found with
    | None => ret ("ERROR: Playbook not found: " ++ playbook_name)
    | Some playbook_path =>
        let* backup_path := backup_file playbook_path in
        try_except
          (OS.write_text playbook_path content >>
           let cmd : list str :=
             [ "ansible-playbook" : str ; "-i" : str ; INVENTORY_PATH ; playbook_path ;
               "--syntax-check" : str ] in
           let* result := subprocess_run (RunArgs cmd 60 ANSIBLE_DIR []) in
           if bool_decide (returncode result = 0%Z) then
             ret ("SUCCESS: Playbook updated." ++ nl ++ "Backup: " ++
                  Path.basename backup_path)
           else
             ret ("WARNING: Playbook updated but has syntax errors:" ++ nl ++
                  stdout result ++ nl ++ stderr result))
          (λ e, ret ("ERROR: Failed to update playbook: " ++ exn_msg e))
    end.

(** *** Templates *)

(** [name.endswith(('.j2', '.jinja2'))]. *)
Definition is_template_name (f : str) : bool :=
  Py.endswith f ".j2" || Py.endswith f ".jinja2".

(** [ansible_create_template] (lines 1033-1054). *)
Definition ansible_create_template (template_name content : str) : M str :=
  if Py.falsy template_name then ret ("ERROR: No template name specified." : str)
  else if Py.falsy content then ret ("ERROR: No template content provided." : str)
  else
    let template_name := sanitize_filename template_name in
    let template_name :=
      if negb (is_template_name template_name) then template_name ++ ".j2"
      else template_name in
    OS.makedirs TEMPLATES_DIR >>
    let filepath := Path.join TEMPLATES_DIR template_name in
    let* ex := OS.path_exists filepath in
    if ex then ret ("ERROR: Template '" ++ template_name ++ "' already exists.")
    else
      OS.write_text filepath content >>
      ret ("SUCCESS: Template '" ++ template_name ++ "' created.").

(** *** Device tools *)

(** [ansible_adhoc_command] (lines 814-828). *)
Definition ansible_adhoc_command (module_name module_args target_hosts : str)
  : M str :=
  if Py.falsy module_name then
    ret ("ERROR: No module specified. Common modules: junipernetworks.junos.junos_command, junipernetworks.junos.junos_config, ping, raw" : str)
  else
    let module_name := sanitize_input module_name in
    let target_hosts := or_default (sanitize_input target_hosts) "all" in
    let cmd : list str :=
      [ "ansible" : str ; "-i" : str ; INVENTORY_PATH ; target_hosts ;
        "-m" : str ; module_name ] in
    let cmd :=
      if negb (Py.falsy module_args) then cmd ++ [ "-a" : str ; module_args ]
      else cmd in
    run_ansible_command cmd default_timeout.

(** [ansible_get_facts] (lines 845-858). *)
Definition ansible_get_facts (target_hosts gather_subset : str) : M str :=
  let target_hosts := or_default (sanitize_input target_hosts) "all" in
  let module_args : str :=
    if negb (Py.falsy gather_subset)
    then "gather_subset=" ++ sanitize_input gather_subset else [] in
  let cmd : list str :=
    [ "ansible" : str ; "-i" : str ; INVENTORY_PATH ; target_hosts ;
      "-m" : str ; "junipernetworks.junos.junos_facts" : str ] in
  let cmd :=
    if negb (Py.falsy module_args) then cmd ++ [ "-a" : str ; module_args ]
    else cmd in
  run_ansible_command cmd 180.

(** [ansible_get_config] (lines 861-873). *)
Definition ansible_get_config (target_hosts config_format : str) : M str :=
  let target_hosts := or_default (sanitize_input target_hosts) "all" in
  let config_format := or_default (sanitize_input config_format) "text" in
  if negb (Py.str_in config_format
             [ "text" : str ; "set" : str ; "json" : str ; "xml" : str ])
  then ret ("ERROR: Invalid format. Use: text, set, json, xml" : str)
  else
    let module_args := "display=" ++ config_format in
    let cmd : list str :=
      [ "ansible" : str ; "-i" : str ; INVENTORY_PATH ; target_hosts ;
        "-m" : str ; "junipernetworks.junos.junos_config" : str ;
        "-a" : str ; module_args ] in
    run_ansible_command cmd 180.

(** [ansible_run_command] (lines 876-890). *)
Definition ansible_run_command (target_hosts commands : str) : M str :=
  if Py.falsy commands then
    ret ("ERROR: No commands specified. Example: commands='show version' or 'show version,show interfaces'" : str)
  else
    let target_hosts := or_default (sanitize_input target_hosts) "all" in
    let cmd_list := map Py.strip (Py.split "," commands) in
    let cmd_json := json_dumps cmd_list in
    let module_args := "commands=" ++ cmd_json in
    let cmd : list str :=
      [ "ansible" : str ; "-i" : str ; INVENTORY_PATH ; target_hosts ;
        "-m" : str ; "junipernetworks.junos.junos_command" : str ;
        "-a" : str ; module_args ] in
    run_ansible_command cmd 180.

(** [ansible_push_config] (lines 893-919). *)
Definition ansible_push_config
    (target_hosts config_lines config_format commit check_mode : str) : M str :=
  if Py.falsy target_hosts then ret ("ERROR: No target hosts specified." : str)
  else if Py.falsy config_lines then ret ("ERROR: No configuration provided." : str)
  else
    let target_hosts := sanitize_input target_hosts in
    let config_format := or_default (sanitize_input config_format) "set" in
    if negb (Py.str_in config_format [ "set" : str ; "text" : str ; "json" : str ])
    then ret ("ERROR: Invalid format. Use: set, text, json" : str)
    else
      let lines_list :=
        map Py.strip
          (filter (λ line, Is_true (negb (Py.falsy (Py.strip line))))
             (Py.split LF config_lines)) in
      let lines_json := json_dumps lines_list in
      let commit_flag : str := if affirmative commit then "yes" else "no" in
      let module_args :=
        "lines=" ++ lines_json ++ " update=merge commit=" ++ commit_flag in
      let cmd : list str :=
        [ "ansible" : str ; "-i" : str ; INVENTORY_PATH ; target_hosts ;
          "-m" : str ; "junipernetworks.junos.junos_config" : str ;
          "-a" : str ; module_args ] in
      if affirmative check_mode then
        let cmd := cmd ++ [ "--check" : str ] in
        let* out := run_ansible_command cmd 180 in
        ret ("=== DRY RUN ===" ++ nl ++ out)
      else run_ansible_command cmd 180.

End Server.

(** ** Statements of the specification, in its own words *)

(** [sanitizeArgument]: the shell metacharacters removed, then the
    surrounding whitespace. *)
Definition sanitizeArgument_spec (value : str) : str :=
  Py.strip (filter (λ c, c ∉ dangerous_chars) value).

(** The summarizer's markers. *)
Definition is_recap (line : str) : bool := Py.contains "PLAY RECAP" line.

Definition is_failure (line : str) : bool :=
  Py.contains "fatal:" (Py.lower line) || Py.contains "failed:" (Py.lower line).

Definition is_change (line : str) : bool :=
  Py.contains "changed:" (Py.lower line) && negb (Py.contains "ok=" (Py.lower line)).

(** The lines the summary keeps: all of them from the first recap line on,
    before it the failure and change lines. *)
Fixpoint kept_lines (lines : list str) : list str :=
  match lines with
  | [] => []
  | l :: ls =>
      if is_recap l then l :: ls
      else if is_failure l || is_change l then l :: kept_lines ls
      else kept_lines ls
  end.

(** A text free of recap, failure and change markers. *)
Definition marker_free (c : str) : Prop :=
  Py.contains "PLAY RECAP" c = false ∧
  Py.contains "fatal:" (Py.lower c) = false ∧
  Py.contains "failed:" (Py.lower c) = false ∧
  Py.contains "changed:" (Py.lower c) = false.

(** For normalized paths: [p] is [root] or lies under it. *)
Definition within (root p : str) : Prop :=
  p = root ∨ (if Py.endswith root "/" then root else root ++ "/") `prefix_of` p.

(** The path the inline checks of [ansible_read_file] and
    [ansible_write_file] look at. *)
Definition resolved (root file_path : str) : str :=
  Path.normpath (Path.join root (Py.lstrip_chars "/" file_path)).

(** The text [ansible_add_host] takes as the current document: empty when
    there is no inventory file, the file's text otherwise. *)
Definition inventory_text (root : str) (f : gmap str node) : option str :=
  match f !! INVENTORY_PATH root with
  | None => Some []
  | Some (File c) => Some (OS.universal_newlines c)
  | Some Dir => None
  end.

(** [p] can be created or overwritten as a regular file: it is not a
    directory and the directory it lives in exists. *)
Definition can_create (f : gmap str node) (p : str) : Prop :=
  f !! p ≠ Some Dir ∧ OS.parent_ok f p = Ok tt.

(** The name [backup_file] gives the backup of [p] at time [t]. *)
Definition backup_name (p : str) (t : datetime) : str :=
  p ++ "." ++ strftime_stamp t ++ ".bak".

(** The file system after [backup_file p] at time [t]: a copy of [p] under
    its backup name when [p] is a regular file. *)
Definition with_backup (f : gmap str node) (p : str) (t : datetime)
  : gmap str node :=
  match f !! p with
  | Some (File c) => <[backup_name p t := File c]> f
  | _ => f
  end.

(** The calls [backup_file p] makes, most recent first. *)
Definition backup_calls (f : gmap str node) (p : str) (t : datetime)
  : list syscall :=
  match f !! p with
  | Some _ => [SysCopy p (backup_name p t); SysExists p]
  | None => [SysExists p]
  end.

(** The calls a run added to the log all pass the test [P]. *)
Definition added_calls (P : syscall → bool) (w w' : World) : Prop :=
  ∃ new, calls w' = new ++ calls w ∧ Forall (λ c, P c = true) new.

(** A computation that leaves the file system as it found it and makes no
    mutating call. *)
Definition read_only {A} (m : M A) : Prop :=
  ∀ w, fs (m w).2 = fs w ∧ added_calls (λ c, negb (is_mutation c)) w (m w).2.

(** The shape [YYYYMMDD_HHMMSS]. *)
Definition is_digit (c : ascii) : bool :=
  (48 <=? nat_of_ascii c)%nat && (nat_of_ascii c <=? 57)%nat.

Definition is_stamp (s : str) : bool :=
  match s with
  | [y1; y2; y3; y4; m1; m2; d1; d2; u; h1; h2; n1; n2; s1; s2] =>
      forallb is_digit [y1; y2; y3; y4; m1; m2; d1; d2; h1; h2; n1; n2; s1; s2]
      && bool_decide (u = "_"%char)
  | _ => false
  end.

Definition two_digits (s : str) : bool :=
  match s with [a; b] => is_digit a && is_digit b | _ => false end.

Definition four_digits (s : str) : bool :=
  match s with
  | [a; b; c; d] => is_digit a && is_digit b && is_digit c && is_digit d
  | _ => false
  end.

(** The dates [datetime.now()] gives with a four-digit year. *)
Definition valid_datetime (t : datetime) : Prop :=
  (1000 ≤ year t < 100 * 100 ∧ 1 ≤ month t ≤ 12 ∧ 1 ≤ day t ≤ 31 ∧
   hour t ≤ 23 ∧ minute t ≤ 59 ∧ second t ≤ 59)%nat.

(** The arguments [run_ansible_command] passes to [subprocess.run], and
    its report of a timeout. *)
Definition runner_args (root : str) (cmd : list str) (timeout : Z) : run_args :=
  RunArgs cmd timeout root
    [ ("ANSIBLE_HOST_KEY_CHECKING" : str, "False" : str);
      ("ANSIBLE_FORCE_COLOR" : str, "false" : str) ].

Definition timeout_report (timeout : Z) : str :=
  "ERROR: Command timed out after " ++ Py.str_of_Z timeout ++ " seconds.".

(** The validation command of [ansible_write_inventory]. *)
Definition validation_args (root : str) : run_args :=
  RunArgs [ "ansible-inventory" : str ; "-i" : str ; INVENTORY_PATH root ;
            "--list" : str ] 30 root [].

(** The record line and the group name [ansible_add_host] works with. *)
Definition host_record (hostname ansible_host extra_vars : str) : str :=
  let host_line :=
    sanitize_input hostname ++ " ansible_host=" ++ sanitize_input ansible_host in
  if negb (Py.falsy extra_vars) then host_line ++ " " ++ sanitize_input extra_vars
  else host_line.

Definition group_or_all (group : str) : str :=
  let g := sanitize_input group in if Py.falsy g then "all" else g.

(** Does the line, trimmed, read as the header?  The test of
    [ansible_add_host]. *)
Definition is_header (header line : str) : bool :=
  bool_decide (Py.strip line = header).

(** [addHost] in the words of the specification: the record goes after the
    first line equal to the header; without such a line a blank separator
    (for a non-empty document whose last line is not blank), the header and
    the record are appended. *)
Fixpoint insert_after_first (header record : str) (lines : list str)
  : option (list str) :=
  match lines with
  | [] => None
  | l :: ls =>
      if bool_decide (l = header) then Some (l :: record :: ls)
      else cons l <$> insert_after_first header record ls
  end.

Definition addHost_spec (doc group record : str) : str :=
  let lines := Py.split LF doc in
  let header := "[" ++ group ++ "]" in
  Py.join nl
    (match insert_after_first header record lines with
     | Some ls => ls
     | None =>
         lines ++
         (if negb (Py.falsy doc) &&
             negb (Py.falsy (Py.strip (default [] (last lines))))
          then [[]] else []) ++
         [header; record]
     end).

(** The test of [ansible_remove_host] on a line: trimmed, it is the host
    id or starts with the host id and a space. *)
Definition names_host (hostname line : str) : bool :=
  Py.startswith (Py.strip line) (hostname ++ " ")
  || bool_decide (Py.strip line = hostname).

(** The same test on the line as it stands, without its terminator: the
    reading of the specification. *)
Definition names_host_verbatim (hostname line : str) : bool :=
  let body := Py.rstrip_chars [LF] line in
  bool_decide (body = hostname) || Py.startswith body (hostname ++ " ").

(** ** Notions for the further properties *)

(** [q] lies under the directory [d]. *)
Definition under (d q : str) : Prop := (d ++ "/") `prefix_of` q.

(** Every path that is not under [d] has in [w'] the node it has in [w]. *)
Definition keeps_outside (d : str) (w w' : World) : Prop :=
  ∀ q, ¬ under d q → fs w' !! q = fs w !! q.

(** The lines of a text file: each one ends with its newline and holds
    no other, except that the last one may lack it. *)
Definition ends_line (l : str) : Prop := ∃ body, l = body ++ [LF] ∧ LF ∉ body.

Definition open_line (l : str) : Prop := l ≠ [] ∧ LF ∉ l.

Fixpoint lines_wf (ls : list str) : Prop :=
  match ls with
  | [] => True
  | l :: ls' => (ends_line l ∨ (open_line l ∧ ls' = [])) ∧ lines_wf ls'
  end.

(** Where the playbook tools find the playbook [name]: under the
    playbooks directory, else directly under the root. *)
Definition located (root : str) (f : gmap str node) (name : str) : option str :=
  if bool_decide (is_Some (f !! Path.join (PLAYBOOKS_DIR root) name))
  then Some (Path.join (PLAYBOOKS_DIR root) name)
  else if bool_decide (is_Some (f !! Path.join root name))
       then Some (Path.join root name)
       else None.

(** The calls [find_playbook] makes, most recent first. *)
Definition find_calls (root : str) (f : gmap str node) (name : str) : list syscall :=
  if bool_decide (is_Some (f !! Path.join (PLAYBOOKS_DIR root) name))
  then [SysExists (Path.join (PLAYBOOKS_DIR root) name)]
  else [SysExists (Path.join root name);
        SysExists (Path.join (PLAYBOOKS_DIR root) name)].

(** An argument without shell metacharacters. *)
Definition clean (a : str) : Prop := ∀ c, c ∈ dangerous_chars → c ∉ a.

(** The syntax check of [ansible_create_playbook] and
    [ansible_edit_playbook]. *)
Definition syntax_check_args (root p : str) : run_args :=
  RunArgs [ "ansible-playbook" : str ; "-i" : str ; INVENTORY_PATH root ; p ;
            "--syntax-check" : str ] 60 root [].

(** Every call a computation makes passes the test [P]. *)
Definition only_calls {A} (P : syscall → bool) (m : M A) : Prop :=
  ∀ w, added_calls P w (m w).2.

(** A call that changes nothing by itself, and when it starts a process
    starts it in check mode. *)
Definition query_or_dry_run (c : syscall) : bool :=
  match c with
  | SysRun a => bool_decide (("--check" : str) ∈ run_cmd a)
  | _ => negb (is_mutation c)
  end.

(** A call that neither changes anything nor starts a process. *)
Definition is_query (c : syscall) : bool :=
  match c with
  | SysRun _ => false
  | _ => negb (is_mutation c)
  end.

(** The file name [ansible_create_playbook] works with (lines 615-617):
    sanitized as a file name, with [.yml] added unless it ends in
    [.yml] or [.yaml]. *)
Definition new_playbook_name (playbook_name : str) : str :=
  let n := sanitize_filename playbook_name in
  if negb (is_yaml_name n) then n ++ ".yml" else n.

(** The file name [ansible_create_template] works with (lines
    1041-1043). *)
Definition new_template_name (template_name : str) : str :=
  let n := sanitize_filename template_name in
  if negb (is_template_name n) then n ++ ".j2" else n.

(** What [ansible_create_playbook] writes: the description as a comment
    line, when there is one, then the content. *)
Definition playbook_text (description content : str) : str :=
  (if negb (Py.falsy description) then "# " ++ description ++ nl else [])
  ++ content.

(** A printable ASCII character. *)
Definition printable (c : ascii) : bool :=
  (32 <=? nat_of_ascii c)%nat && (nat_of_ascii c <=? 126)%nat.

(** The command line of the device tools: [ansible -i <inventory>
    <target> -m <module>] and what follows. *)
Definition device_cmd (root target module : str) (rest : list str) : list str :=
  [ "ansible" : str ; "-i" : str ; INVENTORY_PATH root ; target ; "-m" : str ; module ]
  ++ rest.


(** ** Sample worlds *)

Definition sample_root : str := "/root/ansible".

(** A managed root with an inventory file holding [doc]. *)
Definition sample_world (doc : str) : World :=
  mkWorld
    (list_to_map
       [ ("/" : str, Dir); ("/root" : str, Dir); ("/root/ansible" : str, Dir);
         ("/root/ansible/inventory" : str, Dir);
         ("/root/ansible/playbooks" : str, Dir);
         ("/root/ansible/inventory/hosts.ini" : str, File doc) ])
    (DateTime 2026 11 3 9 5 0) [].

(** An engine whose every run exceeds its timeout, and one whose every
    run exits with code 1; neither touches the file system. *)
Definition engine_timeout (a : run_args) (f : gmap str node)
  : proc_result * gmap str node :=
  (Failed (Exn TimeoutExpired
             ("Command timed out after " ++ Py.str_of_Z (run_timeout a) ++ " seconds")),
   f).

Definition engine_rejects (a : run_args) (f : gmap str node)
  : proc_result * gmap str node :=
  (Completed 1 [] ("ERROR! Attempted to read inventory as ini file" : str), f).

(** A managed root with its directories, an inventory, a configuration
    file, a playbook, a variables file and a template. *)
Definition sample_site : World :=
  mkWorld
    (list_to_map
       [ ("/" : str, Dir); ("/root" : str, Dir); ("/root/ansible" : str, Dir);
         ("/root/ansible/inventory" : str, Dir);
         ("/root/ansible/playbooks" : str, Dir);
         ("/root/ansible/group_vars" : str, Dir);
         ("/root/ansible/host_vars" : str, Dir);
         ("/root/ansible/templates" : str, Dir);
         ("/root/ansible/ansible.cfg" : str, File "[defaults]");
         ("/root/ansible/inventory/hosts.ini" : str,
          File ("[core]" ++ nl ++ "sw1 ansible_host=10.0.0.1" ++ nl));
         ("/root/ansible/playbooks/site.yml" : str,
          File ("# Site" ++ nl ++ "- hosts: all"));
         ("/root/ansible/group_vars/core.yml" : str, File "vlan: 10");
         ("/root/ansible/templates/base.j2" : str, File "hostname sw") ])
    (DateTime 2026 11 3 9 5 0) [].

(** The managed root /root/ansible beside a directory /root/ansible_old
    that holds a file. *)
Definition sibling_world : World :=
  mkWorld
    (list_to_map
       [ ("/" : str, Dir); ("/root" : str, Dir); ("/root/ansible" : str, Dir);
         ("/root/ansible_old" : str, Dir);
         ("/root/ansible_old/hosts.ini" : str, File "secret") ])
    (DateTime 2026 11 3 9 5 0) [].

(** An engine whose every run succeeds and prints "ok". *)
Definition engine_ok (a : run_args) (f : gmap str node)
  : proc_result * gmap str node :=
  (Completed 0 ("ok" : str) [], f).

(** Unfold the string literals of the goal into lists of characters. *)
Ltac lits := cbv [list_ascii_of_string].
Tactic Notation "lits" "in" hyp(H) := cbv [list_ascii_of_string] in H.

(** ** The model at work *)

Example sanitize_input_ex :
  sanitize_input "rm -rf / ; echo hi" = "rm -rf /  echo hi".
Proof. reflexivity. Qed.

Example sanitize_filename_ex :
  sanitize_filename "../etc/passwd" = "etc_passwd".
Proof. reflexivity. Qed.

Example normpath_ex1 : Path.normpath "/root/ansible/../etc/passwd" = "/root/etc/passwd".
Proof. reflexivity. Qed.

Example normpath_ex2 : Path.normpath "//a/./b//c/.." = "//a/b".
Proof. reflexivity. Qed.

Example normpath_ex3 : Path.normpath "../../x" = "../../x".
Proof. reflexivity. Qed.

Example normpath_ex4 : Path.normpath "/../x/" = "/x".
Proof. reflexivity. Qed.

Example dirname_ex : Path.dirname "/root/ansible/inventory/hosts.ini" = "/root/ansible/inventory"
  ∧ Path.basename "/root/ansible/inventory/hosts.ini" = "hosts.ini"
  ∧ Path.dirname "/x" = "/" ∧ Path.dirname "x" = [].
Proof. repeat split; reflexivity. Qed.

Example safe_path_join_ex :
  safe_path_join "/root/ansible/playbooks" "../../etc/passwd"
  = inr ("/root/ansible/playbooks/etc_passwd" : str).
Proof. reflexivity. Qed.

Example strftime_ex :
  strftime_stamp (DateTime 2026 11 3 9 5 0) = "20261103_090500".
Proof. reflexivity. Qed.

Example zero_pad_ex :
  zero_pad 2 7 = "07" ∧ zero_pad 2 42 = Py.str_of_Z 42
  ∧ zero_pad 4 2026 = Py.str_of_Z 2026 ∧ zero_pad 2 123 = "123".
Proof. repeat split; reflexivity. Qed.

Example add_host_text_empty :
  add_host_text "" "core" "sw1 ansible_host=10.0.0.1"
  = nl ++ "[core]" ++ nl ++ "sw1 ansible_host=10.0.0.1".
Proof. reflexivity. Qed.

(** ** Facts about strings *)

Section StringFacts.

Implicit Types (s t needle : str) (c : ascii).

Lemma drop_while_suffix {A} (p : A → bool) (l : list A) :
  Py.drop_while p l `suffix_of` l.
Proof.
  induction l as [|x l IH]; simpl; [done|].
  destruct (p x); [by apply suffix_cons_r | done].
Qed.

Lemma elem_of_lstrip_chars chars s c :
  c ∈ Py.lstrip_chars chars s → c ∈ s.
Proof.
  unfold Py.lstrip_chars. intros Hc.
  destruct (drop_while_suffix (λ c, Py.char_in c chars) s) as [k Hk].
  rewrite Hk. apply elem_of_app. by right.
Qed.

Lemma elem_of_rstrip_chars chars s c :
  c ∈ Py.rstrip_chars chars s → c ∈ s.
Proof.
  unfold Py.rstrip_chars. rewrite elem_of_reverse. intros Hc.
  destruct (drop_while_suffix (λ c, Py.char_in c chars) (reverse s)) as [k Hk].
  apply elem_of_reverse. rewrite Hk. apply elem_of_app. by right.
Qed.

Lemma elem_of_strip_chars chars s c :
  c ∈ Py.strip_chars chars s → c ∈ s.
Proof.
  unfold Py.strip_chars. intros Hc.
  by apply (elem_of_lstrip_chars chars), (elem_of_rstrip_chars chars).
Qed.

(** Deleting the characters of a list one after the other is one pass of
    [filter]. *)
Lemma fold_remove_char (cs : list ascii) s :
  fold_left (λ v char, Py.remove_char char v) cs s = filter (λ c, c ∉ cs) s.
Proof.
  revert s. induction cs as [|a cs IH]; intros s; simpl.
  - induction s as [|x s IHs]; [done|].
    rewrite filter_cons_True by apply not_elem_of_nil. by rewrite <- IHs.
  - rewrite IH. unfold Py.remove_char. rewrite list_filter_filter.
    apply list_filter_iff. intros x. rewrite not_elem_of_cons. tauto.
Qed.

Lemma startswith_prefix s p : Py.startswith s p = true ↔ p `prefix_of` s.
Proof.
  revert s. induction p as [|a p IH]; intros s; simpl.
  - split; [intros _; apply prefix_nil | done].
  - destruct s as [|b s].
    + split; [done | intros H; by apply prefix_nil_not in H].
    + rewrite andb_true_iff, bool_decide_eq_true, IH. split.
      * intros [-> H]. by apply prefix_cons.
      * intros H. split; [by apply prefix_cons_inv_1 in H | by apply prefix_cons_inv_2 in H].
Qed.

Lemma contains_infix needle s :
  Py.contains needle s = true ↔ ∃ a b, s = a ++ needle ++ b.
Proof.
  induction s as [|x s IH]; simpl.
  - rewrite orb_false_r, startswith_prefix. split.
    + intros [k Hk]. exists [], k. done.
    + intros (a & b & H). symmetry in H.
      apply app_eq_nil in H as [-> H]. apply app_eq_nil in H as [-> _].
      apply prefix_nil.
  - rewrite orb_true_iff, startswith_prefix, IH. split.
    + intros [[k Hk] | (a & b & ->)].
      * exists [], k. done.
      * exists (x :: a), b. done.
    + intros (a & b & H). destruct a as [|y a]; simpl in H.
      * left. exists b. done.
      * right. injection H as -> ->. eauto.
Qed.

Lemma contains_app needle a l b :
  Py.contains needle l = true → Py.contains needle (a ++ l ++ b) = true.
Proof.
  rewrite !contains_infix. intros (u & v & ->).
  exists (a ++ u), (v ++ b). by rewrite <- !app_assoc.
Qed.

Lemma split_nonempty sep s : Py.split sep s ≠ [].
Proof.
  destruct s as [|c s]; simpl; [done|].
  case_bool_decide; [done|]. by destruct (Py.split sep s).
Qed.

Lemma join_split sep s : Py.join [sep] (Py.split sep s) = s.
Proof.
  induction s as [|c s IH]; simpl; [done|].
  case_bool_decide as Hc.
  - subst c. destruct (Py.split sep s) as [|w ws] eqn:Hs.
    + by destruct (split_nonempty sep s).
    + simpl in *. by rewrite IH.
  - destruct (Py.split sep s) as [|w ws] eqn:Hs.
    + by destruct (split_nonempty sep s).
    + destruct ws; simpl in *; by rewrite <- IH.
Qed.

Lemma elem_of_join sep (parts : list str) l :
  l ∈ parts → ∃ a b, Py.join sep parts = a ++ l ++ b.
Proof.
  induction parts as [|p ps IH]; [by intros ?%elem_of_nil|].
  intros [->|H]%elem_of_cons.
  - destruct ps as [|q ps]; simpl.
    + exists [], []. by rewrite app_nil_r.
    + exists [], (sep ++ Py.join sep (q :: ps)). done.
  - destruct (IH H) as (a & b & Hab). destruct ps as [|q ps]; [by apply elem_of_nil in H|].
    exists (p ++ sep ++ a), b.
    change (Py.join sep (p :: q :: ps)) with (p ++ sep ++ Py.join sep (q :: ps)).
    rewrite Hab. by rewrite <- !app_assoc.
Qed.

Lemma elem_of_split sep s l :
  l ∈ Py.split sep s → ∃ a b, s = a ++ l ++ b.
Proof.
  intros H. destruct (elem_of_join [sep] _ _ H) as (a & b & Hab).
  rewrite join_split in Hab. eauto.
Qed.

Lemma contains_line needle sep s l :
  l ∈ Py.split sep s → Py.contains needle l = true → Py.contains needle s = true.
Proof.
  intros (a & b & ->)%elem_of_split. apply contains_app.
Qed.

Lemma contains_lower_line needle sep s l :
  l ∈ Py.split sep s → Py.contains needle (Py.lower l) = true →
  Py.contains needle (Py.lower s) = true.
Proof.
  intros (a & b & ->)%elem_of_split. unfold Py.lower.
  rewrite !map_app. apply contains_app.
Qed.
Lemma head_drop_while {A} (p : A → bool) (l : list A) x :
  head (Py.drop_while p l) = Some x → p x = false.
Proof.
  induction l as [|y l IH]; simpl; [done|].
  destruct (p y) eqn:Hy; [done|]. simpl. by intros [= <-].
Qed.

Lemma drop_while_prefix_head {A} (p : A → bool) (l : list A) x :
  head (reverse (Py.drop_while p (reverse l))) = Some x → head l = Some x.
Proof.
  destruct (drop_while_suffix p (reverse l)) as [k Hk].
  intros H. apply (f_equal reverse) in Hk.
  rewrite reverse_involutive, reverse_app in Hk. rewrite Hk.
  destruct (reverse (Py.drop_while p (reverse l))); [done|]. done.
Qed.

Lemma strip_chars_head chars s c :
  head (Py.strip_chars chars s) = Some c → Py.char_in c chars = false.
Proof.
  unfold Py.strip_chars, Py.rstrip_chars. intros H%drop_while_prefix_head.
  by apply (head_drop_while (λ c, Py.char_in c chars)) in H.
Qed.

Lemma strip_chars_last chars s c :
  last (Py.strip_chars chars s) = Some c → Py.char_in c chars = false.
Proof.
  unfold Py.strip_chars, Py.rstrip_chars. rewrite last_reverse. intros H.
  by apply (head_drop_while (λ c, Py.char_in c chars)) in H.
Qed.

End StringFacts.

(** ** Decimal numbers *)

Section Decimal.

Lemma string_of_uint_digits (d : Decimal.uint) c :
  c ∈ list_ascii_of_string (NilEmpty.string_of_uint d) → is_digit c = true.
Proof.
  induction d; cbn [NilEmpty.string_of_uint list_ascii_of_string];
    [by intros ?%elem_of_nil | ..];
    (intros [->|H]%elem_of_cons; [reflexivity | by apply IHd]).
Qed.

Lemma str_of_Z_chars z c :
  c ∈ Py.str_of_Z z → is_digit c = true ∨ c = "-"%char.
Proof.
  unfold Py.str_of_Z, NilZero.string_of_int.
  assert (Hu : ∀ d, c ∈ list_ascii_of_string (NilZero.string_of_uint d) →
                    is_digit c = true).
  { intros d. unfold NilZero.string_of_uint. destruct d;
      try apply string_of_uint_digits.
    lits. intros [->|[]%elem_of_nil]%elem_of_cons. reflexivity. }
  destruct (Z.to_int z) as [d|d].
  - intros H. left. by apply (Hu d).
  - cbn [list_ascii_of_string]. intros [->|H]%elem_of_cons; [by right|].
    left. by apply (Hu d).
Qed.

Lemma contains_elem needle s c :
  Py.contains needle s = true → c ∈ needle → c ∈ s.
Proof.
  intros (a & b & ->)%contains_infix Hc.
  apply elem_of_app. right. apply elem_of_app. by left.
Qed.

(** No timeout report mentions a return code. *)
Lemma timeout_report_no_return_code timeout :
  Py.contains "RETURN CODE" (timeout_report timeout) = false.
Proof.
  destruct (Py.contains _ _) eqn:E; [|done].
  apply (contains_elem _ _ "U"%char) in E.
  2:{ lits. repeat constructor. }
  unfold timeout_report in E.
  apply elem_of_app in E as [E|E].
  { lits in E. vm_compute in E.
    repeat (apply elem_of_cons in E as [E|E]; [discriminate E|]).
    by apply elem_of_nil in E. }
  apply elem_of_app in E as [E|E].
  { apply str_of_Z_chars in E as [E|E]; discriminate E. }
  lits in E.
  repeat (apply elem_of_cons in E as [E|E]; [discriminate E|]).
  by apply elem_of_nil in E.
Qed.
End Decimal.

(** ** The time stamp *)

Section Stamp.

Lemma is_digit_digit m : (m < 10)%nat → is_digit (digit m) = true.
Proof.
  intros Hm. unfold is_digit, digit.
  rewrite nat_ascii_embedding by lia.
  apply andb_true_iff. split; apply Nat.leb_le; lia.
Qed.

Lemma zero_pad_2 n : (n < 100)%nat → two_digits (zero_pad 2 n) = true.
Proof.
  intros Hn. unfold zero_pad.
  assert ((n <? 10 ^ 2)%nat = true) as -> by (apply Nat.ltb_lt; exact Hn).
  cbn [digits app two_digits].
  rewrite !is_digit_digit; [done | |]; apply Nat.mod_upper_bound; lia.
Qed.

Lemma zero_pad_4 n : (n < 100 * 100)%nat → four_digits (zero_pad 4 n) = true.
Proof.
  intros Hn. unfold zero_pad.
  assert ((n <? 10 ^ 4)%nat = true) as -> by (apply Nat.ltb_lt; exact Hn).
  cbn [digits app four_digits].
  rewrite !is_digit_digit; [done | | | |]; apply Nat.mod_upper_bound; lia.
Qed.

Lemma strftime_stamp_shape t :
  valid_datetime t → is_stamp (strftime_stamp t) = true.
Proof.
  intros (Hy & Hm & Hd & Hh & Hn & Hs). unfold strftime_stamp.
  pose proof (zero_pad_4 (year t) ltac:(lia)) as Y.
  pose proof (zero_pad_2 (month t) ltac:(lia)) as Mo.
  pose proof (zero_pad_2 (day t) ltac:(lia)) as D.
  pose proof (zero_pad_2 (hour t) ltac:(lia)) as H.
  pose proof (zero_pad_2 (minute t) ltac:(lia)) as Mi.
  pose proof (zero_pad_2 (second t) ltac:(lia)) as S.
  destruct (zero_pad 4 (year t)) as [|y1 [|y2 [|y3 [|y4 [|]]]]]; try done.
  destruct (zero_pad 2 (month t)) as [|m1 [|m2 [|]]]; try done.
  destruct (zero_pad 2 (day t)) as [|d1 [|d2 [|]]]; try done.
  destruct (zero_pad 2 (hour t)) as [|h1 [|h2 [|]]]; try done.
  destruct (zero_pad 2 (minute t)) as [|n1 [|n2 [|]]]; try done.
  destruct (zero_pad 2 (second t)) as [|s1 [|s2 [|]]]; try done.
  unfold four_digits, two_digits in *. lits. cbn [app is_stamp forallb].
  repeat match goal with
         | H : _ && _ = true |- _ => apply andb_true_iff in H as [? ?]
         end.
  repeat match goal with
         | H : is_digit _ = true |- _ => rewrite H; clear H
         end.
  reflexivity.
Qed.
End Stamp.

(** ** Facts about paths *)

Section PathFacts.
Implicit Types (s a b base filename d name : str) (c sep : ascii).

Lemma split_app sep a b :
  Py.split sep (a ++ sep :: b) = Py.split sep a ++ Py.split sep b.
Proof.
  induction a as [|c a IH]; simpl.
  - by rewrite bool_decide_eq_true_2.
  - case_bool_decide; rewrite IH; [done|].
    destruct (Py.split sep a) as [|w ws] eqn:E; [by destruct (split_nonempty sep a)|done].
Qed.

Lemma split_no_sep sep s : sep ∉ s → Py.split sep s = [s].
Proof.
  induction s as [|c s IH]; [done|]. intros [Hc Hs]%not_elem_of_cons. simpl.
  rewrite bool_decide_eq_false_2 by done. by rewrite IH.
Qed.

Lemma endswith_slash a :
  Py.endswith a "/" = true → ∃ a0, a = a0 ++ "/".
Proof.
  unfold Py.endswith. lits. change (reverse ["/"%char]) with ["/"%char].
  destruct (reverse a) as [|x r] eqn:E; [done|]. cbn.
  rewrite andb_true_r. intros Hx%bool_decide_eq_true. subst x.
  exists (reverse r). apply (f_equal reverse) in E.
  rewrite reverse_involutive in E. by rewrite E, reverse_cons.
Qed.

Lemma startswith_slash s :
  Py.startswith s "/" = true → ∃ r, s = "/"%char :: r.
Proof.
  lits. destruct s as [|x r]; [done|]. cbn. rewrite andb_true_r.
  intros Hx%bool_decide_eq_true. subst x. eauto.
Qed.

(** The leading slashes are read off the first three characters. *)
Lemma initial_slashes_app base t :
  Py.startswith base "/" = true →
  (Py.endswith base "/" = false ∨ Py.startswith t "/" = false) →
  Path.initial_slashes (base ++ t) = Path.initial_slashes base.
Proof.
  intros [r ->]%startswith_slash H.
  assert (Ht : r = [] ∨ r = ["/"%char] → ∀ u t', t = u :: t' → u ≠ "/"%char).
  { intros Hr u t' ->. destruct H as [H|H].
    - by destruct Hr as [-> | ->].
    - lits in H. cbn in H. rewrite andb_true_r in H.
      apply bool_decide_eq_false in H. congruence. }
  unfold Path.initial_slashes. lits.
  destruct r as [|x [|y r]]; [| |reflexivity].
  - destruct t as [|u t]; [done|]. cbn.
    rewrite (bool_decide_eq_false_2 ("/"%char = u)); [done|].
    intros <-. exact (Ht (or_introl eq_refl) _ _ eq_refl eq_refl).
  - destruct (decide (x = "/"%char)) as [->|Hx].
    + destruct t as [|u t]; [done|]. cbn.
      rewrite (bool_decide_eq_false_2 ("/"%char = u)); [done|].
      intros <-. exact (Ht (or_intror eq_refl) _ _ eq_refl eq_refl).
    + cbn. rewrite !(bool_decide_eq_false_2 ("/"%char = x)) by done. done.
Qed.

Lemma fold_normpath_step_snoc k comps acc comp :
  fold_left (Path.normpath_step k) (comps ++ [comp]) acc
  = Path.normpath_step k (fold_left (Path.normpath_step k) comps acc) comp.
Proof. by rewrite fold_left_app. Qed.

Lemma normpath_step_skip k nc : Path.normpath_step k nc [] = nc.
Proof. reflexivity. Qed.

Lemma normpath_step_name k nc s :
  s ≠ [] → s ≠ "." → s ≠ ".." → Path.normpath_step k nc s = nc ++ [s].
Proof.
  intros H1 H2 H3. unfold Path.normpath_step, Py.str_in.
  rewrite bool_decide_eq_false_2.
  2:{ intros [->|[->|[]%elem_of_nil]%elem_of_cons]%elem_of_cons; done. }
  by rewrite (bool_decide_eq_true_2 (s ≠ "..")) by done.
Qed.

Lemma join_snoc (glue : str) (parts : list str) s :
  Py.join glue (parts ++ [s])
  = match parts with [] => s | _ => Py.join glue parts ++ glue ++ s end.
Proof.
  induction parts as [|p ps IH]; [done|].
  destruct ps as [|q ps]; [done|].
  change (Py.join glue ((p :: q :: ps) ++ [s]))
    with (p ++ glue ++ Py.join glue ((q :: ps) ++ [s])).
  rewrite IH.
  change (Py.join glue (p :: q :: ps)) with (p ++ glue ++ Py.join glue (q :: ps)).
  by rewrite <- !app_assoc.
Qed.

Lemma sanitize_filename_no_slash filename : "/"%char ∉ sanitize_filename filename.
Proof.
  unfold sanitize_filename. destruct (Py.falsy filename); [apply not_elem_of_nil|].
  intros H%elem_of_strip_chars. apply list_elem_of_fmap in H as (c & Hc & _).
  destruct (safe_filename_char c) eqn:E; [|done]. subst c. done.
Qed.

Lemma sanitize_filename_head filename c :
  head (sanitize_filename filename) = Some c → c ≠ "."%char.
Proof.
  unfold sanitize_filename. destruct (Py.falsy filename); [done|].
  intros H%strip_chars_head ->. done.
Qed.

Lemma not_startswith_slash s : "/"%char ∉ s → Py.startswith s "/" = false.
Proof.
  intros H. destruct (Py.startswith s "/") eqn:E; [|done].
  apply startswith_slash in E as [r ->]. destruct H. left.
Qed.

Lemma normpath_absolute base :
  Py.startswith base "/" = true →
  Path.normpath base
  = replicate (Path.initial_slashes base) "/"%char ++
    Py.join "/" (fold_left (Path.normpath_step (Path.initial_slashes base))
                   (Py.split "/" base) []).
Proof.
  intros Hb. unfold Path.normpath.
  destruct (startswith_slash _ Hb) as [r ->]. cbn [Py.falsy].
  assert (∃ n, Path.initial_slashes ("/"%char :: r) = S n) as [n ->].
  { unfold Path.initial_slashes. rewrite Hb. destruct (_ && _); eauto. }
  reflexivity.
Qed.

(** Joining a plain name to an absolute directory and normalizing adds
    the name as the last component. *)
Lemma normpath_join_name base s :
  Py.startswith base "/" = true →
  "/"%char ∉ s → s ≠ [] → head s ≠ Some "."%char →
  let k := Path.initial_slashes base in
  let nc := fold_left (Path.normpath_step k) (Py.split "/" base) [] in
  Path.normpath (Path.join base s) = replicate k "/"%char ++ Py.join "/" (nc ++ [s]).
Proof.
  intros Hb Hs Hne Hd k nc.
  assert (Hname : ∀ acc, Path.normpath_step k acc s = acc ++ [s]).
  { intros acc. apply normpath_step_name; [done| |]; intros ->; by destruct Hd. }
  assert (∃ t, Path.join base s = base ++ t
               ∧ (Py.endswith base "/" = false ∨ Py.startswith t "/" = false)
               ∧ fold_left (Path.normpath_step k) (Py.split "/" (base ++ t)) []
                 = nc ++ [s]) as (t & Hj & Ht & Hfold).
  { unfold Path.join. rewrite (not_startswith_slash s Hs).
    assert (Hf : Py.falsy base = false).
    { destruct (startswith_slash _ Hb) as [r ->]. done. }
    rewrite Hf. cbn [orb].
    destruct (Py.endswith base "/") eqn:E.
    - exists s. split; [done|]. split; [right; by apply not_startswith_slash|].
      destruct (endswith_slash _ E) as [a0 Ha0]. subst nc. rewrite Ha0.
      lits. rewrite <- app_assoc. cbn [app].
      rewrite !split_app, (split_no_sep _ s Hs). cbn [Py.split].
      by rewrite !fold_normpath_step_snoc, normpath_step_skip, Hname.
    - exists ("/" ++ s). split; [done|]. split; [by left|].
      lits. cbn [app]. rewrite split_app, (split_no_sep _ s Hs).
      by rewrite fold_normpath_step_snoc, Hname. }
  rewrite Hj, normpath_absolute.
  2:{ destruct (startswith_slash _ Hb) as [r ->]. done. }
  rewrite (initial_slashes_app base t Hb Ht). fold k. by rewrite Hfold.
Qed.

Lemma normpath_join_empty base :
  Py.startswith base "/" = true →
  Path.normpath (Path.join base []) = Path.normpath base.
Proof.
  intros Hb. unfold Path.join.
  assert (Hf : Py.falsy base = false).
  { destruct (startswith_slash _ Hb) as [r ->]. done. }
  rewrite Hf. change (Py.startswith [] "/") with false. cbn [orb].
  destruct (Py.endswith base "/") eqn:E; [by rewrite app_nil_r|].
  rewrite app_nil_r, !normpath_absolute; [|done|].
  2:{ destruct (startswith_slash _ Hb) as [r ->]. done. }
  rewrite (initial_slashes_app base _ Hb (or_introl E)).
  lits. rewrite split_app. cbn [Py.split].
  by rewrite fold_normpath_step_snoc, normpath_step_skip.
Qed.

Lemma startswith_app s t : Py.startswith (s ++ t) s = true.
Proof. apply startswith_prefix. by exists t. Qed.

(** For an absolute base directory [safe_path_join] does not raise: the
    name is sanitized into one plain component, and the result is the
    normalized base or lies under it. *)
Lemma safe_path_join_within base filename :
  Py.startswith base "/" = true →
  ∃ p, safe_path_join base filename = inr p ∧ within (Path.normpath base) p.
Proof.
  intros Hb. unfold safe_path_join.
  pose proof (sanitize_filename_no_slash filename) as Hs.
  pose proof (sanitize_filename_head filename) as Hh.
  destruct (sanitize_filename filename) as [|c s'] eqn:E.
  - rewrite normpath_join_empty by done.
    rewrite (proj2 (startswith_prefix _ _)) by done. cbn [negb].
    eexists. split; [done|]. by left.
  - rewrite normpath_join_name; [|done|done|done|].
    2:{ intros [= ->]. by apply (Hh "."%char). }
    rewrite (normpath_absolute base Hb).
    set (k := Path.initial_slashes base).
    set (nc := fold_left (Path.normpath_step k) (Py.split "/" base) []).
    rewrite join_snoc.
    assert (Hpre : (replicate k "/"%char ++ Py.join "/" nc) `prefix_of`
              (replicate k "/"%char ++
                 match nc with [] => c :: s' | _ => Py.join "/" nc ++ "/" ++ c :: s' end)).
    { apply prefix_app. destruct nc; [apply prefix_nil|]. by eexists. }
    rewrite (proj2 (startswith_prefix _ _) Hpre). cbn [negb].
    eexists. split; [done|]. right.
    destruct nc as [|n0 nc'].
    + cbn [Py.join]. rewrite app_nil_r.
      assert (k = 1 ∨ k = 2) as [-> | ->].
      { subst k. unfold Path.initial_slashes. rewrite Hb. destruct (_ && _); auto. }
      * by eexists.
      * by eexists.
    + destruct (Py.endswith _ _); [exact Hpre|].
      rewrite <- !app_assoc. apply prefix_app, prefix_app. by eexists.
Qed.

Lemma drop_while_app_stop {A} (p : A → bool) (l : list A) x (k : list A) :
  Forall (λ y, p y = true) l → p x = false →
  Py.drop_while p (l ++ x :: k) = x :: k.
Proof.
  intros Hl Hx. induction Hl as [|y l Hy _ IH]; simpl; [by rewrite Hx|].
  by rewrite Hy.
Qed.

(** The directory part of a name directly under [d]. *)
Lemma dirname_child d name :
  "/"%char ∉ name → (∃ c, last d = Some c ∧ c ≠ "/"%char) →
  Path.dirname (d ++ "/" ++ name) = d.
Proof.
  intros Hname (c & [d' ->]%last_Some & Hne). unfold Path.dirname. lits. cbn [app].
  rewrite (reverse_app _ ("/"%char :: name)), reverse_cons, <- app_assoc. cbn [app].
  rewrite drop_while_app_stop; cycle 1.
  { apply Forall_forall. intros y Hy. rewrite elem_of_reverse in Hy.
    apply bool_decide_eq_true. intros ->. by destruct Hname. }
  { apply bool_decide_eq_false_2. by intros []. }
  rewrite reverse_cons, reverse_involutive, <- app_assoc. cbn [app].
  assert (Hcond : negb (Py.falsy (d' ++ [c; "/"%char]))
                  && negb (forallb (λ x, bool_decide (x = "/"%char)) (d' ++ [c; "/"%char]))
                  = true).
  { apply andb_true_iff. split; [by destruct d'|].
    rewrite forallb_app. cbn [forallb].
    rewrite (bool_decide_eq_false_2 (c = "/"%char)) by done.
    by rewrite andb_false_r. }
  rewrite Hcond. unfold Py.rstrip_chars.
  rewrite reverse_app. cbn [reverse rev_append app].
  change (reverse [c; "/"%char]) with ["/"%char; c]. cbn [app Py.drop_while].
  unfold Py.char_in at 1. rewrite bool_decide_eq_true_2 by constructor.
  unfold Py.char_in at 1.
  rewrite bool_decide_eq_false_2.
  2:{ intros [->|[]%elem_of_nil]%elem_of_cons. done. }
  by rewrite reverse_cons, reverse_involutive.
Qed.

Lemma inventory_dir_last root :
  ∃ c, last (INVENTORY_DIR root) = Some c ∧ c ≠ "/"%char.
Proof.
  exists "y"%char. split; [|done]. unfold INVENTORY_DIR, Path.join. lits.
  cbn [Py.startswith]. rewrite bool_decide_eq_false_2 by done. cbn [andb].
  destruct (_ || _); rewrite ?app_assoc; by rewrite last_app.
Qed.

Lemma inventory_dir_nonempty root : INVENTORY_DIR root ≠ [].
Proof. destruct (inventory_dir_last root) as (c & H & _). by intros E; rewrite E in H. Qed.

Lemma inventory_path_eq root :
  INVENTORY_PATH root = INVENTORY_DIR root ++ "/" ++ "hosts.ini".
Proof.
  unfold INVENTORY_PATH, Path.join at 1.
  destruct (inventory_dir_last root) as (c & [d' Hd]%last_Some & Hc).
  rewrite Hd. lits. cbn [Py.startswith].
  rewrite bool_decide_eq_false_2 by done. cbn [andb].
  assert (Py.falsy (d' ++ [c]) = false) as -> by (by destruct d').
  unfold Py.endswith. rewrite reverse_app. lits.
  change (reverse ["/"%char]) with ["/"%char]. change (reverse [c]) with [c].
  cbn [app Py.startswith]. rewrite (bool_decide_eq_false_2 ("/"%char = c)) by done.
  done.
Qed.

Lemma dirname_inventory_path root :
  Path.dirname (INVENTORY_PATH root) = INVENTORY_DIR root.
Proof.
  rewrite inventory_path_eq. apply dirname_child; [|apply inventory_dir_last].
  lits. intros H. repeat (apply elem_of_cons in H as [H|H]; [done|]).
  by apply elem_of_nil in H.
Qed.
End PathFacts.

(** ** Running the monad *)

Section Runs.
Context {A B : Type}.
Implicit Types (w : World) (p : str).

Lemma bind_run (m : M A) (k : A → M B) w a w' :
  m w = (Ok a, w') → bind m k w = k a w'.
Proof. unfold bind. by intros ->. Qed.

Lemma bind_raise (m : M A) (k : A → M B) w e w' :
  m w = (Raise e, w') → bind m k w = (Raise e, w').
Proof. unfold bind. by intros ->. Qed.

Lemma try_except_ok (m : M A) h w a w' :
  m w = (Ok a, w') → try_except m h w = (Ok a, w').
Proof. unfold try_except. by intros ->. Qed.

Lemma try_except_raise (m : M A) h w e w' :
  m w = (Raise e, w') → try_except m h w = h e w'.
Proof. unfold try_except. by intros ->. Qed.
End Runs.

Section Primitives.
Implicit Types (w : World) (p : str) (f : gmap str node).

Lemma path_exists_run p w :
  OS.path_exists p w
  = (Ok (bool_decide (is_Some (fs w !! p))), log_call (SysExists p) w).
Proof. reflexivity. Qed.

Lemma read_text_run p w c :
  fs w !! p = Some (File c) →
  OS.read_text p w = (Ok (OS.universal_newlines c), log_call (SysRead p) w).
Proof. intros H. unfold OS.read_text, bind, sys, modify_world, get_world. simpl. by rewrite H. Qed.

Lemma write_text_run p s w :
  can_create (fs w) p →
  OS.write_text p s w
  = (Ok tt, set_fs (<[p := File s]> (fs w)) (log_call (SysWrite p) w)).
Proof.
  intros [Hd Hp]. unfold OS.write_text, bind, sys, modify_world, get_world. simpl.
  rewrite Hp. by destruct (fs w !! p) as [[]|].
Qed.

Lemma copy2_run src dst w c :
  fs w !! src = Some (File c) → can_create (fs w) dst →
  OS.copy2 src dst w
  = (Ok tt, set_fs (<[dst := File c]> (fs w)) (log_call (SysCopy src dst) w)).
Proof.
  intros Hs [Hd Hp]. unfold OS.copy2, bind, sys, modify_world, get_world. simpl.
  rewrite Hs. destruct (fs w !! dst) as [[]|] eqn:E; try done; by rewrite ?E, Hp.
Qed.

Lemma datetime_now_run w : datetime_now w = (Ok (now w), w).
Proof. reflexivity. Qed.

Lemma backup_file_absent p w :
  fs w !! p = None → backup_file p w = (Ok [], log_call (SysExists p) w).
Proof.
  intros H. unfold backup_file. rewrite (bind_run _ _ _ _ _ (path_exists_run p w)).
  rewrite H. by rewrite bool_decide_eq_false_2 by (by intros [? ?]).
Qed.

Lemma backup_file_run p w c :
  fs w !! p = Some (File c) → can_create (fs w) (backup_name p (now w)) →
  backup_file p w
  = (Ok (backup_name p (now w)),
     set_fs (<[backup_name p (now w) := File c]> (fs w))
       (log_call (SysCopy p (backup_name p (now w))) (log_call (SysExists p) w))).
Proof.
  intros H Hc. unfold backup_file. rewrite (bind_run _ _ _ _ _ (path_exists_run p w)).
  rewrite H. rewrite bool_decide_eq_true_2 by eauto.
  rewrite (bind_run _ _ _ _ _ (datetime_now_run _)).
  change (now (log_call (SysExists p) w)) with (now w).
  fold (backup_name p (now w)).
  by rewrite (bind_run _ _ _ _ _ (copy2_run p _ (log_call (SysExists p) w) c H Hc)).
Qed.
End Primitives.

Section Backup.
Implicit Types (w : World) (p : str) (f : gmap str node).

Lemma can_create_insert_file f p q c :
  can_create f p → f !! q ≠ Some Dir → can_create (<[q := File c]> f) p.
Proof.
  intros [Hp Hpar] Hq. split.
  - destruct (decide (q = p)) as [->|Hne].
    + by rewrite lookup_insert_eq.
    + by rewrite lookup_insert_ne.
  - unfold OS.parent_ok in *. destruct (Py.falsy (Path.dirname p)); [done|].
    destruct (decide (q = Path.dirname p)) as [->|Hne].
    + by destruct (f !! Path.dirname p) as [[]|].
    + by rewrite lookup_insert_ne.
Qed.

Lemma can_create_with_backup f p q t :
  can_create f p → (is_Some (f !! q) → can_create f (backup_name q t)) →
  can_create (with_backup f q t) p.
Proof.
  intros Hp Hb. unfold with_backup.
  destruct (f !! q) as [[c|]|]; try done.
  apply can_create_insert_file; [done|]. apply Hb. eauto.
Qed.

(** [backup_file] on a path that is not a directory. *)
Lemma backup_file_total p w :
  fs w !! p ≠ Some Dir →
  (is_Some (fs w !! p) → can_create (fs w) (backup_name p (now w))) →
  backup_file p w
  = (Ok (if bool_decide (is_Some (fs w !! p)) then backup_name p (now w) else []),
     mkWorld (with_backup (fs w) p (now w)) (now w)
             (backup_calls (fs w) p (now w) ++ calls w)).
Proof.
  intros Hd Hc. unfold with_backup, backup_calls.
  destruct (fs w !! p) as [[c|]|] eqn:E; [|done|].
  - rewrite (backup_file_run p w c E) by (apply Hc; eauto).
    by rewrite bool_decide_eq_true_2 by eauto.
  - rewrite (backup_file_absent p w E).
    rewrite bool_decide_eq_false_2 by (by intros [? ?]). by destruct w.
Qed.
Lemma makedirs_existing p w :
  p ≠ [] → fs w !! p = Some Dir →
  OS.makedirs p w = (Ok tt, log_call (SysMakedirs p) w).
Proof.
  intros Hne Hd. unfold OS.makedirs, bind, sys, modify_world, get_world. simpl.
  destruct p; [done|]. cbn [Py.falsy]. by rewrite Hd.
Qed.

Lemma backup_name_fresh p t : backup_name p t ≠ p.
Proof.
  unfold backup_name. intros H. apply (f_equal length) in H.
  rewrite !length_app in H. lits in H. cbn in H. lia.
Qed.

Lemma backup_name_nonempty p t : Py.falsy (backup_name p t) = false.
Proof. unfold backup_name. lits. by destruct p. Qed.

Lemma parent_dir_ok (f : gmap str node) p :
  f !! Path.dirname p = Some Dir → OS.parent_ok f p = Ok tt.
Proof. intros H. unfold OS.parent_ok. rewrite H. by destruct (Py.falsy _). Qed.

Lemma with_backup_lookup_dir (f : gmap str node) p t q :
  f !! q = Some Dir →
  (is_Some (f !! p) → can_create f (backup_name p t)) →
  with_backup f p t !! q = Some Dir.
Proof.
  intros Hq Hb. unfold with_backup. destruct (f !! p) as [[c|]|] eqn:E; try done.
  rewrite lookup_insert_ne; [done|]. intros <-.
  destruct Hb as [Hb _]; [eauto|]. done.
Qed.

End Backup.

Section ReadOnly.
Context {A B : Type}.
Implicit Types (w : World).

Lemma added_calls_refl P w : added_calls P w w.
Proof. exists []. by split. Qed.

Lemma added_calls_trans P w1 w2 w3 :
  added_calls P w1 w2 → added_calls P w2 w3 → added_calls P w1 w3.
Proof.
  intros (n1 & H1 & F1) (n2 & H2 & F2). exists (n2 ++ n1).
  split; [by rewrite H2, H1, app_assoc | by apply Forall_app].
Qed.

Lemma read_only_ret (a : A) : read_only (ret a).
Proof. intros w. split; [done | apply added_calls_refl]. Qed.

Lemma read_only_bind (m : M A) (k : A → M B) :
  read_only m → (∀ a, read_only (k a)) → read_only (bind m k).
Proof.
  intros Hm Hk w. unfold bind. destruct (Hm w) as [Hf Hc].
  destruct (m w) as [[a|e] w1]; simpl in *.
  - destruct (Hk a w1) as [Hf' Hc']. split; [congruence|].
    by eapply added_calls_trans.
  - done.
Qed.
End ReadOnly.

Section ReadOnlyPrimitives.
Lemma read_only_path_exists p : read_only (OS.path_exists p).
Proof.
  intros w. split; [done|]. exists [SysExists p]. split; [done|]. by repeat constructor.
Qed.

Lemma read_only_listdir p : read_only (OS.listdir p).
Proof.
  intros w. unfold OS.listdir, bind, sys, modify_world, get_world. simpl.
  destruct (fs w !! p) as [[]|]; (split; [done|]); exists [SysListdir p];
    (split; [done|]); by repeat constructor.
Qed.

Lemma read_only_get_available_playbooks root :
  read_only (get_available_playbooks root).
Proof.
  unfold get_available_playbooks.
  apply read_only_bind; [apply read_only_path_exists|]. intros ex.
  apply read_only_bind.
  - destruct ex; [|apply read_only_ret].
    apply read_only_bind; [apply read_only_listdir|]. intros. apply read_only_ret.
  - intros pbs. apply read_only_bind; [apply read_only_path_exists|].
    intros. apply read_only_ret.
Qed.
End ReadOnlyPrimitives.

(** ** The argument sanitizer *)

Section Sanitize.

Lemma sanitize_input_filter_strip (value : str) :
  sanitize_input value = sanitizeArgument_spec value.
Proof.
  unfold sanitize_input, sanitizeArgument_spec.
  destruct value as [|x v]; [done|]. cbn [Py.falsy]. by rewrite fold_remove_char.
Qed.

Lemma sanitize_input_clean (value : str) c :
  c ∈ dangerous_chars → c ∉ sanitize_input value.
Proof.
  rewrite sanitize_input_filter_strip. intros Hc Hin.
  apply elem_of_strip_chars in Hin.
  apply list_elem_of_filter in Hin as [Hn _]. done.
Qed.

(** C9.  [sanitize_input] returns its input with every occurrence of
    the shell metacharacters ; & | $ ` ( ) { } < > \ removed and the
    surrounding whitespace stripped: no metacharacter is left in the
    result, which neither starts nor ends with whitespace; the result
    for "rm -rf / ; echo hi" holds no semicolon. *)
Theorem sanitize_input_removes_metachars (value : str) :
  sanitize_input value = sanitizeArgument_spec value
  ∧ (∀ c, c ∈ dangerous_chars → c ∉ sanitize_input value)
  ∧ (∀ c, head (sanitize_input value) = Some c ∨ last (sanitize_input value) = Some c →
          Py.isspace c = false)
  ∧ ";"%char ∉ sanitize_input "rm -rf / ; echo hi".
Proof.
  split; [apply sanitize_input_filter_strip|]. split; [|split].
  - intros c. apply sanitize_input_clean.
  - rewrite sanitize_input_filter_strip.
    unfold sanitizeArgument_spec, Py.strip, Py.isspace.
    intros c [H|H]; [by eapply strip_chars_head | by eapply strip_chars_last].
  - apply sanitize_input_clean. unfold dangerous_chars. constructor.
Qed.

End Sanitize.

Lemma sanitize_input_removes_metachars_witness :
  (";"%char ∉ sanitize_input "sw1; reboot")
  ∧ Py.isspace "s"%char = false.
Proof.
  destruct (sanitize_input_removes_metachars "sw1; reboot") as (_ & Hclean & Hends & _).
  split.
  - apply Hclean. unfold dangerous_chars. constructor.
  - apply Hends. left. vm_compute. reflexivity.
Defined.

(** ** The output summarizer *)

Section Summarizer.

Lemma summary_step_eq b acc l :
  summary_step (b, acc) l
  = (b || is_recap l,
     acc ++ (if b || is_recap l || is_failure l || is_change l then [l] else [])).
Proof.
  unfold summary_step, is_recap, is_failure, is_change. simpl.
  destruct b, (Py.contains "PLAY RECAP" l); simpl; try done.
  destruct (Py.contains "fatal:" (Py.lower l) || Py.contains "failed:" (Py.lower l));
    simpl; [done|].
  destruct (Py.contains "changed:" (Py.lower l) && negb (Py.contains "ok=" (Py.lower l)));
    simpl; [done|]. by rewrite app_nil_r.
Qed.

Lemma fold_summary_step lines b acc :
  fold_left summary_step lines (b, acc)
  = (b || existsb is_recap lines, acc ++ (if b then lines else kept_lines lines)).
Proof.
  revert b acc. induction lines as [|l ls IH]; intros b acc; simpl.
  - rewrite orb_false_r. by destruct b; rewrite app_nil_r.
  - rewrite summary_step_eq, IH, <- app_assoc, orb_assoc. f_equal. f_equal.
    destruct b, (is_recap l), (is_failure l), (is_change l); done.
Qed.

Lemma kept_lines_nil lines :
  (∀ l, l ∈ lines → is_recap l = false ∧ is_failure l = false ∧ is_change l = false) →
  kept_lines lines = [].
Proof.
  induction lines as [|l ls IH]; intros H; simpl; [done|].
  destruct (H l) as (-> & -> & ->); [left|]. simpl. apply IH.
  intros l' Hl'. apply H. by right.
Qed.

(** C4.  [parse_ansible_output] keeps, in order, every line from the
    first one that contains the recap marker, and before it the lines
    with a failure marker or with a change marker and no no-op marker
    (both read case-insensitively).  With something kept, the result is
    the kept lines under the summary heading, then the raw output under
    the full-output heading; with nothing kept it is the input.  A text
    without recap, failure or change marker is therefore returned
    unchanged. *)
Theorem summarize_keeps_actionable_lines (raw : str) :
  parse_ansible_output raw
  = match kept_lines (Py.split LF raw) with
    | [] => raw
    | kept => "=== SUMMARY ===" ++ nl ++ Py.join nl kept ++ nl ++ nl ++
              "=== FULL OUTPUT ===" ++ nl ++ raw
    end
  ∧ (marker_free raw → parse_ansible_output raw = raw).
Proof.
  assert (Hfold : (fold_left summary_step (Py.split LF raw) (false, [])).2
                  = kept_lines (Py.split LF raw)).
  { by rewrite fold_summary_step. }
  split.
  - unfold parse_ansible_output. rewrite Hfold. by destruct (kept_lines _).
  - intros (Hr & Hfa & Hfl & Hch). unfold parse_ansible_output. rewrite Hfold.
    rewrite kept_lines_nil; [done|]. intros l Hl.
    unfold is_recap, is_failure, is_change. repeat split.
    + destruct (Py.contains "PLAY RECAP" l) eqn:E; [|done].
      by rewrite (contains_line _ _ _ _ Hl E) in Hr.
    + apply orb_false_iff. split.
      * destruct (Py.contains "fatal:" (Py.lower l)) eqn:E; [|done].
        by rewrite (contains_lower_line _ _ _ _ Hl E) in Hfa.
      * destruct (Py.contains "failed:" (Py.lower l)) eqn:E; [|done].
        by rewrite (contains_lower_line _ _ _ _ Hl E) in Hfl.
    + destruct (Py.contains "changed:" (Py.lower l)) eqn:E; [|done].
      by rewrite (contains_lower_line _ _ _ _ Hl E) in Hch.
Qed.

End Summarizer.

Lemma summarize_keeps_actionable_lines_witness :
  parse_ansible_output "ok: [sw1]" = "ok: [sw1]".
Proof.
  apply (proj2 (summarize_keeps_actionable_lines "ok: [sw1]")).
  repeat split; vm_compute; reflexivity.
Defined.

(** ** Path traversal *)

Section Traversal.
Variable root : str.
Implicit Types (w : World) (file_path : str).

(** Where the inline check fires it fires before any call: the world
    comes back as it was. *)
Lemma read_file_denied file_path w :
  file_path ≠ [] → Py.startswith (resolved root file_path) root = false →
  ansible_read_file root file_path w = (Ok access_denied, w).
Proof.
  intros Hne Hout. unfold ansible_read_file. destruct file_path; [done|].
  cbn [Py.falsy]. fold (resolved root (a :: file_path)). by rewrite Hout.
Qed.

Lemma write_file_denied file_path content create_backup w :
  file_path ≠ [] → content ≠ [] →
  Py.startswith (resolved root file_path) root = false →
  ansible_write_file root file_path content create_backup w = (Ok access_denied, w).
Proof.
  intros Hne Hc Hout. unfold ansible_write_file.
  destruct file_path; [done|]. destruct content; [done|].
  cbn [Py.falsy]. fold (resolved root (a :: file_path)). by rewrite Hout.
Qed.

End Traversal.

(** [safe_path_join], which no tool calls, does not reject a name with
    ".." segments: it sanitizes the name into one plain component and
    returns a path under the base. *)
Example safe_path_join_sanitizes :
  safe_path_join sample_root "../etc" = inr ("/root/ansible/etc" : str).
Proof. reflexivity. Qed.

(** C1.  The code does not keep what the claim states, and what its own
    access-denied message states (the path must be within the Ansible
    directory): the inline check of [ansible_read_file] and
    [ansible_write_file] compares the normalized path with the root as
    strings, not component by component, so a directory beside the root
    whose name begins with the root's name passes it.  With the root
    /root/ansible, the path "../ansible_old/hosts.ini" has a ".."
    segment and its normalized join with the root,
    /root/ansible_old/hosts.ini, is neither the root nor under it; yet
    [ansible_read_file] does not answer with the access-denied error:
    it tests the path, reads the file and returns its text, and
    [ansible_write_file] overwrites the file. *)
Theorem inline_check_admits_sibling_directory :
  let p : str := "../ansible_old/hosts.ini" in
  let full : str := "/root/ansible_old/hosts.ini" in
  let w := sibling_world in
  Py.contains ".." p = true
  ∧ resolved sample_root p = full
  ∧ ¬ within sample_root full
  ∧ Py.startswith full sample_root = true
  ∧ ansible_read_file sample_root p w
    = (Ok ("=== FILE: ../ansible_old/hosts.ini ===" ++ nl ++ nl ++ "secret"),
       mkWorld (fs w) (now w) [SysRead full; SysIsdir full; SysExists full])
  ∧ (ansible_read_file sample_root p w).1 ≠ Ok access_denied
  ∧ (ansible_write_file sample_root p "changed" "no" w).1
    = Ok ("SUCCESS: File written to ../ansible_old/hosts.ini" : str)
  ∧ fs (ansible_write_file sample_root p "changed" "no" w).2 !! full
    = Some (File "changed").
Proof.
  cbv zeta. split; [reflexivity|]. split; [reflexivity|]. split.
  { intros [H|H]; [discriminate H|]. apply startswith_prefix in H. discriminate H. }
  split; [reflexivity|]. split; [vm_compute; reflexivity|].
  split; [vm_compute; discriminate|]. split; vm_compute; reflexivity.
Qed.

(** ** Backup before overwrite *)

Section WriteFile.
Variable root : str.
Implicit Types (w : World).

(** C2.  For an asset that exists with content [c], a write of a new
    content [c2] with the backup enabled first copies the asset to
    [<name>.<YYYYMMDD_HHMMSS>.bak], then overwrites the asset with [c2]
    verbatim: afterwards the backup holds exactly [c] and the asset
    exactly [c2], and the copy precedes the write in the log.  When the
    asset did not exist no backup is made: [backup_file] returns the
    empty name and the message names no backup.  Reading the backup
    after the write gives the text that reading the asset gave before.  (The arguments are
    those the tool accepts: a non-empty path inside the root and a
    non-empty content; the directory of the asset exists.) *)
Theorem write_file_backs_up_before_overwrite file_path c2 create_backup w :
  let rel := Py.lstrip_chars "/" file_path in
  let full := resolved root file_path in
  let bk := backup_name full (now w) in
  file_path ≠ [] → c2 ≠ [] →
  Py.startswith full root = true → affirmative create_backup = true →
  Path.dirname full ≠ [] → fs w !! Path.dirname full = Some Dir →
  (∀ c, fs w !! full = Some (File c) → can_create (fs w) bk →
     ∃ w', ansible_write_file root file_path c2 create_backup w
           = (Ok ("SUCCESS: File written to " ++ rel ++ nl ++
                  "Backup saved to: " ++ Path.basename bk), w')
         ∧ fs w' = <[full := File c2]> (<[bk := File c]> (fs w))
         ∧ fs w' !! bk = Some (File c)
         ∧ fs w' !! full = Some (File c2)
         ∧ calls w' = [ SysWrite full; SysCopy full bk; SysExists full;
                        SysExists full; SysMakedirs (Path.dirname full) ]
                      ++ calls w
         ∧ (OS.read_text bk w').1 = (OS.read_text full w).1)
  ∧ (fs w !! full = None →
     backup_file full w = (Ok [], log_call (SysExists full) w)
     ∧ ∃ w', ansible_write_file root file_path c2 create_backup w
             = (Ok ("SUCCESS: File written to " ++ rel), w')
           ∧ fs w' = <[full := File c2]> (fs w)
           ∧ calls w' = [ SysWrite full; SysExists full;
                          SysMakedirs (Path.dirname full) ] ++ calls w)
  ∧ (valid_datetime (now w) → is_stamp (strftime_stamp (now w)) = true).
Proof.
  intros rel full bk.
  assert (Erel : rel = Py.lstrip_chars "/" file_path) by done.
  assert (Efull : full = resolved root file_path) by done.
  clearbody rel full. subst bk. intros Hp Hc Hin Hyes Hdn Hdir.
  assert (Hrun : ansible_write_file root file_path c2 create_backup w
    = (let* backup_path :=
         (let* ex := OS.path_exists full in
          if ex then backup_file full else ret []) in
       try_except
         (OS.write_text full c2 >>
          let msg := "SUCCESS: File written to " ++ rel in
          let msg :=
            if negb (Py.falsy backup_path)
            then msg ++ nl ++ "Backup saved to: " ++ Path.basename backup_path
            else msg in
          ret msg)
         (λ e, ret ("ERROR: Failed to write file: " ++ exn_msg e)))
        (log_call (SysMakedirs (Path.dirname full)) w)).
  { unfold ansible_write_file. destruct file_path; [done|]. destruct c2; [done|].
    cbn [Py.falsy]. fold (resolved root (a :: file_path)).
    rewrite <- Efull, <- Erel, Hin, Hyes. cbn [negb].
    by rewrite (bind_run _ _ _ _ _ (makedirs_existing _ w Hdn Hdir)). }
  rewrite Hrun. clear Hrun. set (w1 := log_call _ w).
  split; [|split].
  - intros c Hfile Hbk.
    erewrite bind_run.
    2:{ rewrite (bind_run _ _ _ _ _ (path_exists_run full w1)).
        cbn [fs w1 log_call]. rewrite Hfile, bool_decide_eq_true_2 by eauto.
        apply (backup_file_run full (log_call (SysExists full) w1) c Hfile Hbk). }
    cbn [now log_call w1].
    erewrite try_except_ok.
    2:{ erewrite bind_run; [reflexivity|]. apply write_text_run.
        unfold w1. cbn [fs set_fs log_call].
        apply can_create_insert_file; [|apply Hbk].
        split; [by rewrite Hfile | by apply parent_dir_ok]. }
    rewrite backup_name_nonempty. cbn [negb]. rewrite <- app_assoc.
    eexists. split; [reflexivity|]. cbn [fs set_fs log_call calls w1].
    assert (Hkept : <[full := File c2]> (<[backup_name full (now w) := File c]> (fs w))
                    !! backup_name full (now w) = Some (File c)).
    { rewrite lookup_insert_ne
        by (intros H; by apply (backup_name_fresh full (now w))).
      by rewrite lookup_insert_eq. }
    split; [done|]. split; [exact Hkept|].
    split; [by rewrite lookup_insert_eq|]. split; [done|].
    rewrite (read_text_run full w c Hfile).
    by erewrite read_text_run by exact Hkept.
  - intros Hnone. split; [by apply backup_file_absent|].
    erewrite bind_run.
    2:{ rewrite (bind_run _ _ _ _ _ (path_exists_run full w1)).
        cbn [fs w1 log_call]. rewrite Hnone.
        rewrite bool_decide_eq_false_2 by (by intros [? ?]). reflexivity. }
    erewrite try_except_ok.
    2:{ erewrite bind_run; [reflexivity|]. apply write_text_run.
        unfold w1. cbn [fs set_fs log_call].
        split; [by rewrite Hnone | by apply parent_dir_ok]. }
    cbn [Py.falsy negb]. eexists. split; [reflexivity|]. done.
  - apply strftime_stamp_shape.
Qed.
End WriteFile.

Lemma write_file_backs_up_witness :
  let w := sample_world "[core]" in
  let full : str := "/root/ansible/inventory/hosts.ini" in
  let bk : str := "/root/ansible/inventory/hosts.ini.20261103_090500.bak" in
  (∃ w', ansible_write_file sample_root "inventory/hosts.ini" "[edge]" "yes" w
         = (Ok ("SUCCESS: File written to inventory/hosts.ini" ++ nl ++
                "Backup saved to: hosts.ini.20261103_090500.bak"), w')
       ∧ fs w' !! bk = Some (File "[core]")
       ∧ fs w' !! full = Some (File "[edge]"))
  ∧ is_stamp "20261103_090500" = true.
Proof.
  intros w full bk.
  destruct (write_file_backs_up_before_overwrite sample_root
              "inventory/hosts.ini" "[edge]" "yes" w) as (Hexists & _ & Hstamp).
  - discriminate.
  - discriminate.
  - vm_compute. reflexivity.
  - vm_compute. reflexivity.
  - vm_compute. discriminate.
  - vm_compute. reflexivity.
  - split.
    + destruct (Hexists "[core]") as (w' & Hrun & _ & Hbk & Hfull & _ & _).
      * vm_compute. reflexivity.
      * split; [vm_compute; discriminate | vm_compute; reflexivity].
      * exists w'. split; [exact Hrun|]. split; [exact Hbk | exact Hfull].
    + apply Hstamp. unfold valid_datetime. cbn. lia.
Defined.

(** ** The inventory editor *)

Section Inventory.
Variable root : str.
Implicit Types (w : World) (doc group record header line : str)
  (lines : list str).

Lemma inventory_text_not_dir w doc :
  inventory_text root (fs w) = Some doc → fs w !! INVENTORY_PATH root ≠ Some Dir.
Proof. unfold inventory_text. by destruct (fs w !! INVENTORY_PATH root) as [[]|]. Qed.

Lemma can_create_inventory (f : gmap str node) :
  f !! INVENTORY_PATH root ≠ Some Dir → f !! INVENTORY_DIR root = Some Dir →
  can_create f (INVENTORY_PATH root).
Proof.
  intros Hnd Hdir. split; [done|].
  apply parent_dir_ok. by rewrite dirname_inventory_path.
Qed.

(** Reading the current document, then going on with it. *)
Lemma read_inventory_run w doc :
  inventory_text root (fs w) = Some doc →
  ∃ w1, fs w1 = fs w ∧ now w1 = now w
        ∧ added_calls (λ c, negb (is_mutation c)) w w1
        ∧ ∀ A (k : str → M A),
            (let* ex := OS.path_exists (INVENTORY_PATH root) in
             let* current_content :=
               (if ex then OS.read_text (INVENTORY_PATH root) else ret []) in
             k current_content) w = k doc w1.
Proof.
  unfold inventory_text. intros H.
  destruct (fs w !! INVENTORY_PATH root) as [[c|]|] eqn:E; [| done |].
  - injection H as <-.
    exists (log_call (SysRead (INVENTORY_PATH root))
              (log_call (SysExists (INVENTORY_PATH root)) w)).
    repeat split.
    + exists [SysRead (INVENTORY_PATH root); SysExists (INVENTORY_PATH root)].
      split; [done|]. by repeat constructor.
    + intros A k. rewrite (bind_run _ _ _ _ _ (path_exists_run _ w)).
      rewrite E, bool_decide_eq_true_2 by eauto. cbv beta iota.
      by rewrite (bind_run _ _ _ _ _ (read_text_run _ (log_call _ w) c E)).
  - injection H as <-. exists (log_call (SysExists (INVENTORY_PATH root)) w).
    repeat split.
    + exists [SysExists (INVENTORY_PATH root)]. split; [done|]. by repeat constructor.
    + intros A k. rewrite (bind_run _ _ _ _ _ (path_exists_run _ w)).
      rewrite E, bool_decide_eq_false_2 by (by intros [? ?]). done.
Qed.

(** *** Adding a host *)

Lemma fold_add_host_step header record lines b acc :
  fold_left (add_host_step header record) lines (b, acc)
  = (b || existsb (is_header header) lines,
     acc ++ flat_map (λ l, if is_header header l then [l; record] else [l]) lines).
Proof.
  revert b acc. induction lines as [|l ls IH]; intros b acc; simpl.
  - by rewrite orb_false_r, app_nil_r.
  - unfold add_host_step at 2. cbn [fst snd]. fold (is_header header l).
    destruct (is_header header l); rewrite IH, <- !app_assoc; simpl.
    + by rewrite orb_true_r.
    + done.
Qed.

Lemma flat_map_no_header header record lines :
  (∀ x, x ∈ lines → Py.strip x ≠ header) →
  flat_map (λ l, if is_header header l then [l; record] else [l]) lines = lines
  ∧ existsb (is_header header) lines = false.
Proof.
  induction lines as [|l ls IH]; intros H; [done|]. simpl.
  unfold is_header at 1 3. rewrite bool_decide_eq_false_2 by (apply H; left).
  destruct IH as [-> ->]; [intros x Hx; apply H; by right|]. done.
Qed.

(** What the loop of [ansible_add_host] builds: the record after every
    line that reads as the header, or the header and the record at the
    end. *)
Lemma add_host_text_eq doc group record :
  let header := "[" ++ group ++ "]" in
  let lines := Py.split LF doc in
  let new_lines :=
    flat_map (λ l, if is_header header l then [l; record] else [l]) lines in
  add_host_text doc group record
  = Py.join nl
      (if existsb (is_header header) lines then new_lines
       else new_lines ++
            (if negb (Py.falsy (Py.strip (default [] (last new_lines))))
             then [[]] else []) ++ [header; record]).
Proof.
  intros header lines new_lines. unfold add_host_text.
  fold header. fold lines. rewrite fold_add_host_step. cbn [orb app].
  fold new_lines. destruct (existsb (is_header header) lines); cbn [negb]; [done|].
  f_equal. destruct (last new_lines) as [l|] eqn:E; cbn [default id].
  - destruct (negb (Py.falsy (Py.strip l))); rewrite <- ?app_assoc; reflexivity.
  - reflexivity.
Qed.

Lemma add_host_text_cases doc group record :
  let header := "[" ++ group ++ "]" in
  let lines := Py.split LF doc in
  (∀ pre l post,
      lines = pre ++ l :: post → Py.strip l = header →
      (∀ x, x ∈ pre ++ post → Py.strip x ≠ header) →
      add_host_text doc group record = Py.join nl (pre ++ l :: record :: post))
  ∧ ((∀ x, x ∈ lines → Py.strip x ≠ header) →
      add_host_text doc group record
      = Py.join nl (lines ++
                    (if negb (Py.falsy (Py.strip (default [] (last lines))))
                     then [[]] else []) ++ [header; record])).
Proof.
  intros header lines.
  pose proof (add_host_text_eq doc group record) as Heq. cbv zeta in Heq.
  fold header lines in Heq. rewrite Heq. clear Heq. split.
  - intros pre l post Hl Hh Hno.
    rewrite Hl, existsb_app, flat_map_app. cbn [existsb flat_map].
    assert (Hhl : is_header header l = true) by (by apply bool_decide_eq_true_2).
    rewrite Hhl, orb_true_r.
    destruct (flat_map_no_header header record pre) as [-> _];
      [intros x Hx; apply Hno, elem_of_app; by left|].
    destruct (flat_map_no_header header record post) as [-> _];
      [intros x Hx; apply Hno, elem_of_app; by right|].
    done.
  - intros Hno.
    destruct (flat_map_no_header header record lines Hno) as [-> ->]. done.
Qed.

Lemma add_host_run hostname ansible_host group extra_vars w doc :
  hostname ≠ [] → ansible_host ≠ [] →
  inventory_text root (fs w) = Some doc →
  Py.contains (sanitize_input hostname) doc = false →
  (is_Some (fs w !! INVENTORY_PATH root) →
     can_create (fs w) (backup_name (INVENTORY_PATH root) (now w))) →
  fs w !! INVENTORY_DIR root = Some Dir →
  ∃ w', ansible_add_host root hostname ansible_host group extra_vars w
        = (Ok ("SUCCESS: Added host '" ++ sanitize_input hostname ++ "' (" ++
               sanitize_input ansible_host ++ ") to group '" ++
               group_or_all group ++ "'"), w')
      ∧ fs w' = <[INVENTORY_PATH root :=
                    File (add_host_text doc (group_or_all group)
                            (host_record hostname ansible_host extra_vars))]>
                  (with_backup (fs w) (INVENTORY_PATH root) (now w)).
Proof.
  intros Hh Ha Hdoc Hin Hbk Hdir. unfold ansible_add_host.
  destruct hostname as [|h0 hs]; [done|]. destruct ansible_host as [|a0 as']; [done|].
  cbn [Py.falsy].
  destruct (read_inventory_run w doc Hdoc) as (w1 & Hfs & Hnow & Hcalls & Hrun).
  rewrite Hrun, Hin. clear Hrun.
  fold (group_or_all group). fold (host_record (h0 :: hs) (a0 :: as') extra_vars).
  assert (Hb := backup_file_total (INVENTORY_PATH root) w1).
  rewrite Hfs, Hnow in Hb.
  rewrite (bind_run _ _ _ _ _ (Hb (inventory_text_not_dir w doc Hdoc) Hbk)).
  erewrite bind_run.
  2:{ apply write_text_run. apply can_create_with_backup; [|done].
      apply can_create_inventory; [by eapply inventory_text_not_dir | done]. }
  eexists. split; [reflexivity|]. done.
Qed.

(** C3, as amended.  For an inventory document that does not contain
    the (sanitized) host id, [ansible_add_host] writes the document back
    transformed as follows, lines being compared with the group header
    [[group]] after their surrounding whitespace is trimmed: when
    exactly one line reads as the header, the record line is inserted
    immediately after it; when no line does, a blank separator line is
    appended if the last line is not blank, then the header, then the
    record; every other line is kept unchanged and in order.  On the
    empty document, adding "sw1" at "10.0.0.1" to "core" gives a blank
    first line, the header [[core]] and the record. *)
Theorem add_host_inserts_record hostname ansible_host group extra_vars w doc :
  let inv := INVENTORY_PATH root in
  let g := group_or_all group in
  let header := "[" ++ g ++ "]" in
  let record := host_record hostname ansible_host extra_vars in
  let lines := Py.split LF doc in
  hostname ≠ [] → ansible_host ≠ [] →
  inventory_text root (fs w) = Some doc →
  Py.contains (sanitize_input hostname) doc = false →
  (is_Some (fs w !! inv) → can_create (fs w) (backup_name inv (now w))) →
  fs w !! INVENTORY_DIR root = Some Dir →
  (∃ w', ansible_add_host root hostname ansible_host group extra_vars w
         = (Ok ("SUCCESS: Added host '" ++ sanitize_input hostname ++ "' (" ++
                sanitize_input ansible_host ++ ") to group '" ++ g ++ "'"), w')
       ∧ fs w' !! inv = Some (File (add_host_text doc g record)))
  ∧ (∀ pre l post,
       lines = pre ++ l :: post → Py.strip l = header →
       (∀ x, x ∈ pre ++ post → Py.strip x ≠ header) →
       add_host_text doc g record = Py.join nl (pre ++ l :: record :: post))
  ∧ ((∀ x, x ∈ lines → Py.strip x ≠ header) →
       add_host_text doc g record
       = Py.join nl (lines ++
                     (if negb (Py.falsy (Py.strip (default [] (last lines))))
                      then [[]] else []) ++ [header; record]))
  ∧ (group_or_all "core" = "core"
     ∧ host_record "sw1" "10.0.0.1" "" = "sw1 ansible_host=10.0.0.1"
     ∧ add_host_text "" "core" "sw1 ansible_host=10.0.0.1"
       = nl ++ "[core]" ++ nl ++ "sw1 ansible_host=10.0.0.1").
Proof.
  intros inv g header record lines Hh Ha Hdoc Hin Hbk Hdir.
  split; [|split; [|split]].
  - destruct (add_host_run hostname ansible_host group extra_vars w doc)
      as (w' & Hrun & Hfs); try done.
    exists w'. split; [exact Hrun|]. rewrite Hfs. apply lookup_insert_eq.
  - apply (add_host_text_cases doc g record).
  - apply (add_host_text_cases doc g record).
  - repeat split; reflexivity.
Qed.

(** C6.  When the text of the inventory contains the (sanitized) host id
    anywhere, [ansible_add_host] answers that the host already exists
    and leaves the file system as it found it: the calls it made are
    the existence test and the read, no backup and no write. *)
Theorem add_host_duplicate_rejected hostname ansible_host group extra_vars w doc :
  hostname ≠ [] → ansible_host ≠ [] →
  inventory_text root (fs w) = Some doc →
  Py.contains (sanitize_input hostname) doc = true →
  ∃ w', ansible_add_host root hostname ansible_host group extra_vars w
        = (Ok ("ERROR: Host '" ++ sanitize_input hostname ++
               "' already exists in inventory."), w')
      ∧ fs w' = fs w
      ∧ added_calls (λ c, negb (is_mutation c)) w w'.
Proof.
  intros Hh Ha Hdoc Hin. unfold ansible_add_host.
  destruct hostname as [|h0 hs]; [done|]. destruct ansible_host as [|a0 as']; [done|].
  cbn [Py.falsy].
  destruct (read_inventory_run w doc Hdoc) as (w1 & Hfs & _ & Hcalls & Hrun).
  exists w1. rewrite Hrun, Hin. done.
Qed.

(** *** Removing a host *)

Lemma fold_remove_host_step h lines b acc :
  fold_left (remove_host_step h) lines (b, acc)
  = (b || existsb (names_host h) lines,
     acc ++ filter (λ l, names_host h l = false) lines).
Proof.
  revert b acc. induction lines as [|l ls IH]; intros b acc; simpl.
  - by rewrite orb_false_r, app_nil_r.
  - unfold remove_host_step at 2. cbn [fst snd]. fold (names_host h l).
    destruct (names_host h l) eqn:E; rewrite IH.
    + rewrite orb_true_r. simpl. by rewrite filter_cons_False by (by rewrite E).
    + rewrite filter_cons_True by done. simpl. by rewrite <- app_assoc.
Qed.

Lemma read_lines_run p w c :
  fs w !! p = Some (File c) →
  OS.read_lines p w
  = (Ok (OS.keepends (OS.universal_newlines c)), log_call (SysRead p) w).
Proof.
  intros H. unfold OS.read_lines. by rewrite (bind_run _ _ _ _ _ (read_text_run p w c H)).
Qed.

Lemma existsb_names_host h lines :
  existsb (names_host h) lines = true ↔ ∃ l, l ∈ lines ∧ names_host h l = true.
Proof.
  rewrite existsb_exists. by setoid_rewrite list_elem_of_In.
Qed.

(** C7, as amended.  [ansible_remove_host], confirmed, deletes every
    line whose text, trimmed of surrounding whitespace, is the
    (sanitized) host id or starts with the host id and a space, and
    writes the other lines back verbatim and in their order, after a
    backup; when no line matches it answers that the host was not found
    and leaves the file system as it found it. *)
Theorem remove_host_deletes_trimmed_matches hostname confirm w c :
  let inv := INVENTORY_PATH root in
  let h := sanitize_input hostname in
  let lines := OS.keepends (OS.universal_newlines c) in
  hostname ≠ [] → affirmative confirm = true →
  fs w !! inv = Some (File c) →
  ((∃ l, l ∈ lines ∧ names_host h l = true) →
   can_create (fs w) (backup_name inv (now w)) →
   fs w !! INVENTORY_DIR root = Some Dir →
   ∃ w', ansible_remove_host root hostname confirm w
         = (Ok ("SUCCESS: Removed host '" ++ h ++ "' from inventory."), w')
       ∧ fs w' = <[inv := File (concat (filter (λ l, names_host h l = false) lines))]>
                   (<[backup_name inv (now w) := File c]> (fs w)))
  ∧ ((∀ l, l ∈ lines → names_host h l = false) →
     ∃ w', ansible_remove_host root hostname confirm w
           = (Ok ("ERROR: Host '" ++ h ++ "' not found in inventory."), w')
         ∧ fs w' = fs w
         ∧ added_calls (λ c, negb (is_mutation c)) w w').
Proof.
  intros inv h lines Hh Hconf Hfile.
  assert (Hrun : ansible_remove_host root hostname confirm w
    = (let '(removed, new_lines) :=
         fold_left (remove_host_step h) lines (false, []) in
       if negb removed then
         ret ("ERROR: Host '" ++ h ++ "' not found in inventory.")
       else
         backup_file inv >>
         OS.write_lines inv new_lines >>
         ret ("SUCCESS: Removed host '" ++ h ++ "' from inventory."))
        (log_call (SysRead inv) (log_call (SysExists inv) w))).
  { unfold ansible_remove_host. destruct hostname as [|h0 hs]; [done|].
    cbn [Py.falsy]. rewrite Hconf. cbn [negb]. fold h. fold inv.
    rewrite (bind_run _ _ _ _ _ (path_exists_run _ w)).
    rewrite Hfile, bool_decide_eq_true_2 by eauto. cbn [negb].
    by rewrite (bind_run _ _ _ _ _ (read_lines_run _ (log_call _ w) c Hfile)). }
  rewrite Hrun. clear Hrun. rewrite fold_remove_host_step. cbn [orb app].
  split.
  - intros Hex%existsb_names_host Hbk Hdir. rewrite Hex. cbn [negb].
    set (w1 := log_call _ _).
    rewrite (bind_run _ _ _ _ _ (backup_file_run _ w1 c Hfile Hbk)).
    unfold OS.write_lines. erewrite bind_run.
    2:{ apply write_text_run. cbn [fs set_fs log_call].
        apply can_create_insert_file; [|apply Hbk].
        apply can_create_inventory; [|done].
        intros E. unfold w1 in E. cbn [fs log_call] in E.
        unfold inv in Hfile. by rewrite Hfile in E. }
    eexists. split; [reflexivity|]. done.
  - intros Hno.
    assert (existsb (names_host h) lines = false) as ->.
    { destruct (existsb (names_host h) lines) eqn:E; [|done].
      apply existsb_names_host in E as (l & Hl & Hm). by rewrite (Hno l Hl) in Hm. }
    cbn [negb]. eexists. split; [reflexivity|]. split; [done|].
    exists [SysRead inv; SysExists inv].
    split; [done|]. by repeat constructor.
Qed.
End Inventory.

Lemma add_host_inserts_record_witness :
  let w := sample_world ("[edge]" ++ nl ++ "  [core]  " ++ nl ++ "sw0 ansible_host=10.0.0.9") in
  (∃ w', ansible_add_host sample_root "sw1" "10.0.0.1" "core" "" w
         = (Ok ("SUCCESS: Added host 'sw1' (10.0.0.1) to group 'core'" : str), w')
       ∧ fs w' !! INVENTORY_PATH sample_root
         = Some (File (add_host_text
                         ("[edge]" ++ nl ++ "  [core]  " ++ nl ++ "sw0 ansible_host=10.0.0.9")
                         "core" "sw1 ansible_host=10.0.0.1")))
  ∧ add_host_text ("[edge]" ++ nl ++ "  [core]  " ++ nl ++ "sw0 ansible_host=10.0.0.9")
      "core" "sw1 ansible_host=10.0.0.1"
    = Py.join nl [ "[edge]" : str; "  [core]  " : str;
                   "sw1 ansible_host=10.0.0.1" : str;
                   "sw0 ansible_host=10.0.0.9" : str ]
  ∧ add_host_text "[edge]" "core" "sw1 ansible_host=10.0.0.1"
    = Py.join nl [ "[edge]" : str; [] ; "[core]" : str;
                   "sw1 ansible_host=10.0.0.1" : str ].
Proof.
  intros w.
  destruct (add_host_inserts_record sample_root "sw1" "10.0.0.1" "core" "" w
              ("[edge]" ++ nl ++ "  [core]  " ++ nl ++ "sw0 ansible_host=10.0.0.9"))
    as (Hrun & Hone & _ & _).
  - discriminate.
  - discriminate.
  - vm_compute. reflexivity.
  - vm_compute. reflexivity.
  - intros _. split; [vm_compute; discriminate | vm_compute; reflexivity].
  - vm_compute. reflexivity.
  - split; [exact Hrun|]. split.
    + apply (Hone [ "[edge]" : str ] ("  [core]  " : str)
                  [ "sw0 ansible_host=10.0.0.9" : str ]).
      * vm_compute. reflexivity.
      * vm_compute. reflexivity.
      * intros x Hx. vm_compute in Hx.
        apply elem_of_cons in Hx as [->|Hx]; [vm_compute; discriminate|].
        apply elem_of_cons in Hx as [->|Hx]; [vm_compute; discriminate|].
        by apply elem_of_nil in Hx.
    + destruct (add_host_inserts_record sample_root "sw1" "10.0.0.1" "core" ""
                  (sample_world "[edge]") "[edge]") as (_ & _ & Hnone & _).
      * discriminate.
      * discriminate.
      * vm_compute. reflexivity.
      * vm_compute. reflexivity.
      * intros _. split; [vm_compute; discriminate | vm_compute; reflexivity].
      * vm_compute. reflexivity.
      * apply Hnone. intros x Hx. vm_compute in Hx.
        apply elem_of_cons in Hx as [->|Hx]; [vm_compute; discriminate|].
        by apply elem_of_nil in Hx.
Defined.

(** C3 as stated fails on a header line with surrounding blanks: no line
    equals the header, so a new group would be appended, while the code
    inserts the record after the padded header.  It also fails on a
    document with the header twice: the record goes after both lines,
    not after the first only. *)
Lemma add_host_padded_header_counterexample :
  let doc : str := " [core]" in
  let twice : str := "[core]" ++ nl ++ "[core]" in
  let record : str := "sw1 ansible_host=10.0.0.1" in
  Py.contains "sw1" doc = false
  ∧ addHost_spec doc "core" record
    = " [core]" ++ nl ++ nl ++ "[core]" ++ nl ++ record
  ∧ add_host_text doc "core" record = " [core]" ++ nl ++ record
  ∧ add_host_text doc "core" record ≠ addHost_spec doc "core" record
  ∧ addHost_spec twice "core" record = "[core]" ++ nl ++ record ++ nl ++ "[core]"
  ∧ add_host_text twice "core" record
    = "[core]" ++ nl ++ record ++ nl ++ "[core]" ++ nl ++ record.
Proof.
  repeat split; try reflexivity. intros H. vm_compute in H. discriminate.
Qed.

Lemma add_host_duplicate_rejected_witness :
  let w := sample_world ("[core]" ++ nl ++ "sw10 ansible_host=10.0.0.10") in
  ∃ w', ansible_add_host sample_root "sw1" "10.0.0.1" "core" "" w
        = (Ok ("ERROR: Host 'sw1' already exists in inventory." : str), w')
      ∧ fs w' = fs w.
Proof.
  intros w.
  destruct (add_host_duplicate_rejected sample_root "sw1" "10.0.0.1" "core" "" w
              ("[core]" ++ nl ++ "sw10 ansible_host=10.0.0.10"))
    as (w' & Hrun & Hfs & _).
  - discriminate.
  - discriminate.
  - vm_compute. reflexivity.
  - vm_compute. reflexivity.
  - exists w'. split; [exact Hrun | exact Hfs].
Defined.

Lemma remove_host_deletes_witness :
  let doc : str := "[core]" ++ nl ++ " sw1 ansible_host=10.0.0.1" ++ nl ++ "sw2" ++ nl in
  let w := sample_world doc in
  (∃ w', ansible_remove_host sample_root "sw1" "YES" w
         = (Ok ("SUCCESS: Removed host 'sw1' from inventory." : str), w')
       ∧ fs w' !! INVENTORY_PATH sample_root
         = Some (File ("[core]" ++ nl ++ "sw2" ++ nl)))
  ∧ ∃ w', ansible_remove_host sample_root "sw9" "yes" w
          = (Ok ("ERROR: Host 'sw9' not found in inventory." : str), w')
        ∧ fs w' = fs w.
Proof.
  intros doc w.
  destruct (remove_host_deletes_trimmed_matches sample_root "sw1" "YES" w doc)
    as (Hdel & _).
  - discriminate.
  - vm_compute. reflexivity.
  - vm_compute. reflexivity.
  - destruct (remove_host_deletes_trimmed_matches sample_root "sw9" "yes" w doc)
      as (_ & Hnone).
    + discriminate.
    + vm_compute. reflexivity.
    + vm_compute. reflexivity.
    + split.
      * destruct Hdel as (w' & Hrun & Hfs).
        -- exists (" sw1 ansible_host=10.0.0.1" ++ nl).
           split; [vm_compute; right; left | vm_compute; reflexivity].
        -- split; [vm_compute; discriminate | vm_compute; reflexivity].
        -- vm_compute. reflexivity.
        -- exists w'. split; [exact Hrun|]. rewrite Hfs.
           rewrite lookup_insert_eq. vm_compute. reflexivity.
      * destruct Hnone as (w' & Hrun & Hfs & _).
        -- intros l Hl. vm_compute in Hl.
           repeat (apply elem_of_cons in Hl as [->|Hl]; [vm_compute; reflexivity|]).
           by apply elem_of_nil in Hl.
        -- exists w'. split; [exact Hrun | exact Hfs].
Defined.

(** C7 as stated fails on an indented host line: the line neither equals
    the host id nor starts with it, so it counts among the other lines
    that are kept, while the code deletes it. *)
Lemma remove_host_indented_line_counterexample :
  let doc : str := "[core]" ++ nl ++ "  sw1 ansible_host=10.0.0.1" ++ nl in
  let r := ansible_remove_host sample_root "sw1" "yes" (sample_world doc) in
  Forall (λ l, names_host_verbatim "sw1" l = false) (OS.keepends doc)
  ∧ r.1 = Ok ("SUCCESS: Removed host 'sw1' from inventory." : str)
  ∧ fs r.2 !! INVENTORY_PATH sample_root = Some (File ("[core]" ++ nl)).
Proof. split; [by repeat constructor|]. split; vm_compute; reflexivity. Qed.

(** ** Confirmation of destructive tools *)

Section Confirmation.
Variable root : str.

Lemma remove_host_unconfirmed_read_only hostname confirm :
  affirmative confirm = false → read_only (ansible_remove_host root hostname confirm).
Proof.
  intros Hc. unfold ansible_remove_host. rewrite Hc.
  destruct (Py.falsy hostname); apply read_only_ret.
Qed.

Lemma delete_playbook_unconfirmed_read_only playbook_name confirm :
  affirmative confirm = false →
  read_only (ansible_delete_playbook root playbook_name confirm).
Proof.
  intros Hc. unfold ansible_delete_playbook. rewrite Hc.
  destruct (Py.falsy playbook_name); [|apply read_only_ret].
  apply read_only_bind; [apply read_only_get_available_playbooks|].
  intros [|]; apply read_only_ret.
Qed.

(** C8.  Without an affirmative [confirm] (one of yes, true, 1 in any
    letter case), [ansible_remove_host] and [ansible_delete_playbook]
    change no file: the file system after the call is the one before
    it and no mutating call was made; and for a named target they
    return the warning that says what would be removed or deleted. *)
Theorem destructive_tools_need_confirmation name confirm w :
  affirmative confirm = false →
  (fs (ansible_remove_host root name confirm w).2 = fs w
   ∧ added_calls (λ c, negb (is_mutation c)) w (ansible_remove_host root name confirm w).2)
  ∧ (fs (ansible_delete_playbook root name confirm w).2 = fs w
     ∧ added_calls (λ c, negb (is_mutation c)) w
         (ansible_delete_playbook root name confirm w).2)
  ∧ (name ≠ [] →
     ansible_remove_host root name confirm w
     = (Ok ("WARNING: This will remove '" ++ name ++
            "' from inventory. Set confirm=yes to proceed."), w)
     ∧ ansible_delete_playbook root name confirm w
       = (Ok ("WARNING: This will delete '" ++ name ++
              "'. Set confirm=yes to proceed."), w)).
Proof.
  intros Hc. split; [by apply remove_host_unconfirmed_read_only|].
  split; [by apply delete_playbook_unconfirmed_read_only|].
  intros Hn. unfold ansible_remove_host, ansible_delete_playbook. rewrite Hc.
  by destruct name.
Qed.
End Confirmation.

Lemma destructive_tools_need_confirmation_witness :
  let w := sample_world ("[core]" ++ nl ++ "sw1 ansible_host=10.0.0.1") in
  ansible_remove_host sample_root "sw1" "no" w
  = (Ok ("WARNING: This will remove 'sw1' from inventory. Set confirm=yes to proceed." : str), w)
  ∧ ansible_delete_playbook sample_root "sw1" "no" w
    = (Ok ("WARNING: This will delete 'sw1'. Set confirm=yes to proceed." : str), w)
  ∧ fs (ansible_delete_playbook sample_root "" "maybe" w).2 = fs w.
Proof.
  intros w.
  destruct (destructive_tools_need_confirmation sample_root "sw1" "no" w)
    as (_ & _ & Hwarn); [vm_compute; reflexivity|].
  destruct Hwarn as [Hr Hd]; [discriminate|].
  split; [exact Hr|]. split; [exact Hd|].
  destruct (destructive_tools_need_confirmation sample_root "" "maybe" w)
    as (_ & [Hfs _] & _); [vm_compute; reflexivity|].
  exact Hfs.
Defined.

(** ** The command runner *)

Section Runner.
Variable root : str.
Variable engine : run_args → gmap str node → proc_result * gmap str node.

Lemma subprocess_run_failed a w e f' :
  engine a (fs w) = (Failed e, f') →
  subprocess_run engine a w = (Raise e, set_fs f' (log_call (SysRun a) w)).
Proof.
  intros H. unfold subprocess_run, bind, sys, modify_world, get_world. simpl.
  by rewrite H.
Qed.

Lemma subprocess_run_completed a w rc out err f' :
  engine a (fs w) = (Completed rc out err, f') →
  subprocess_run engine a w
  = (Ok (mkCompleted rc out err), set_fs f' (log_call (SysRun a) w)).
Proof.
  intros H. unfold subprocess_run, bind, sys, modify_world, get_world. simpl.
  by rewrite H.
Qed.

(** C5.  [run_ansible_command] never raises: on every world and for
    every behaviour of the process it returns a string.  When the
    process exceeds the timeout the string is the timeout report, which
    carries no return code; for the default timeout it reads "timed out
    after 300 seconds".  Any other exception of the launch (a missing
    executable, a refused permission, anything else) is returned as the
    string "ERROR: " followed by its message. *)
Theorem run_ansible_command_never_raises cmd timeout w :
  (∃ s, (run_ansible_command root engine cmd timeout w).1 = Ok s)
  ∧ (∀ e f', engine (runner_args root cmd timeout) (fs w) = (Failed e, f') →
             (run_ansible_command root engine cmd timeout w).1
             = Ok (if bool_decide (exn_cls e = TimeoutExpired)
                   then timeout_report timeout
                   else "ERROR: " ++ exn_msg e))
  ∧ timeout_report default_timeout = "ERROR: Command timed out after 300 seconds."
  ∧ Py.contains "RETURN CODE" (timeout_report timeout) = false.
Proof.
  assert (Hfail : ∀ e f', engine (runner_args root cmd timeout) (fs w) = (Failed e, f') →
             (run_ansible_command root engine cmd timeout w).1
             = Ok (if bool_decide (exn_cls e = TimeoutExpired)
                   then timeout_report timeout
                   else "ERROR: " ++ exn_msg e)).
  { intros e f' He. unfold run_ansible_command. fold (runner_args root cmd timeout).
    erewrite try_except_raise;
      [|erewrite bind_raise; [reflexivity|]; by apply subprocess_run_failed].
    by destruct (exn_cls e). }
  split; [|split; [done|split; [reflexivity|apply timeout_report_no_return_code]]].
  destruct (engine (runner_args root cmd timeout) (fs w)) as [[rc out err|e] f'] eqn:E.
  - unfold run_ansible_command. fold (runner_args root cmd timeout).
    erewrite try_except_ok; [eauto|].
    erewrite bind_run; [reflexivity|]. by apply subprocess_run_completed.
  - rewrite (Hfail e f' eq_refl). eauto.
Qed.

(** *** Writing the inventory *)

(** C10.  [ansible_write_inventory], given a non-empty content, backs
    the inventory file up and overwrites it before it runs the
    validation command; when that command exits with a non-zero code
    (and has itself left the inventory file alone), the new content is
    what the file holds afterwards: nothing is rolled back, and the
    result is the warning with the command's error output. *)
Theorem write_inventory_not_rolled_back content w rc out err f' :
  let inv := INVENTORY_PATH root in
  let written := <[inv := File content]> (with_backup (fs w) inv (now w)) in
  content ≠ [] →
  fs w !! inv ≠ Some Dir →
  (is_Some (fs w !! inv) → can_create (fs w) (backup_name inv (now w))) →
  fs w !! INVENTORY_DIR root = Some Dir →
  engine (validation_args root) written = (Completed rc out err, f') →
  rc ≠ 0%Z →
  f' !! inv = written !! inv →
  ∃ w', ansible_write_inventory root engine content w
        = (Ok ("WARNING: Inventory written but validation failed:" ++ nl ++
               err ++ nl ++ nl ++ "Backup: " ++
               Path.basename
                 (if bool_decide (is_Some (fs w !! inv))
                  then backup_name inv (now w) else [])), w')
      ∧ fs w' !! inv = Some (File content)
      ∧ calls w' = [ SysRun (validation_args root); SysWrite inv;
                     SysMakedirs (INVENTORY_DIR root) ]
                   ++ backup_calls (fs w) inv (now w) ++ calls w.
Proof.
  intros inv written Hc Hnd Hbk Hdir Heng Hrc Hkeep.
  unfold ansible_write_inventory. destruct content as [|c0 cs]; [done|].
  cbn [Py.falsy]. fold inv.
  rewrite (bind_run _ _ _ _ _ (backup_file_total inv w Hnd Hbk)).
  set (wb := mkWorld _ _ _).
  assert (Hcreate : can_create (with_backup (fs w) inv (now w)) inv).
  { apply can_create_with_backup; [|done]. split; [done|].
    apply parent_dir_ok. unfold inv. by rewrite dirname_inventory_path. }
  erewrite try_except_ok.
  2:{ erewrite bind_run.
      2:{ apply makedirs_existing; [apply inventory_dir_nonempty|].
          unfold wb. cbn [fs]. by apply with_backup_lookup_dir. }
      erewrite bind_run; [|apply write_text_run; exact Hcreate].
      fold (validation_args root).
      erewrite bind_run.
      2:{ apply subprocess_run_completed. cbn [fs set_fs log_call wb].
          exact Heng. }
      cbn [returncode stderr]. rewrite bool_decide_eq_false_2 by done.
      reflexivity. }
  eexists. split; [reflexivity|]. cbn [fs set_fs log_call calls].
  split; [|done]. rewrite Hkeep. unfold written. by rewrite lookup_insert_eq.
Qed.
End Runner.

Lemma run_ansible_command_never_raises_witness :
  (run_ansible_command sample_root engine_timeout
     [ "ansible" : str; "all" : str; "-m" : str; "ping" : str ] default_timeout
     (sample_world "")).1
  = Ok ("ERROR: Command timed out after 300 seconds." : str).
Proof.
  destruct (run_ansible_command_never_raises sample_root engine_timeout
              [ "ansible" : str; "all" : str; "-m" : str; "ping" : str ]
              default_timeout (sample_world "")) as (_ & Hfail & Hmsg & _).
  rewrite <- Hmsg. exact (Hfail _ _ eq_refl).
Defined.

Lemma write_inventory_not_rolled_back_witness :
  let w := sample_world ("[core]" ++ nl ++ "sw1 ansible_host=10.0.0.1") in
  ∃ w', ansible_write_inventory sample_root engine_rejects "core sw1 10.0.0.1" w
        = (Ok ("WARNING: Inventory written but validation failed:" ++ nl ++
               "ERROR! Attempted to read inventory as ini file" ++ nl ++ nl ++
               "Backup: hosts.ini.20261103_090500.bak"), w')
      ∧ fs w' !! INVENTORY_PATH sample_root = Some (File "core sw1 10.0.0.1").
Proof.
  intros w.
  destruct (write_inventory_not_rolled_back sample_root engine_rejects
              "core sw1 10.0.0.1" w 1 []
              "ERROR! Attempted to read inventory as ini file"
              (<[INVENTORY_PATH sample_root := File "core sw1 10.0.0.1"]>
                 (with_backup (fs w) (INVENTORY_PATH sample_root) (now w))))
    as (w' & Hrun & Hfs & _).
  - discriminate.
  - vm_compute. discriminate.
  - intros _. split; [vm_compute; discriminate | vm_compute; reflexivity].
  - vm_compute. reflexivity.
  - reflexivity.
  - discriminate.
  - reflexivity.
  - exists w'. split; [exact Hrun | exact Hfs].
Defined.

(** * Further properties of the code *)

(** ** More on the sanitizers *)

Section SanitizerFacts.
Implicit Types (s chars value : str) (c : ascii).

Lemma filter_all {A} (P : A → Prop) `{∀ x, Decision (P x)} (l : list A) :
  (∀ x, x ∈ l → P x) → filter P l = l.
Proof.
  induction l as [|x l IH]; intros Hl; [done|].
  rewrite filter_cons_True by (apply Hl; left).
  rewrite IH; [done|]. intros y Hy. apply Hl. by right.
Qed.

Lemma drop_while_head_stop {A} (p : A → bool) (l : list A) :
  (∀ x, head l = Some x → p x = false) → Py.drop_while p l = l.
Proof. destruct l as [|x l]; [done|]. intros H. simpl. by rewrite (H x). Qed.

(** Stripping leaves nothing to strip. *)
Lemma strip_chars_idem chars s :
  Py.strip_chars chars (Py.strip_chars chars s) = Py.strip_chars chars s.
Proof.
  set (t := Py.strip_chars chars s).
  assert (Hl : Py.lstrip_chars chars t = t).
  { apply drop_while_head_stop. intros x Hx. by apply (strip_chars_head chars s). }
  unfold Py.strip_chars at 1. rewrite Hl. unfold Py.rstrip_chars.
  rewrite drop_while_head_stop; [apply reverse_involutive|].
  intros x Hx. rewrite head_reverse in Hx. by apply (strip_chars_last chars s).
Qed.

Lemma safe_filename_char_underscore : safe_filename_char "_" = true.
Proof. reflexivity. Qed.

Lemma sanitize_filename_chars value c :
  c ∈ sanitize_filename value → safe_filename_char c = true.
Proof.
  unfold sanitize_filename. destruct (Py.falsy value); [by intros ?%elem_of_nil|].
  intros H%elem_of_strip_chars. apply list_elem_of_fmap in H as (x & -> & _).
  by destruct (safe_filename_char x) eqn:E.
Qed.

End SanitizerFacts.

(** X1.  [sanitize_input] is idempotent: a sanitized argument passes
    through the sanitizer unchanged. *)
Theorem sanitize_input_idempotent (value : str) :
  sanitize_input (sanitize_input value) = sanitize_input value.
Proof.
  rewrite !sanitize_input_filter_strip. unfold sanitizeArgument_spec, Py.strip.
  rewrite filter_all; [apply strip_chars_idem|].
  intros x Hx%elem_of_strip_chars. by apply list_elem_of_filter in Hx as [? _].
Qed.

(** X2.  What [sanitize_filename] returns is made of letters, digits,
    underscores, hyphens and dots only, and neither starts nor ends with
    an underscore or a dot: it holds no slash and is neither "." nor
    "..". *)
Theorem sanitize_filename_plain_component (value : str) :
  Forall (λ c, safe_filename_char c = true) (sanitize_filename value)
  ∧ (∀ c, head (sanitize_filename value) = Some c
          ∨ last (sanitize_filename value) = Some c →
          (c ≠ "_"%char ∧ c ≠ "."%char))
  ∧ ("/"%char ∉ sanitize_filename value)
  ∧ sanitize_filename value ≠ "."
  ∧ sanitize_filename value ≠ "..".
Proof.
  assert (Hends : ∀ c, head (sanitize_filename value) = Some c
          ∨ last (sanitize_filename value) = Some c →
          (c ≠ "_"%char ∧ c ≠ "."%char)).
  { unfold sanitize_filename. destruct (Py.falsy value); [by intros c [|]|].
    intros c Hc.
    assert (Py.char_in c "_." = false) as Hn
      by (destruct Hc as [H|H]; [by eapply strip_chars_head | by eapply strip_chars_last]).
    split; intros ->; done. }
  split; [|split; [done|split; [|split]]].
  - apply Forall_forall. apply sanitize_filename_chars.
  - intros H%sanitize_filename_chars. done.
  - intros E. destruct (Hends "."%char) as [_ H]; [left; by rewrite E|]. done.
  - intros E. destruct (Hends "."%char) as [_ H]; [left; by rewrite E|]. done.
Qed.

(** X3.  [sanitize_filename] is idempotent. *)
Theorem sanitize_filename_idempotent (value : str) :
  sanitize_filename (sanitize_filename value) = sanitize_filename value.
Proof.
  pose proof (sanitize_filename_chars value) as Hsafe.
  unfold sanitize_filename at 1.
  destruct (Py.falsy (sanitize_filename value)) eqn:E.
  { by destruct (sanitize_filename value). }
  assert (Hmap : map (λ c, if safe_filename_char c then c else "_"%char)
                   (sanitize_filename value) = sanitize_filename value).
  { clear E. induction (sanitize_filename value) as [|x l IH]; [done|].
    cbn [map]. rewrite (Hsafe x) by left. f_equal. apply IH.
    intros c Hc. apply Hsafe. by right. }
  rewrite Hmap. unfold sanitize_filename. destruct (Py.falsy value); [done|].
  apply strip_chars_idem.
Qed.

Lemma sanitize_filename_plain_component_witness :
  "e"%char ≠ "_"%char ∧ "e"%char ≠ "."%char.
Proof.
  destruct (sanitize_filename_plain_component "../etc") as (_ & Hends & _).
  apply Hends. left. vm_compute. reflexivity.
Defined.

(** ** More on paths *)

Section MorePaths.
Implicit Types (d name root lit p : str) (c : ascii).

Lemma endswith_last d c :
  last d = Some c → c ≠ "/"%char → Py.endswith d "/" = false.
Proof.
  intros [d' ->]%last_Some Hc. unfold Py.endswith. rewrite reverse_app. lits.
  change (reverse ["/"%char]) with ["/"%char]. change (reverse [c]) with [c].
  cbn [app Py.startswith]. by rewrite (bool_decide_eq_false_2 ("/"%char = c)).
Qed.

(** A name joined to a directory is the directory, a slash and the name. *)
Lemma join_child d name :
  (∃ c, last d = Some c ∧ c ≠ "/"%char) → "/"%char ∉ name →
  Path.join d name = d ++ "/" ++ name.
Proof.
  intros (c & Hl & Hc) Hn. unfold Path.join.
  rewrite (not_startswith_slash name Hn), (endswith_last d c Hl Hc).
  by destruct d.
Qed.

Lemma join_last root lit c :
  last lit = Some c → Py.startswith lit "/" = false →
  last (Path.join root lit) = Some c.
Proof.
  intros [l' ->]%last_Some Hs. unfold Path.join. rewrite Hs.
  destruct (_ || _); rewrite ?app_assoc; by rewrite last_app.
Qed.

Lemma group_vars_dir_last root :
  ∃ c, last (GROUP_VARS_DIR root) = Some c ∧ c ≠ "/"%char.
Proof. exists "s"%char. split; [by apply join_last|done]. Qed.

Lemma host_vars_dir_last root :
  ∃ c, last (HOST_VARS_DIR root) = Some c ∧ c ≠ "/"%char.
Proof. exists "s"%char. split; [by apply join_last|done]. Qed.

Lemma playbooks_dir_last root :
  ∃ c, last (PLAYBOOKS_DIR root) = Some c ∧ c ≠ "/"%char.
Proof. exists "s"%char. split; [by apply join_last|done]. Qed.

Lemma templates_dir_last root :
  ∃ c, last (TEMPLATES_DIR root) = Some c ∧ c ≠ "/"%char.
Proof. exists "s"%char. split; [by apply join_last|done]. Qed.

Lemma last_nonempty d c : last d = Some c → d ≠ [].
Proof. by intros H ->. Qed.

Lemma basename_no_slash p : "/"%char ∉ Path.basename p.
Proof.
  unfold Path.basename. rewrite elem_of_reverse.
  induction (reverse p) as [|x l IH]; simpl; [apply not_elem_of_nil|].
  case_bool_decide as Hx; [|apply not_elem_of_nil].
  rewrite not_elem_of_cons. split; [done|apply IH].
Qed.

(** The base name of a name directly under [d]. *)
Lemma basename_child d name :
  "/"%char ∉ name → Path.basename (d ++ "/" ++ name) = name.
Proof.
  intros Hn. unfold Path.basename. lits. cbn [app].
  rewrite (reverse_app _ ("/"%char :: name)), reverse_cons, <- app_assoc. cbn [app].
  assert (H : ∀ (l k : str), "/"%char ∉ l →
            Path.take_while (λ c, bool_decide (c ≠ "/"%char)) (l ++ "/"%char :: k) = l).
  { induction l as [|x l IH]; intros k Hl; cbn [app Path.take_while].
    - by rewrite bool_decide_eq_false_2 by (by intros []).
    - apply not_elem_of_cons in Hl as [Hx Hl].
      rewrite bool_decide_eq_true_2 by done. by rewrite IH. }
  rewrite H; [apply reverse_involutive|]. by rewrite elem_of_reverse.
Qed.

End MorePaths.

(** ** More on the time stamp *)

Section MoreStamp.

Lemma digits_chars k n c : c ∈ digits k n → is_digit c = true.
Proof.
  revert n. induction k as [|k IH]; intros n; cbn [digits]; [by intros ?%elem_of_nil|].
  intros [H|H]%elem_of_app; [by eapply IH|].
  apply list_elem_of_singleton in H as ->. apply is_digit_digit.
  apply Nat.mod_upper_bound. lia.
Qed.

Lemma zero_pad_chars width n c :
  c ∈ zero_pad width n → is_digit c = true ∨ c = "-"%char.
Proof.
  unfold zero_pad. destruct (_ <? _)%nat.
  - intros H. left. by eapply digits_chars.
  - apply str_of_Z_chars.
Qed.

Lemma strftime_stamp_no_slash (t : datetime) : "/"%char ∉ strftime_stamp t.
Proof.
  unfold strftime_stamp. intros H.
  repeat (apply elem_of_app in H as [H|H];
          [by apply zero_pad_chars in H as [H|H]|]).
  apply elem_of_app in H as [H|H].
  { lits in H. by apply list_elem_of_singleton in H. }
  repeat (apply elem_of_app in H as [H|H];
          [by apply zero_pad_chars in H as [H|H]|]).
  by apply zero_pad_chars in H as [H|H].
Qed.

(** The backup of a name directly under [d] is directly under [d]. *)
Lemma backup_name_child d name (t : datetime) :
  "/"%char ∉ name →
  backup_name (d ++ "/" ++ name) t = d ++ "/" ++ (name ++ "." ++ strftime_stamp t ++ ".bak")
  ∧ "/"%char ∉ name ++ "." ++ strftime_stamp t ++ ".bak".
Proof.
  intros Hn. split; [unfold backup_name; by rewrite <- !app_assoc|].
  rewrite !not_elem_of_app. split; [done|]. split; [by lits; intros ?%list_elem_of_singleton|].
  split; [apply strftime_stamp_no_slash|].
  lits. intros H. repeat (apply elem_of_cons in H as [H|H]; [done|]).
  by apply elem_of_nil in H.
Qed.

End MoreStamp.

(** ** Writing under a directory *)

Section WriteUnder.
Implicit Types (w : World) (d name fp content : str) (f : gmap str node).

(** A name directly under an existing directory can be created unless it
    is a directory itself. *)
Lemma can_create_child f d name :
  (∃ c, last d = Some c ∧ c ≠ "/"%char) → "/"%char ∉ name →
  f !! d = Some Dir → f !! (d ++ "/" ++ name) ≠ Some Dir →
  can_create f (d ++ "/" ++ name).
Proof.
  intros Hd Hn Hdir Hnd. split; [done|].
  apply parent_dir_ok. by rewrite dirname_child.
Qed.

(** The backup of a file, then its overwriting: the lines the writing
    tools share. *)
Lemma backup_then_write_run fp content (msg : str) (h : exn → M str) w :
  can_create (fs w) fp →
  (is_Some (fs w !! fp) → can_create (fs w) (backup_name fp (now w))) →
  ∃ w', (let* ex := OS.path_exists fp in
         (if ex then backup_file fp else ret []) >>
         try_except (OS.write_text fp content >> ret msg) h) w = (Ok msg, w')
        ∧ fs w' = <[fp := File content]> (with_backup (fs w) fp (now w))
        ∧ now w' = now w.
Proof.
  intros Hc Hbk.
  rewrite (bind_run _ _ _ _ _ (path_exists_run fp w)).
  set (w1 := log_call (SysExists fp) w).
  destruct (fs w !! fp) as [[c|]|] eqn:E.
  - rewrite bool_decide_eq_true_2 by eauto.
    assert (Hbk' : can_create (fs w) (backup_name fp (now w))) by (apply Hbk; eauto).
    rewrite (bind_run _ _ _ _ _ (backup_file_run fp w1 c E Hbk')).
    erewrite try_except_ok.
    2:{ erewrite bind_run; [reflexivity|]. apply write_text_run.
        cbn [fs set_fs log_call]. apply can_create_insert_file; [done|apply Hbk']. }
    eexists. split; [reflexivity|]. unfold with_backup. rewrite E. done.
  - by destruct Hc as [Hc _].
  - rewrite bool_decide_eq_false_2 by (by intros [? ?]).
    rewrite (bind_run _ _ _ _ _ (eq_refl : ret [] w1 = (Ok [], w1))).
    erewrite try_except_ok.
    2:{ erewrite bind_run; [reflexivity|]. by apply write_text_run. }
    eexists. split; [reflexivity|]. unfold with_backup. rewrite E. done.
Qed.

Lemma with_backup_lookup f p (t : datetime) q :
  q ≠ backup_name p t → with_backup f p t !! q = f !! q.
Proof.
  intros Hq. unfold with_backup. destruct (f !! p) as [[c|]|]; try done.
  by rewrite lookup_insert_ne.
Qed.

End WriteUnder.

(** ** Variable files *)

Section VarsFiles.
Variable root : str.
Implicit Types (w : World) (content : str).

Lemma yml_name_no_slash (name : str) : "/"%char ∉ sanitize_filename name ++ ".yml".
Proof.
  rewrite not_elem_of_app. split; [apply sanitize_filename_no_slash|].
  lits. intros H. repeat (apply elem_of_cons in H as [H|H]; [done|]).
  by apply elem_of_nil in H.
Qed.

(** Writing the file [name] under the existing directory [d], with the
    backup of what was there. *)
Lemma write_under_run d name content (msg : str) (h : exn → M str) w :
  (∃ c, last d = Some c ∧ c ≠ "/"%char) → "/"%char ∉ name →
  fs w !! d = Some Dir →
  fs w !! Path.join d name ≠ Some Dir →
  fs w !! backup_name (Path.join d name) (now w) ≠ Some Dir →
  ∃ w', (let* ex := OS.path_exists (Path.join d name) in
         (if ex then backup_file (Path.join d name) else ret []) >>
         try_except (OS.write_text (Path.join d name) content >> ret msg) h) w
        = (Ok msg, w')
      ∧ fs w' = <[Path.join d name := File content]>
                  (with_backup (fs w) (Path.join d name) (now w))
      ∧ now w' = now w.
Proof.
  intros Hd Hn Hdir Hnd Hbk. rewrite (join_child d name Hd Hn) in *.
  apply backup_then_write_run.
  - by apply can_create_child.
  - intros _. destruct (backup_name_child d name (now w) Hn) as [E Hs].
    rewrite E in *. by apply can_create_child.
Qed.

Lemma write_group_vars_run group_name content w :
  let name := sanitize_filename group_name in
  let fp := Path.join (GROUP_VARS_DIR root) (name ++ ".yml") in
  group_name ≠ [] → content ≠ [] →
  fs w !! GROUP_VARS_DIR root = Some Dir →
  fs w !! fp ≠ Some Dir →
  fs w !! backup_name fp (now w) ≠ Some Dir →
  ∃ w', ansible_write_group_vars root group_name content w
        = (Ok ("SUCCESS: group_vars/" ++ name ++ ".yml updated."), w')
      ∧ fs w' = <[fp := File content]> (with_backup (fs w) fp (now w)).
Proof.
  intros name fp Hg Hc Hdir Hnd Hbk. unfold ansible_write_group_vars.
  destruct group_name as [|g0 gs]; [done|]. destruct content as [|c0 cs]; [done|].
  cbn [Py.falsy].
  destruct (group_vars_dir_last root) as (c & Hl & Hne).
  rewrite (bind_run _ _ _ _ _
             (makedirs_existing _ w (last_nonempty _ _ Hl) Hdir)).
  edestruct (write_under_run (GROUP_VARS_DIR root) (name ++ ".yml") (c0 :: cs)
               ("SUCCESS: group_vars/" ++ name ++ ".yml updated.")
               (λ e, ret ("ERROR: Failed to write group_vars: " ++ exn_msg e))
               (log_call (SysMakedirs (GROUP_VARS_DIR root)) w))
    as (w' & Hrun & Hfs & _);
    [by eauto | apply yml_name_no_slash | exact Hdir | exact Hnd | exact Hbk |].
  exists w'. split; [exact Hrun | exact Hfs].
Qed.

Lemma write_host_vars_run hostname content w :
  let name := sanitize_filename hostname in
  let fp := Path.join (HOST_VARS_DIR root) (name ++ ".yml") in
  hostname ≠ [] → content ≠ [] →
  fs w !! HOST_VARS_DIR root = Some Dir →
  fs w !! fp ≠ Some Dir →
  fs w !! backup_name fp (now w) ≠ Some Dir →
  ∃ w', ansible_write_host_vars root hostname content w
        = (Ok ("SUCCESS: host_vars/" ++ name ++ ".yml updated."), w')
      ∧ fs w' = <[fp := File content]> (with_backup (fs w) fp (now w)).
Proof.
  intros name fp Hg Hc Hdir Hnd Hbk. unfold ansible_write_host_vars.
  destruct hostname as [|g0 gs]; [done|]. destruct content as [|c0 cs]; [done|].
  cbn [Py.falsy].
  destruct (host_vars_dir_last root) as (c & Hl & Hne).
  rewrite (bind_run _ _ _ _ _
             (makedirs_existing _ w (last_nonempty _ _ Hl) Hdir)).
  edestruct (write_under_run (HOST_VARS_DIR root) (name ++ ".yml") (c0 :: cs)
               ("SUCCESS: host_vars/" ++ name ++ ".yml updated.")
               (λ e, ret ("ERROR: Failed to write host_vars: " ++ exn_msg e))
               (log_call (SysMakedirs (HOST_VARS_DIR root)) w))
    as (w' & Hrun & Hfs & _);
    [by eauto | apply yml_name_no_slash | exact Hdir | exact Hnd | exact Hbk |].
  exists w'. split; [exact Hrun | exact Hfs].
Qed.

(** X4.  What [ansible_write_group_vars] wrote for a group is what
    [ansible_read_group_vars] returns for it, under the heading of the
    sanitized name and with the line ends read as newlines; the text the
    file held before is kept in the backup.  The same holds of
    [ansible_write_host_vars] and [ansible_read_host_vars].  (The
    directory exists; neither the file nor its backup name is a
    directory.) *)
Theorem vars_written_are_read_back name content w :
  let n := sanitize_filename name in
  let gp := Path.join (GROUP_VARS_DIR root) (n ++ ".yml") in
  let hp := Path.join (HOST_VARS_DIR root) (n ++ ".yml") in
  name ≠ [] → content ≠ [] →
  (fs w !! GROUP_VARS_DIR root = Some Dir →
   fs w !! gp ≠ Some Dir → fs w !! backup_name gp (now w) ≠ Some Dir →
   ∃ w', ansible_write_group_vars root name content w
         = (Ok ("SUCCESS: group_vars/" ++ n ++ ".yml updated."), w')
       ∧ (ansible_read_group_vars root name w').1
         = Ok ("=== GROUP VARS: " ++ n ++ " ===" ++ nl ++ nl ++
               OS.universal_newlines content)
       ∧ ∀ c, fs w !! gp = Some (File c) →
              fs w' !! backup_name gp (now w) = Some (File c))
  ∧ (fs w !! HOST_VARS_DIR root = Some Dir →
     fs w !! hp ≠ Some Dir → fs w !! backup_name hp (now w) ≠ Some Dir →
     ∃ w', ansible_write_host_vars root name content w
           = (Ok ("SUCCESS: host_vars/" ++ n ++ ".yml updated."), w')
         ∧ (ansible_read_host_vars root name w').1
           = Ok ("=== HOST VARS: " ++ n ++ " ===" ++ nl ++ nl ++
                 OS.universal_newlines content)
         ∧ ∀ c, fs w !! hp = Some (File c) →
                fs w' !! backup_name hp (now w) = Some (File c)).
Proof.
  intros n gp hp Hn Hc. split.
  - intros Hdir Hnd Hbk.
    destruct (write_group_vars_run name content w Hn Hc Hdir Hnd Hbk)
      as (w' & Hrun & Hfs).
    exists w'. split; [exact Hrun|]. fold n gp in Hfs.
    assert (Hfile : fs w' !! gp = Some (File content))
      by (by rewrite Hfs, lookup_insert_eq).
    split.
    + unfold ansible_read_group_vars. destruct name as [|g0 gs]; [done|].
      cbn [Py.falsy fold_right]. fold n. fold gp.
      rewrite (bind_run _ _ _ _ _ (path_exists_run gp w')).
      rewrite Hfile, bool_decide_eq_true_2 by eauto.
      by rewrite (bind_run _ _ _ _ _ (read_text_run gp (log_call _ w') content Hfile)).
    + intros c E. rewrite Hfs.
      rewrite lookup_insert_ne by (intros H; by apply (backup_name_fresh gp (now w))).
      unfold with_backup. rewrite E. by rewrite lookup_insert_eq.
  - intros Hdir Hnd Hbk.
    destruct (write_host_vars_run name content w Hn Hc Hdir Hnd Hbk)
      as (w' & Hrun & Hfs).
    exists w'. split; [exact Hrun|]. fold n hp in Hfs.
    assert (Hfile : fs w' !! hp = Some (File content))
      by (by rewrite Hfs, lookup_insert_eq).
    split.
    + unfold ansible_read_host_vars. destruct name as [|g0 gs]; [done|].
      cbn [Py.falsy fold_right]. fold n. fold hp.
      rewrite (bind_run _ _ _ _ _ (path_exists_run hp w')).
      rewrite Hfile, bool_decide_eq_true_2 by eauto.
      by rewrite (bind_run _ _ _ _ _ (read_text_run hp (log_call _ w') content Hfile)).
    + intros c E. rewrite Hfs.
      rewrite lookup_insert_ne by (intros H; by apply (backup_name_fresh hp (now w))).
      unfold with_backup. rewrite E. by rewrite lookup_insert_eq.
Qed.

End VarsFiles.

Lemma vars_written_are_read_back_witness :
  ∃ w', ansible_write_group_vars sample_root "core" "vlan: 20" sample_site
        = (Ok ("SUCCESS: group_vars/core.yml updated." : str), w')
      ∧ (ansible_read_group_vars sample_root "core" w').1
        = Ok ("=== GROUP VARS: core ===" ++ nl ++ nl ++ "vlan: 20")
      ∧ fs w' !! ("/root/ansible/group_vars/core.yml.20261103_090500.bak" : str)
        = Some (File "vlan: 10").
Proof.
  destruct (vars_written_are_read_back sample_root "core" "vlan: 20" sample_site)
    as [Hg _]; [discriminate | discriminate |].
  destruct Hg as (w' & Hrun & Hread & Hbk).
  - vm_compute. reflexivity.
  - vm_compute. discriminate.
  - vm_compute. discriminate.
  - exists w'. split; [exact Hrun|]. split; [exact Hread|].
    apply (Hbk "vlan: 10"). vm_compute. reflexivity.
Defined.

(** ** What a tool leaves alone *)

Section Frames.
Implicit Types (w : World) (d p q name content : str).

Lemma keeps_outside_refl d w : keeps_outside d w w.
Proof. by intros q _. Qed.

Lemma keeps_outside_trans d w1 w2 w3 :
  keeps_outside d w1 w2 → keeps_outside d w2 w3 → keeps_outside d w1 w3.
Proof. intros H1 H2 q Hq. by rewrite (H2 q Hq), (H1 q Hq). Qed.

Lemma keeps_outside_bind {A B} d (m : M A) (k : A → M B) w :
  keeps_outside d w (m w).2 →
  (∀ a w1, m w = (Ok a, w1) → keeps_outside d w1 (k a w1).2) →
  keeps_outside d w (bind m k w).2.
Proof.
  intros Hm Hk. unfold bind. destruct (m w) as [[a|e] w1] eqn:E; [|exact Hm].
  eapply keeps_outside_trans; [exact Hm|]. by apply Hk.
Qed.

Lemma keeps_outside_try {A} d (m : M A) (h : exn → M A) w :
  keeps_outside d w (m w).2 →
  (∀ e w1, m w = (Raise e, w1) → keeps_outside d w1 (h e w1).2) →
  keeps_outside d w (try_except m h w).2.
Proof.
  intros Hm Hh. unfold try_except. destruct (m w) as [[a|e] w1] eqn:E; [exact Hm|].
  eapply keeps_outside_trans; [exact Hm|]. by apply Hh.
Qed.

Lemma join_prefix d name : "/"%char ∉ name → d `prefix_of` Path.join d name.
Proof.
  intros Hn. unfold Path.join. rewrite (not_startswith_slash name Hn).
  destruct (_ || _); by eexists.
Qed.

(** [copy2] changes the destination, or a path below it, and nothing
    else. *)
Lemma copy2_frame src dst w q :
  ¬ dst `prefix_of` q → fs (OS.copy2 src dst w).2 !! q = fs w !! q.
Proof.
  intros Hq. unfold OS.copy2, bind, sys, modify_world, get_world, ret, raise.
  cbn [fst snd fs log_call].
  destruct (fs w !! src) as [[c|]|]; cbn [fst snd fs log_call]; try done.
  set (dst' := match fs w !! dst with
               | Some Dir => Path.join dst (Path.basename src)
               | _ => dst
               end).
  assert (Hpre : dst `prefix_of` dst').
  { unfold dst'. destruct (fs w !! dst) as [[]|]; try done.
    apply join_prefix, basename_no_slash. }
  destruct (fs w !! dst') as [[]|]; cbn [fst snd fs log_call]; try done;
    destruct (OS.parent_ok (fs w) dst'); cbn [fst snd fs set_fs log_call]; try done;
    apply lookup_insert_ne; by intros <-.
Qed.

Lemma backup_file_frame p w q :
  ¬ backup_name p (now w) `prefix_of` q → fs (backup_file p w).2 !! q = fs w !! q.
Proof.
  intros Hq. unfold backup_file.
  rewrite (bind_run _ _ _ _ _ (path_exists_run p w)).
  destruct (bool_decide _); [|done].
  rewrite (bind_run _ _ _ _ _ (datetime_now_run _)).
  pose proof (copy2_frame p (backup_name p (now w)) (log_call (SysExists p) w) q Hq) as H.
  unfold bind. fold (backup_name p (now w)).
  change (now (log_call (SysExists p) w)) with (now w).
  by destruct (OS.copy2 _ _ _) as [[a|e] w2].
Qed.

Lemma write_text_frame p content w q :
  q ≠ p → fs (OS.write_text p content w).2 !! q = fs w !! q.
Proof.
  intros Hq. unfold OS.write_text, bind, sys, modify_world, get_world, ret, raise.
  cbn [fst snd fs log_call].
  destruct (fs w !! p) as [[]|]; cbn [fst snd fs log_call]; try done;
    destruct (OS.parent_ok (fs w) p); cbn [fst snd fs set_fs log_call]; try done;
    by apply lookup_insert_ne.
Qed.

Lemma under_child d name q : under d (d ++ "/" ++ name ++ q).
Proof. unfold under. rewrite app_assoc. by eexists. Qed.

Lemma not_under_neq d name q : ¬ under d q → q ≠ d ++ "/" ++ name.
Proof. intros H ->. apply H. unfold under. rewrite app_assoc. by eexists. Qed.

Lemma not_under_backup d name (t : datetime) q :
  ¬ under d q → ¬ backup_name (d ++ "/" ++ name) t `prefix_of` q.
Proof.
  intros H [k ->]. apply H. unfold under, backup_name.
  rewrite <- !app_assoc. rewrite (app_assoc d). by eexists.
Qed.

(** The backup and the overwriting of a name under [d] stay under [d]. *)
Lemma backup_then_write_frame d name content (msg : str) (h : exn → M str) w :
  (∀ e w1, fs (h e w1).2 = fs w1) →
  keeps_outside d w
    ((let* ex := OS.path_exists (d ++ "/" ++ name) in
      (if ex then backup_file (d ++ "/" ++ name) else ret []) >>
      try_except (OS.write_text (d ++ "/" ++ name) content >> ret msg) h) w).2.
Proof.
  intros Hh. apply keeps_outside_bind; [by intros q _|].
  intros ex w1 _. apply keeps_outside_bind.
  - destruct ex; [|by intros q _]. intros q Hq.
    apply backup_file_frame. by apply not_under_backup.
  - intros _ w2 _. apply keeps_outside_try.
    + apply keeps_outside_bind; [|by intros ? ? _ q _].
      intros q Hq. apply write_text_frame. by apply not_under_neq.
    + intros e w3 _ q _. by rewrite Hh.
Qed.

End Frames.


Section VarsStay.
Variable root : str.

(** X6.  Whatever the name given, [ansible_write_group_vars] changes
    nothing outside the group_vars directory and
    [ansible_write_host_vars] nothing outside the host_vars directory
    (the directory existing, as it does after start-up): every path that
    is not under it keeps its node. *)
Theorem vars_writes_stay_under_their_directory (name content : str) (w : World) :
  (fs w !! GROUP_VARS_DIR root = Some Dir →
   keeps_outside (GROUP_VARS_DIR root) w
     (ansible_write_group_vars root name content w).2)
  ∧ (fs w !! HOST_VARS_DIR root = Some Dir →
     keeps_outside (HOST_VARS_DIR root) w
       (ansible_write_host_vars root name content w).2).
Proof.
  split.
  - intros Hdir. unfold ansible_write_group_vars.
    destruct (Py.falsy name); [apply keeps_outside_refl|].
    destruct (Py.falsy content); [apply keeps_outside_refl|].
    destruct (group_vars_dir_last root) as (c & Hl & Hne).
    rewrite (bind_run _ _ _ _ _
               (makedirs_existing _ w (last_nonempty _ _ Hl) Hdir)).
    rewrite (join_child _ _ (ex_intro _ c (conj Hl Hne)) (yml_name_no_slash name)).
    apply (keeps_outside_trans _ _ (log_call (SysMakedirs (GROUP_VARS_DIR root)) w));
      [by intros q _|].
    by apply backup_then_write_frame.
  - intros Hdir. unfold ansible_write_host_vars.
    destruct (Py.falsy name); [apply keeps_outside_refl|].
    destruct (Py.falsy content); [apply keeps_outside_refl|].
    destruct (host_vars_dir_last root) as (c & Hl & Hne).
    rewrite (bind_run _ _ _ _ _
               (makedirs_existing _ w (last_nonempty _ _ Hl) Hdir)).
    rewrite (join_child _ _ (ex_intro _ c (conj Hl Hne)) (yml_name_no_slash name)).
    apply (keeps_outside_trans _ _ (log_call (SysMakedirs (HOST_VARS_DIR root)) w));
      [by intros q _|].
    by apply backup_then_write_frame.
Qed.

End VarsStay.


Lemma vars_writes_stay_under_their_directory_witness :
  fs (ansible_write_group_vars sample_root "../../etc/passwd" "x" sample_site).2
    !! ("/etc/passwd.yml" : str)
  = fs sample_site !! ("/etc/passwd.yml" : str).
Proof.
  apply (proj1 (vars_writes_stay_under_their_directory sample_root
                  "../../etc/passwd" "x" sample_site)).
  - vm_compute. reflexivity.
  - intros H%startswith_prefix. vm_compute in H. discriminate H.
Defined.

(** ** The configuration file *)

Section ConfigFile.
Variable root : str.
Implicit Types (w : World) (content : str).

(** X7.  What [ansible_write_config] wrote is what [ansible_read_config]
    returns, with the line ends read as newlines, and the text the file
    held before is kept in the backup.  The tool makes no directory:
    when the root itself is missing it answers with the error of the
    failed write and changes nothing.  [ansible_read_config] does not
    catch what the read raises: on a directory in the place of the file
    it raises [IsADirectoryError]. *)
Theorem config_written_is_read_back content w :
  let cfg := Path.join root "ansible.cfg" in
  content ≠ [] →
  (can_create (fs w) cfg →
   (is_Some (fs w !! cfg) → can_create (fs w) (backup_name cfg (now w))) →
   ∃ w', ansible_write_config root content w
         = (Ok ("SUCCESS: ansible.cfg updated." : str), w')
       ∧ (ansible_read_config root w').1
         = Ok ("=== ANSIBLE.CFG ===" ++ nl ++ nl ++ OS.universal_newlines content)
       ∧ ∀ c, fs w !! cfg = Some (File c) →
              fs w' !! backup_name cfg (now w) = Some (File c))
  ∧ (fs w !! cfg = None → Path.dirname cfg ≠ [] → fs w !! Path.dirname cfg = None →
     ∃ reason w', ansible_write_config root content w
                  = (Ok ("ERROR: Failed to write ansible.cfg: " ++ reason), w')
                ∧ fs w' = fs w)
  ∧ (fs w !! cfg = Some Dir →
     ∃ e, (ansible_read_config root w).1 = Raise e
          ∧ exn_cls e = IsADirectoryError).
Proof.
  intros cfg Hc. destruct content as [|c0 cs]; [done|]. split; [|split].
  - intros Hcreate Hbk.
    destruct (backup_then_write_run cfg (c0 :: cs) ("SUCCESS: ansible.cfg updated." : str)
                (λ e, ret ("ERROR: Failed to write ansible.cfg: " ++ exn_msg e))
                w Hcreate Hbk) as (w' & Hrun & Hfs & _).
    exists w'. split; [exact Hrun|].
    assert (Hfile : fs w' !! cfg = Some (File (c0 :: cs)))
      by (by rewrite Hfs, lookup_insert_eq).
    split.
    + unfold ansible_read_config. fold cfg.
      rewrite (bind_run _ _ _ _ _ (path_exists_run cfg w')).
      rewrite Hfile, bool_decide_eq_true_2 by eauto. cbn [negb].
      by rewrite (bind_run _ _ _ _ _ (read_text_run cfg (log_call _ w') _ Hfile)).
    + intros c E. rewrite Hfs.
      rewrite lookup_insert_ne by (intros H; by apply (backup_name_fresh cfg (now w))).
      unfold with_backup. rewrite E. by rewrite lookup_insert_eq.
  - intros Hnone Hdn Hpar. unfold ansible_write_config. cbn [Py.falsy]. fold cfg.
    rewrite (bind_run _ _ _ _ _ (path_exists_run cfg w)).
    rewrite Hnone, bool_decide_eq_false_2 by (by intros [? ?]).
    unfold bind at 1. cbn [ret]. unfold try_except, bind, OS.write_text, bind, sys,
      modify_world, get_world, ret, raise. cbn [fst snd fs log_call].
    rewrite Hnone. unfold OS.parent_ok.
    destruct (Path.dirname cfg) as [|d0 ds] eqn:Ed; [done|]. cbn [Py.falsy].
    rewrite Hpar. cbn [OS.err exn_msg]. eexists _, _. split; [reflexivity|done].
  - intros Hd. unfold ansible_read_config. fold cfg.
    rewrite (bind_run _ _ _ _ _ (path_exists_run cfg w)).
    rewrite Hd, bool_decide_eq_true_2 by eauto. cbn [negb].
    unfold bind, OS.read_text, bind, sys, modify_world, get_world, ret, raise.
    cbn [fst snd fs log_call]. rewrite Hd. eexists. by split.
Qed.

End ConfigFile.

(** ** The reading tools *)

Section Reading.
Variable root : str.
Implicit Types (w : World).

Lemma read_only_path_isdir p : read_only (OS.path_isdir p).
Proof.
  intros w. split; [done|]. exists [SysIsdir p]. split; [done|]. by repeat constructor.
Qed.

Lemma read_only_read_text p : read_only (OS.read_text p).
Proof.
  intros w. unfold OS.read_text, bind, sys, modify_world, get_world. simpl.
  destruct (fs w !! p) as [[]|]; (split; [done|]); exists [SysRead p];
    (split; [done|]); by repeat constructor.
Qed.

Lemma read_only_try_except {A} (m : M A) (h : exn → M A) :
  read_only m → (∀ e, read_only (h e)) → read_only (try_except m h).
Proof.
  intros Hm Hh w. unfold try_except. destruct (Hm w) as [Hf Hc].
  destruct (m w) as [[a|e] w1]; simpl in *; [done|].
  destruct (Hh e w1) as [Hf' Hc']. split; [congruence|].
  by eapply added_calls_trans.
Qed.

Lemma read_only_read_guarded p (k : str → str) (h : exn → M str) :
  (∀ e, read_only (h e)) →
  read_only (try_except (let* content := OS.read_text p in ret (k content)) h).
Proof.
  intros Hh. apply read_only_try_except; [|done].
  apply read_only_bind; [apply read_only_read_text|]. intros. apply read_only_ret.
Qed.

Lemma read_only_find_playbook name : read_only (find_playbook root name).
Proof.
  unfold find_playbook. apply read_only_bind; [apply read_only_path_exists|].
  intros [|]; cbn [negb]; [apply read_only_ret|].
  apply read_only_bind; [apply read_only_path_exists|].
  intros [|]; apply read_only_ret.
Qed.

Lemma read_only_no_playbook_specified : read_only (no_playbook_specified root).
Proof.
  unfold no_playbook_specified.
  apply read_only_bind; [apply read_only_get_available_playbooks|].
  intros [|]; apply read_only_ret.
Qed.

Lemma read_file_is_read_only file_path : read_only (ansible_read_file root file_path).
Proof.
  unfold ansible_read_file. destruct (Py.falsy file_path); [apply read_only_ret|].
  destruct (negb _); [apply read_only_ret|].
  apply read_only_bind; [apply read_only_path_exists|].
  intros [|]; cbn [negb]; [|apply read_only_ret].
  apply read_only_bind; [apply read_only_path_isdir|]. intros [|].
  - apply read_only_bind; [apply read_only_listdir|]. intros. apply read_only_ret.
  - apply read_only_read_guarded. intros. apply read_only_ret.
Qed.

(** X8.  [ansible_read_file] only reads: for every path and every state
    of the file system it leaves the file system as it found it and
    makes no mutating call, whether it returns or raises.  Where the
    path it resolves to is not a directory (a regular file, a missing
    path, a refused one, the empty path) it returns a string: the read
    is the one call made there that can fail, and it is guarded.  The
    listing of a directory is not guarded, and nothing is said of what
    it returns. *)
Theorem read_file_only_reads (file_path : str) (w : World) :
  fs (ansible_read_file root file_path w).2 = fs w
  ∧ added_calls (λ c, negb (is_mutation c)) w (ansible_read_file root file_path w).2
  ∧ (fs w !! resolved root file_path ≠ Some Dir →
     ∃ s, (ansible_read_file root file_path w).1 = Ok s).
Proof.
  split; [apply read_file_is_read_only|]. split; [apply read_file_is_read_only|].
  intros Hnd. unfold ansible_read_file. destruct (Py.falsy file_path); [by eexists|].
  fold (resolved root file_path). destruct (negb _); [by eexists|].
  unfold bind, OS.path_exists, OS.path_isdir, OS.read_text, try_except,
    bind, sys, modify_world, get_world, ret, raise. cbn [fst snd fs log_call].
  destruct (fs w !! resolved root file_path) as [[c|]|] eqn:E; [|done|].
  - rewrite bool_decide_eq_true_2 by eauto.
    repeat (cbn [negb fst snd fs log_call]; rewrite ?E). by eexists.
  - rewrite bool_decide_eq_false_2 by (by intros [? ?]). by eexists.
Qed.

Lemma read_only_vars_lookup (d name : str) (head_ : str → str) (missing : str) :
  read_only
    (fold_right
       (λ (ext : str) (next : M str),
          let filepath := Path.join d (name ++ ext) in
          let* ex := OS.path_exists filepath in
          if ex then
            let* content := OS.read_text filepath in ret (head_ content)
          else next)
       (ret missing) [ ".yml" : str ; ".yaml" : str ]).
Proof.
  cbn [fold_right]. apply read_only_bind; [apply read_only_path_exists|].
  intros [|].
  { apply read_only_bind; [apply read_only_read_text|]. intros. apply read_only_ret. }
  apply read_only_bind; [apply read_only_path_exists|].
  intros [|]; [|apply read_only_ret].
  apply read_only_bind; [apply read_only_read_text|]. intros. apply read_only_ret.
Qed.

(** X9.  The reading tools only read: [ansible_read_inventory],
    [ansible_read_group_vars], [ansible_read_host_vars],
    [ansible_read_config] and [ansible_read_playbook] leave the file
    system as they found it and make no mutating call, whatever they
    are asked and whether they return or raise. *)
Theorem reading_tools_only_read (name : str) :
  read_only (ansible_read_inventory root)
  ∧ read_only (ansible_read_group_vars root name)
  ∧ read_only (ansible_read_host_vars root name)
  ∧ read_only (ansible_read_config root)
  ∧ read_only (ansible_read_playbook root name).
Proof.
  split; [|split; [|split; [|split]]].
  - unfold ansible_read_inventory.
    apply read_only_bind; [apply read_only_path_exists|].
    intros [|]; cbn [negb]; [|apply read_only_ret].
    apply read_only_read_guarded. intros. apply read_only_ret.
  - unfold ansible_read_group_vars. destruct (Py.falsy name).
    + apply read_only_bind; [apply read_only_path_exists|].
      intros [|]; [|apply read_only_ret].
      apply read_only_bind; [apply read_only_listdir|]. intros names.
      destruct (map _ _); apply read_only_ret.
    + apply (read_only_vars_lookup (GROUP_VARS_DIR root) (sanitize_filename name)
               (λ content, "=== GROUP VARS: " ++ sanitize_filename name ++ " ===" ++
                           nl ++ nl ++ content)).
  - unfold ansible_read_host_vars. destruct (Py.falsy name).
    + apply read_only_bind; [apply read_only_path_exists|].
      intros [|]; [|apply read_only_ret].
      apply read_only_bind; [apply read_only_listdir|]. intros names.
      destruct (map _ _); apply read_only_ret.
    + apply (read_only_vars_lookup (HOST_VARS_DIR root) (sanitize_filename name)
               (λ content, "=== HOST VARS: " ++ sanitize_filename name ++ " ===" ++
                           nl ++ nl ++ content)).
  - unfold ansible_read_config.
    apply read_only_bind; [apply read_only_path_exists|].
    intros [|]; cbn [negb]; [|apply read_only_ret].
    apply read_only_bind; [apply read_only_read_text|]. intros. apply read_only_ret.
  - unfold ansible_read_playbook. destruct (Py.falsy name).
    + apply read_only_bind; [apply read_only_get_available_playbooks|].
      intros [|]; apply read_only_ret.
    + apply read_only_bind; [apply read_only_find_playbook|].
      intros [p|]; [|apply read_only_ret].
      apply read_only_read_guarded. intros. apply read_only_ret.
Qed.

End Reading.

Lemma config_written_is_read_back_witness :
  ∃ w', ansible_write_config sample_root "[defaults]" sample_site
        = (Ok ("SUCCESS: ansible.cfg updated." : str), w')
      ∧ (ansible_read_config sample_root w').1
        = Ok ("=== ANSIBLE.CFG ===" ++ nl ++ nl ++ "[defaults]").
Proof.
  destruct (config_written_is_read_back sample_root "[defaults]" sample_site)
    as (Hok & _); [discriminate|].
  destruct Hok as (w' & Hrun & Hread & _).
  - split; [vm_compute; discriminate | vm_compute; reflexivity].
  - intros _. split; [vm_compute; discriminate | vm_compute; reflexivity].
  - exists w'. split; [exact Hrun | exact Hread].
Defined.

Lemma read_file_only_reads_witness :
  ∃ s, (ansible_read_file sample_root "ansible.cfg" sample_site).1 = Ok s.
Proof.
  apply (proj2 (proj2 (read_file_only_reads sample_root "ansible.cfg" sample_site))).
  vm_compute. discriminate.
Defined.

(** ** Writing a file, then reading it *)

Section WriteThenRead.
Variable root : str.
Implicit Types (w : World).

Lemma path_isdir_run p w :
  OS.path_isdir p w
  = (Ok (match fs w !! p with Some Dir => true | _ => false end),
     log_call (SysIsdir p) w).
Proof. reflexivity. Qed.

(** X10.  What [ansible_write_file] wrote is what [ansible_read_file]
    returns for the same path, with the line ends read as newlines,
    whether a backup was asked for or not.  (The arguments are those
    the tool accepts; the directory of the file exists, the file is not
    a directory and its backup can be created.) *)
Theorem file_written_is_read_back file_path c2 create_backup w :
  let rel := Py.lstrip_chars "/" file_path in
  let full := resolved root file_path in
  file_path ≠ [] → c2 ≠ [] → Py.startswith full root = true →
  Path.dirname full ≠ [] → fs w !! Path.dirname full = Some Dir →
  fs w !! full ≠ Some Dir →
  (is_Some (fs w !! full) → can_create (fs w) (backup_name full (now w))) →
  ∃ msg w', ansible_write_file root file_path c2 create_backup w = (Ok msg, w')
          ∧ Py.startswith msg "SUCCESS: " = true
          ∧ fs w' !! full = Some (File c2)
          ∧ (ansible_read_file root file_path w').1
            = Ok ("=== FILE: " ++ rel ++ " ===" ++ nl ++ nl ++
                  OS.universal_newlines c2).
Proof.
  intros rel full.
  assert (Erel : rel = Py.lstrip_chars "/" file_path) by done.
  assert (Efull : full = resolved root file_path) by done.
  clearbody rel full. intros Hp Hc Hin Hdn Hdir Hnd Hbk.
  assert (Hcreate : can_create (fs w) full) by (split; [done | by apply parent_dir_ok]).
  assert (Hread : ∀ w', fs w' !! full = Some (File c2) →
            (ansible_read_file root file_path w').1
            = Ok ("=== FILE: " ++ rel ++ " ===" ++ nl ++ nl ++ OS.universal_newlines c2)).
  { intros w' Hfile. unfold ansible_read_file. destruct file_path; [done|].
    cbn [Py.falsy]. fold (resolved root (a :: file_path)).
    rewrite <- Efull, <- Erel, Hin. cbn [negb].
    rewrite (bind_run _ _ _ _ _ (path_exists_run full w')).
    rewrite Hfile, bool_decide_eq_true_2 by eauto. cbn [negb].
    rewrite (bind_run _ _ _ _ _ (path_isdir_run full _)).
    cbn [fs log_call]. rewrite Hfile.
    erewrite try_except_ok; [reflexivity|].
    erewrite bind_run; [reflexivity|]. by apply read_text_run. }
  assert (Hrun : ansible_write_file root file_path c2 create_backup w
    = (let* backup_path :=
         (if affirmative create_backup then
            let* ex := OS.path_exists full in
            if ex then backup_file full else ret []
          else ret []) in
       try_except
         (OS.write_text full c2 >>
          let msg := "SUCCESS: File written to " ++ rel in
          let msg :=
            if negb (Py.falsy backup_path)
            then msg ++ nl ++ "Backup saved to: " ++ Path.basename backup_path
            else msg in
          ret msg)
         (λ e, ret ("ERROR: Failed to write file: " ++ exn_msg e)))
        (log_call (SysMakedirs (Path.dirname full)) w)).
  { unfold ansible_write_file. destruct file_path; [done|]. destruct c2; [done|].
    cbn [Py.falsy]. fold (resolved root (a :: file_path)).
    rewrite <- Efull, <- Erel, Hin. cbn [negb].
    by rewrite (bind_run _ _ _ _ _ (makedirs_existing _ w Hdn Hdir)). }
  rewrite Hrun. clear Hrun. set (w1 := log_call _ w).
  assert (Hb : ∃ bp wb,
    (if affirmative create_backup then
       let* ex := OS.path_exists full in
       if ex then backup_file full else ret []
     else ret []) w1 = (Ok bp, wb) ∧ can_create (fs wb) full).
  { destruct (affirmative create_backup); [|by exists [], w1].
    rewrite (bind_run _ _ _ _ _ (path_exists_run full w1)).
    cbn [fs w1 log_call].
    destruct (fs w !! full) as [[c|]|] eqn:E; [|done|].
    - rewrite bool_decide_eq_true_2 by eauto.
      assert (Hbk' : can_create (fs w) (backup_name full (now w))) by (apply Hbk; eauto).
      rewrite (backup_file_run full (log_call (SysExists full) w1) c E Hbk').
      eexists _, _. split; [reflexivity|]. cbn [fs set_fs log_call w1].
      apply can_create_insert_file; [done | apply Hbk'].
    - rewrite bool_decide_eq_false_2 by (by intros [? ?]).
      eexists _, _. split; [reflexivity|]. done. }
  destruct Hb as (bp & wb & Hb & Hcb). rewrite (bind_run _ _ _ _ _ Hb).
  erewrite try_except_ok.
  2:{ erewrite bind_run; [reflexivity|]. by apply write_text_run. }
  eexists _, _. split; [reflexivity|].
  assert (Hfile : fs (set_fs (<[full:=File c2]> (fs wb)) (log_call (SysWrite full) wb))
                    !! full = Some (File c2))
    by (cbn [fs set_fs]; by rewrite lookup_insert_eq).
  split; [by destruct (negb (Py.falsy bp))|]. split; [exact Hfile|].
  by apply Hread.
Qed.

End WriteThenRead.

(** ** The inventory, written and read *)

Section InventoryRoundTrip.
Variable root : str.
Variable engine : run_args → gmap str node → proc_result * gmap str node.
Implicit Types (w : World).

Lemma read_inventory_file w c :
  fs w !! INVENTORY_PATH root = Some (File c) →
  (ansible_read_inventory root w).1
  = Ok ("=== INVENTORY: " ++ INVENTORY_PATH root ++ " ===" ++ nl ++ nl ++
        OS.universal_newlines c).
Proof.
  intros Hfile. unfold ansible_read_inventory.
  rewrite (bind_run _ _ _ _ _ (path_exists_run _ w)).
  rewrite Hfile, bool_decide_eq_true_2 by eauto. cbn [negb].
  erewrite try_except_ok; [reflexivity|].
  erewrite bind_run; [reflexivity|]. by apply read_text_run.
Qed.

(** X11.  What [ansible_write_inventory] wrote is what
    [ansible_read_inventory] returns, with the line ends read as
    newlines, whatever the validation command answered: success, a
    non-zero exit code, a timeout or a failure to start.  (The inventory
    directory exists, the inventory path is not a directory, its backup
    can be created, and the validation command leaves the inventory
    file alone.)  Without an inventory file, [ansible_read_inventory]
    says so and points to [ansible_write_inventory]. *)
Theorem inventory_written_is_read_back content w :
  let inv := INVENTORY_PATH root in
  let written := <[inv := File content]> (with_backup (fs w) inv (now w)) in
  (content ≠ [] →
   fs w !! inv ≠ Some Dir →
   (is_Some (fs w !! inv) → can_create (fs w) (backup_name inv (now w))) →
   fs w !! INVENTORY_DIR root = Some Dir →
   (engine (validation_args root) written).2 !! inv = written !! inv →
   ∃ msg w', ansible_write_inventory root engine content w = (Ok msg, w')
           ∧ (ansible_read_inventory root w').1
             = Ok ("=== INVENTORY: " ++ inv ++ " ===" ++ nl ++ nl ++
                   OS.universal_newlines content))
  ∧ (fs w !! inv = None →
     ansible_read_inventory root w
     = (Ok ("ERROR: Inventory file not found at " ++ inv ++ nl ++ nl ++
            "Use ansible_write_inventory to create one."),
        log_call (SysExists inv) w)).
Proof.
  intros inv written. split.
  - intros Hc Hnd Hbk Hdir Hkeep.
    unfold ansible_write_inventory. destruct content as [|c0 cs]; [done|].
    cbn [Py.falsy]. fold inv.
    rewrite (bind_run _ _ _ _ _ (backup_file_total inv w Hnd Hbk)).
    set (wb := mkWorld _ _ _).
    assert (Hcreate : can_create (with_backup (fs w) inv (now w)) inv).
    { apply can_create_with_backup; [|done]. split; [done|].
      apply parent_dir_ok. unfold inv. by rewrite dirname_inventory_path. }
    assert (Hmk : OS.makedirs (INVENTORY_DIR root) wb
                  = (Ok tt, log_call (SysMakedirs (INVENTORY_DIR root)) wb)).
    { apply makedirs_existing; [apply inventory_dir_nonempty|].
      unfold wb. cbn [fs]. by apply with_backup_lookup_dir. }
    assert (Hfile : written !! inv = Some (File (c0 :: cs)))
      by (unfold written; by rewrite lookup_insert_eq).
    fold (validation_args root).
    destruct (engine (validation_args root) written) as [[rc out err|e] f'] eqn:Heng;
      cbn [snd] in Hkeep.
    + destruct (bool_decide (rc = 0%Z)) eqn:Hrc.
      all: erewrite try_except_ok;
        [|erewrite bind_run; [|exact Hmk];
          erewrite bind_run; [|apply write_text_run; exact Hcreate];
          erewrite bind_run;
            [|apply subprocess_run_completed; cbn [fs set_fs log_call wb]; exact Heng];
          cbn [returncode stderr]; rewrite Hrc; reflexivity].
      all: eexists _, _; (split; [reflexivity|]); apply read_inventory_file.
      all: cbn [fs set_fs]; unfold inv in Hkeep; rewrite Hkeep; exact Hfile.
    + erewrite try_except_raise.
      2:{ erewrite bind_run; [|exact Hmk].
          erewrite bind_run; [|apply write_text_run; exact Hcreate].
          erewrite bind_raise; [reflexivity|].
          apply subprocess_run_failed. cbn [fs set_fs log_call wb]. exact Heng. }
      eexists _, _. split; [reflexivity|]. apply read_inventory_file.
      cbn [fs set_fs ret snd]. unfold inv in Hkeep. rewrite Hkeep. exact Hfile.
  - intros Hnone. unfold ansible_read_inventory. fold inv.
    rewrite (bind_run _ _ _ _ _ (path_exists_run inv w)).
    by rewrite Hnone, bool_decide_eq_false_2 by (by intros [? ?]).
Qed.

End InventoryRoundTrip.

Lemma file_written_is_read_back_witness :
  ∃ msg w', ansible_write_file sample_root "group_vars/core.yml" "vlan: 30" "no"
              sample_site = (Ok msg, w')
          ∧ (ansible_read_file sample_root "group_vars/core.yml" w').1
            = Ok ("=== FILE: group_vars/core.yml ===" ++ nl ++ nl ++ "vlan: 30").
Proof.
  destruct (file_written_is_read_back sample_root "group_vars/core.yml" "vlan: 30" "no"
              sample_site) as (msg & w' & Hrun & _ & _ & Hread).
  - discriminate.
  - discriminate.
  - vm_compute. reflexivity.
  - vm_compute. discriminate.
  - vm_compute. reflexivity.
  - vm_compute. discriminate.
  - intros _. split; [vm_compute; discriminate | vm_compute; reflexivity].
  - exists msg, w'. split; [exact Hrun | exact Hread].
Defined.

Lemma inventory_written_is_read_back_witness :
  ∃ msg w', ansible_write_inventory sample_root engine_rejects "[edge]" sample_site
            = (Ok msg, w')
          ∧ (ansible_read_inventory sample_root w').1
            = Ok ("=== INVENTORY: /root/ansible/inventory/hosts.ini ===" ++ nl ++ nl ++
                  "[edge]").
Proof.
  destruct (inventory_written_is_read_back sample_root engine_rejects "[edge]"
              sample_site) as (Hok & _).
  destruct Hok as (msg & w' & Hrun & Hread).
  - discriminate.
  - vm_compute. discriminate.
  - intros _. split; [vm_compute; discriminate | vm_compute; reflexivity].
  - vm_compute. reflexivity.
  - reflexivity.
  - exists msg, w'. split; [exact Hrun | exact Hread].
Defined.

(** ** Text files and their lines *)

Section TextLines.
Implicit Types (s a b l body : str) (ls : list str) (c : ascii).

Lemma universal_newlines_no_CR s : CR ∉ OS.universal_newlines s.
Proof.
  assert (H : ∀ (n : nat) s, (length s ≤ n)%nat → CR ∉ OS.universal_newlines s).
  { clear s. induction n as [|n IH]; intros [|c s] Hn; cbn in Hn;
      try apply not_elem_of_nil; [lia|].
    cbn [OS.universal_newlines]. case_bool_decide as Hc.
    - destruct s as [|c2 s2].
      + intros [?|[]%elem_of_nil]%elem_of_cons. done.
      + case_bool_decide; apply not_elem_of_cons; (split; [done|]); apply IH;
          cbn in *; lia.
    - apply not_elem_of_cons. split; [done|]. apply IH. lia. }
  by apply (H (length s)).
Qed.

Lemma universal_newlines_id s : CR ∉ s → OS.universal_newlines s = s.
Proof.
  induction s as [|c s IH]; [done|]. intros [Hc Hs]%not_elem_of_cons.
  cbn [OS.universal_newlines]. rewrite bool_decide_eq_false_2 by done.
  by rewrite IH.
Qed.

(** Translation of the line ends goes through a concatenation unless a
    line end is split by it. *)
Lemma universal_newlines_app a s :
  head s ≠ Some LF →
  OS.universal_newlines (a ++ s) = OS.universal_newlines a ++ OS.universal_newlines s.
Proof.
  intros Hs.
  assert (H : ∀ (n : nat) a, (length a ≤ n)%nat →
            OS.universal_newlines (a ++ s)
            = OS.universal_newlines a ++ OS.universal_newlines s).
  { clear a. induction n as [|n IH]; intros [|c a] Hn; cbn in Hn; try done; [lia|].
    cbn [app OS.universal_newlines]. case_bool_decide as Hc.
    - destruct a as [|c2 a2]; cbn [app].
      + destruct s as [|c2 s2]; [done|].
        rewrite bool_decide_eq_false_2 by (by intros ->). done.
      + case_bool_decide.
        * rewrite IH by (cbn in *; lia). done.
        * change (c2 :: a2 ++ s) with ((c2 :: a2) ++ s).
          rewrite (IH (c2 :: a2)) by (cbn in *; lia). done.
    - rewrite IH by lia. done. }
  by apply (H (length a)).
Qed.

Lemma universal_newlines_keeps a s b :
  CR ∉ s → head s ≠ Some LF →
  Py.contains s (OS.universal_newlines (a ++ s ++ b)) = true.
Proof.
  intros Hcr Hh. apply contains_infix.
  destruct s as [|c s]; [by exists [], (OS.universal_newlines (a ++ b))|].
  rewrite universal_newlines_app by done.
  exists (OS.universal_newlines a), (OS.universal_newlines b). f_equal.
  clear Hh. revert Hcr. generalize (c :: s). clear c s.
  induction l as [|c s IH]; [done|]. intros [Hc Hs]%not_elem_of_cons.
  cbn [app OS.universal_newlines]. rewrite bool_decide_eq_false_2 by done.
  by rewrite IH.
Qed.

Lemma keepends_concat_id s : concat (OS.keepends s) = s.
Proof.
  induction s as [|c s IH]; [done|]. cbn [OS.keepends].
  case_bool_decide; [cbn; by rewrite IH|].
  destruct (OS.keepends s) as [|l ls]; cbn in *; by rewrite <- IH.
Qed.

Lemma lines_wf_keepends s : lines_wf (OS.keepends s).
Proof.
  induction s as [|c s IH]; [done|]. cbn [OS.keepends]. case_bool_decide as Hc.
  - split; [|done]. left. exists []. subst c. split; [done|apply not_elem_of_nil].
  - destruct (OS.keepends s) as [|l ls].
    + split; [|done]. right. split; [|done]. split; [done|].
      intros [?|[]%elem_of_nil]%elem_of_cons. by subst.
    + destruct IH as [[(body & -> & Hb)|[[Hl Hn] ->]] Hwf]; (split; [|done]).
      * left. exists (c :: body). split; [done|].
        apply not_elem_of_cons. split; [by intros <-|done].
      * right. split; [|done]. split; [done|].
        apply not_elem_of_cons. split; [by intros <-|done].
Qed.

Lemma lines_wf_filter (P : str → Prop) `{∀ l, Decision (P l)} ls :
  lines_wf ls → lines_wf (filter P ls).
Proof.
  induction ls as [|l ls IH]; [done|]. intros [Hl Hwf].
  destruct (decide (P l)) as [Hp|Hp].
  - rewrite filter_cons_True by done. split; [|by apply IH].
    destruct Hl as [?|[? ->]]; [by left | by right].
  - rewrite filter_cons_False by done. by apply IH.
Qed.

Lemma keepends_closed_line body s :
  LF ∉ body → OS.keepends (body ++ LF :: s) = (body ++ [LF]) :: OS.keepends s.
Proof.
  induction body as [|b bs IH]; intros Hb.
  - cbn [app OS.keepends]. by rewrite bool_decide_eq_true_2.
  - apply not_elem_of_cons in Hb as [Hne Hb]. cbn [app OS.keepends].
    rewrite bool_decide_eq_false_2 by done. by rewrite IH.
Qed.

Lemma keepends_open_line l : l ≠ [] → LF ∉ l → OS.keepends l = [l].
Proof.
  induction l as [|c l IH]; [done|]. intros _ [Hc Hl]%not_elem_of_cons.
  cbn [OS.keepends]. rewrite bool_decide_eq_false_2 by done.
  destruct l as [|c' l']; [done|]. by rewrite IH.
Qed.

(** Well-formed lines are the lines of their concatenation. *)
Lemma keepends_concat ls : lines_wf ls → OS.keepends (concat ls) = ls.
Proof.
  induction ls as [|l ls IH]; [done|]. intros [Hl Hwf]. cbn [concat].
  destruct Hl as [(body & -> & Hb)|[[Hl Hn] ->]].
  - rewrite <- app_assoc. cbn [app]. rewrite keepends_closed_line by done.
    by rewrite IH.
  - cbn [concat]. rewrite app_nil_r. by apply keepends_open_line.
Qed.

Lemma elem_of_concat_filter (P : str → Prop) `{∀ l, Decision (P l)} ls c :
  c ∈ concat (filter P ls) → c ∈ concat ls.
Proof.
  induction ls as [|l ls IH]; [done|]. cbn [concat].
  destruct (decide (P l)).
  - rewrite filter_cons_True by done. cbn [concat].
    rewrite !elem_of_app. intros [?|?]; [by left | right; by apply IH].
  - rewrite filter_cons_False by done. rewrite elem_of_app. right. by apply IH.
Qed.

End TextLines.

(** ** The inventory editor, run twice *)

Section InventoryTwice.
Variable root : str.
Implicit Types (w : World) (doc : str).

Lemma contains_empty doc : Py.contains [] doc = true.
Proof. by destruct doc. Qed.

(** X12.  A host name that the sanitizer empties (one made of shell
    metacharacters and blanks only) is never added: the empty name is
    found in every document, so [ansible_add_host] answers that the
    host '' already exists and leaves the file system as it found it. *)
Theorem add_host_emptied_name_rejected hostname ansible_host group extra_vars w doc :
  hostname ≠ [] → ansible_host ≠ [] →
  sanitize_input hostname = [] →
  inventory_text root (fs w) = Some doc →
  ∃ w', ansible_add_host root hostname ansible_host group extra_vars w
        = (Ok ("ERROR: Host '' already exists in inventory." : str), w')
      ∧ fs w' = fs w.
Proof.
  intros Hh Ha He Hdoc. unfold ansible_add_host.
  destruct hostname as [|h0 hs]; [done|]. destruct ansible_host as [|a0 as']; [done|].
  cbn [Py.falsy].
  destruct (read_inventory_run root w doc Hdoc) as (w1 & Hfs & _ & _ & Hrun).
  exists w1. rewrite Hrun, He, contains_empty. done.
Qed.

Lemma sanitize_input_head_not_LF (value : str) :
  head (sanitize_input value) ≠ Some LF.
Proof.
  rewrite sanitize_input_filter_strip. unfold sanitizeArgument_spec, Py.strip.
  intros H%strip_chars_head. done.
Qed.

Lemma add_host_text_has_record doc group record :
  ∃ a b, add_host_text doc group record = a ++ record ++ b.
Proof.
  pose proof (add_host_text_eq doc group record) as Heq. cbv zeta in Heq.
  rewrite Heq. clear Heq. apply elem_of_join.
  set (header := "[" ++ group ++ "]").
  destruct (existsb (is_header header) (Py.split LF doc)) eqn:E.
  - apply existsb_exists in E as (l & Hl%list_elem_of_In & Hh).
    apply list_elem_of_In, in_flat_map. exists l. split; [by apply list_elem_of_In|].
    rewrite Hh. right. by left.
  - rewrite !elem_of_app. right. right. apply elem_of_cons. right. by left.
Qed.

(** X13.  A host is added once: after [ansible_add_host] has added a
    host, a second call for the same host name, with whatever address,
    group and variables, answers that the host already exists and
    leaves the file system as it found it.  (The name holds no carriage
    return; the first call meets an inventory it can read, back up and
    write.) *)
Theorem add_host_twice_rejected
    hostname ansible_host group extra_vars ansible_host2 group2 extra_vars2 w doc :
  let h := sanitize_input hostname in
  hostname ≠ [] → ansible_host ≠ [] → ansible_host2 ≠ [] →
  CR ∉ h →
  inventory_text root (fs w) = Some doc →
  Py.contains h doc = false →
  (is_Some (fs w !! INVENTORY_PATH root) →
     can_create (fs w) (backup_name (INVENTORY_PATH root) (now w))) →
  fs w !! INVENTORY_DIR root = Some Dir →
  ∃ w1 w2,
    ansible_add_host root hostname ansible_host group extra_vars w
    = (Ok ("SUCCESS: Added host '" ++ h ++ "' (" ++ sanitize_input ansible_host ++
           ") to group '" ++ group_or_all group ++ "'"), w1)
    ∧ ansible_add_host root hostname ansible_host2 group2 extra_vars2 w1
      = (Ok ("ERROR: Host '" ++ h ++ "' already exists in inventory."), w2)
    ∧ fs w2 = fs w1.
Proof.
  intros h Hh Ha Ha2 Hcr Hdoc Hin Hbk Hdir.
  destruct (add_host_run root hostname ansible_host group extra_vars w doc
              Hh Ha Hdoc Hin Hbk Hdir) as (w1 & Hrun1 & Hfs1).
  exists w1.
  set (text := add_host_text doc (group_or_all group)
                 (host_record hostname ansible_host extra_vars)) in *.
  assert (Hdoc1 : inventory_text root (fs w1) = Some (OS.universal_newlines text)).
  { unfold inventory_text. by rewrite Hfs1, lookup_insert_eq. }
  assert (Hin1 : Py.contains h (OS.universal_newlines text) = true).
  { destruct (add_host_text_has_record doc (group_or_all group)
                (host_record hostname ansible_host extra_vars)) as (a & b & Et).
    fold text in Et. rewrite Et.
    assert (∃ r, host_record hostname ansible_host extra_vars = h ++ r) as [r ->].
    { unfold host_record. fold h. destruct (negb _); rewrite <- ?app_assoc; by eexists. }
    rewrite <- app_assoc.
    apply universal_newlines_keeps; [done | apply sanitize_input_head_not_LF]. }
  unfold ansible_add_host at 2.
  destruct hostname as [|h0 hs]; [done|]. destruct ansible_host2 as [|a0 as']; [done|].
  cbn [Py.falsy].
  destruct (read_inventory_run root w1 _ Hdoc1) as (w2 & Hfs2 & _ & _ & Hrun2).
  exists w2. split; [exact Hrun1|]. rewrite Hrun2. fold h. rewrite Hin1. done.
Qed.

Lemma remove_host_run hostname confirm w c :
  let inv := INVENTORY_PATH root in
  let h := sanitize_input hostname in
  let lines := OS.keepends (OS.universal_newlines c) in
  hostname ≠ [] → affirmative confirm = true →
  fs w !! inv = Some (File c) →
  ansible_remove_host root hostname confirm w
  = (if negb (existsb (names_host h) lines) then
       ret ("ERROR: Host '" ++ h ++ "' not found in inventory.")
     else
       backup_file inv >>
       OS.write_lines inv (filter (λ l, names_host h l = false) lines) >>
       ret ("SUCCESS: Removed host '" ++ h ++ "' from inventory."))
      (log_call (SysRead inv) (log_call (SysExists inv) w)).
Proof.
  intros inv h lines Hh Hconf Hfile.
  unfold ansible_remove_host. destruct hostname as [|h0 hs]; [done|].
  cbn [Py.falsy]. rewrite Hconf. cbn [negb]. fold h. fold inv.
  rewrite (bind_run _ _ _ _ _ (path_exists_run _ w)).
  rewrite Hfile, bool_decide_eq_true_2 by eauto. cbn [negb].
  rewrite (bind_run _ _ _ _ _ (read_lines_run _ (log_call _ w) c Hfile)).
  fold lines. by rewrite fold_remove_host_step.
Qed.

(** X14.  A host is removed once: after [ansible_remove_host] has removed
    a host, no line of the inventory names it any more, and a second
    confirmed call for the same host answers that the host was not
    found and leaves the file system as it found it. *)
Theorem remove_host_twice_not_found hostname confirm confirm2 w c :
  let inv := INVENTORY_PATH root in
  let h := sanitize_input hostname in
  let lines := OS.keepends (OS.universal_newlines c) in
  hostname ≠ [] → affirmative confirm = true → affirmative confirm2 = true →
  fs w !! inv = Some (File c) →
  (∃ l, l ∈ lines ∧ names_host h l = true) →
  can_create (fs w) (backup_name inv (now w)) →
  fs w !! INVENTORY_DIR root = Some Dir →
  ∃ w1 w2,
    ansible_remove_host root hostname confirm w
    = (Ok ("SUCCESS: Removed host '" ++ h ++ "' from inventory."), w1)
    ∧ ansible_remove_host root hostname confirm2 w1
      = (Ok ("ERROR: Host '" ++ h ++ "' not found in inventory."), w2)
    ∧ fs w2 = fs w1.
Proof.
  intros inv h lines Hh Hconf Hconf2 Hfile Hex Hbk Hdir.
  set (kept := filter (λ l, names_host h l = false) lines).
  assert (Hrun1 : ∃ w1, ansible_remove_host root hostname confirm w
            = (Ok ("SUCCESS: Removed host '" ++ h ++ "' from inventory."), w1)
            ∧ fs w1 !! inv = Some (File (concat kept))).
  { rewrite (remove_host_run hostname confirm w c Hh Hconf Hfile).
    fold inv h lines. apply existsb_names_host in Hex. rewrite Hex. cbn [negb].
    set (w0 := log_call _ _).
    rewrite (bind_run _ _ _ _ _ (backup_file_run _ w0 c Hfile Hbk)).
    unfold OS.write_lines. erewrite bind_run.
    2:{ apply write_text_run. cbn [fs set_fs log_call].
        apply can_create_insert_file; [|apply Hbk].
        apply can_create_inventory; [|done].
        intros E. unfold w0 in E. cbn [fs log_call] in E.
        unfold inv in Hfile. by rewrite Hfile in E. }
    eexists. split; [reflexivity|]. cbn [fs set_fs]. by rewrite lookup_insert_eq. }
  destruct Hrun1 as (w1 & Hrun1 & Hfile1). exists w1.
  assert (Hlines : OS.keepends (OS.universal_newlines (concat kept)) = kept).
  { rewrite universal_newlines_id.
    - apply keepends_concat, lines_wf_filter, lines_wf_keepends.
    - intros Hc. apply elem_of_concat_filter in Hc.
      unfold lines in Hc. rewrite keepends_concat_id in Hc.
      by apply universal_newlines_no_CR in Hc. }
  rewrite (remove_host_run hostname confirm2 w1 (concat kept) Hh Hconf2 Hfile1).
  fold inv h. rewrite Hlines.
  assert (existsb (names_host h) kept = false) as ->.
  { destruct (existsb (names_host h) kept) eqn:E; [|done].
    apply existsb_names_host in E as (l & Hl & Hm).
    apply list_elem_of_filter in Hl as [Hk _]. by rewrite Hk in Hm. }
  cbn [negb]. eexists. split; [exact Hrun1|]. split; [reflexivity|done].
Qed.

End InventoryTwice.

Lemma add_host_emptied_name_rejected_witness :
  ∃ w', ansible_add_host sample_root "; |" "10.0.0.2" "core" "" sample_site
        = (Ok ("ERROR: Host '' already exists in inventory." : str), w')
      ∧ fs w' = fs sample_site.
Proof.
  apply (add_host_emptied_name_rejected sample_root "; |" "10.0.0.2" "core" ""
           sample_site ("[core]" ++ nl ++ "sw1 ansible_host=10.0.0.1" ++ nl)).
  - discriminate.
  - discriminate.
  - vm_compute. reflexivity.
  - vm_compute. reflexivity.
Defined.

Lemma add_host_twice_rejected_witness :
  ∃ w1 w2,
    ansible_add_host sample_root "sw2" "10.0.0.2" "core" "" sample_site
    = (Ok ("SUCCESS: Added host 'sw2' (10.0.0.2) to group 'core'" : str), w1)
    ∧ ansible_add_host sample_root "sw2" "10.0.0.3" "edge" "" w1
      = (Ok ("ERROR: Host 'sw2' already exists in inventory." : str), w2)
    ∧ fs w2 = fs w1.
Proof.
  apply (add_host_twice_rejected sample_root "sw2" "10.0.0.2" "core" ""
           "10.0.0.3" "edge" "" sample_site
           ("[core]" ++ nl ++ "sw1 ansible_host=10.0.0.1" ++ nl)).
  - discriminate.
  - discriminate.
  - discriminate.
  - vm_compute. intros H. repeat (apply elem_of_cons in H as [H|H]; [discriminate H|]).
    by apply elem_of_nil in H.
  - vm_compute. reflexivity.
  - vm_compute. reflexivity.
  - intros _. split; [vm_compute; discriminate | vm_compute; reflexivity].
  - vm_compute. reflexivity.
Defined.

Lemma remove_host_twice_not_found_witness :
  ∃ w1 w2,
    ansible_remove_host sample_root "sw1" "yes" sample_site
    = (Ok ("SUCCESS: Removed host 'sw1' from inventory." : str), w1)
    ∧ ansible_remove_host sample_root "sw1" "yes" w1
      = (Ok ("ERROR: Host 'sw1' not found in inventory." : str), w2)
    ∧ fs w2 = fs w1.
Proof.
  apply (remove_host_twice_not_found sample_root "sw1" "yes" "yes" sample_site
           ("[core]" ++ nl ++ "sw1 ansible_host=10.0.0.1" ++ nl)).
  - discriminate.
  - vm_compute. reflexivity.
  - vm_compute. reflexivity.
  - vm_compute. reflexivity.
  - exists ("sw1 ansible_host=10.0.0.1" ++ nl).
    split; [vm_compute; right; left | vm_compute; reflexivity].
  - split; [vm_compute; discriminate | vm_compute; reflexivity].
  - vm_compute. reflexivity.
Defined.

(** ** Playbooks *)

Section Playbooks.
Variable root : str.
Variable engine : run_args → gmap str node → proc_result * gmap str node.
Implicit Types (w : World) (name p content : str).

Lemma find_playbook_run name w :
  find_playbook root name w
  = (Ok (located root (fs w) name),
     mkWorld (fs w) (now w) (find_calls root (fs w) name ++ calls w)).
Proof.
  unfold find_playbook, located, find_calls.
  rewrite (bind_run _ _ _ _ _ (path_exists_run _ w)).
  destruct (bool_decide (is_Some (fs w !! Path.join (PLAYBOOKS_DIR root) name)));
    cbn [negb]; [by destruct w|].
  rewrite (bind_run _ _ _ _ _ (path_exists_run _ _)). cbn [fs log_call].
  destruct (bool_decide (is_Some (fs w !! Path.join root name))); by destruct w.
Qed.

Lemma located_cases f name p :
  located root f name = Some p →
  is_Some (f !! p)
  ∧ (p = Path.join (PLAYBOOKS_DIR root) name ∨ p = Path.join root name).
Proof.
  unfold located. case_bool_decide as H1; [intros [= <-]; auto|].
  case_bool_decide as H2; [intros [= <-]; auto | done].
Qed.

Lemma located_in_playbooks f name :
  is_Some (f !! Path.join (PLAYBOOKS_DIR root) name) →
  located root f name = Some (Path.join (PLAYBOOKS_DIR root) name).
Proof. intros H. unfold located. by rewrite bool_decide_eq_true_2. Qed.

(** The runner: one process, nothing else, and a string whatever
    happens. *)
Lemma run_ansible_command_run cmd timeout w :
  ∃ s, run_ansible_command root engine cmd timeout w
       = (Ok s, set_fs (engine (runner_args root cmd timeout) (fs w)).2
                  (log_call (SysRun (runner_args root cmd timeout)) w)).
Proof.
  unfold run_ansible_command. fold (runner_args root cmd timeout).
  destruct (engine (runner_args root cmd timeout) (fs w)) as [[rc out err|e] f'] eqn:E.
  - erewrite try_except_ok; [by eexists|].
    erewrite bind_run; [reflexivity|]. by apply subprocess_run_completed.
  - erewrite try_except_raise;
      [|erewrite bind_raise; [reflexivity|]; by apply subprocess_run_failed].
    destruct (exn_cls e); by eexists.
Qed.

(** X15.  A playbook named without a slash that lies neither under the
    playbooks directory nor under the root is not found:
    [ansible_run_playbook], [ansible_check_playbook],
    [ansible_edit_playbook] and [ansible_read_playbook] say so, having
    made the two existence tests and nothing else; no process is
    started and nothing is written.  (A name with a slash may reach a
    file elsewhere through ".." or as an absolute path; nothing is said
    of such names here.) *)
Theorem missing_playbook_runs_nothing
    name limit_hosts extra_vars tags verbose content w :
  let n := playbook_file_name name in
  let w' := mkWorld (fs w) (now w)
              ([ SysExists (Path.join root n);
                 SysExists (Path.join (PLAYBOOKS_DIR root) n) ] ++ calls w) in
  let answer : str := "ERROR: Playbook not found: " ++ n in
  name ≠ [] → "/"%char ∉ n →
  fs w !! Path.join (PLAYBOOKS_DIR root) n = None →
  fs w !! Path.join root n = None →
  ansible_run_playbook root engine name limit_hosts extra_vars tags verbose w
  = (Ok answer, w')
  ∧ ansible_check_playbook root engine name limit_hosts w = (Ok answer, w')
  ∧ (content ≠ [] →
     ansible_edit_playbook root engine name content w = (Ok answer, w'))
  ∧ ansible_read_playbook root name w = (Ok answer, w').
Proof.
  intros n w' answer Hn _ Hpb Hrt.
  assert (Hloc : located root (fs w) n = None).
  { unfold located. rewrite Hpb, Hrt.
    by rewrite !bool_decide_eq_false_2 by (by intros [? ?]). }
  assert (Hfind : find_playbook root n w = (Ok None, w')).
  { rewrite find_playbook_run, Hloc. unfold find_calls.
    unfold located in Hloc. by case_bool_decide. }
  destruct name as [|n0 ns]; [done|].
  repeat split.
  - unfold ansible_run_playbook. cbn [Py.falsy]. fold n.
    by rewrite (bind_run _ _ _ _ _ Hfind).
  - unfold ansible_check_playbook. cbn [Py.falsy]. fold n.
    by rewrite (bind_run _ _ _ _ _ Hfind).
  - intros Hc. unfold ansible_edit_playbook. destruct content; [done|].
    cbn [Py.falsy]. fold n. by rewrite (bind_run _ _ _ _ _ Hfind).
  - unfold ansible_read_playbook. cbn [Py.falsy]. fold n.
    by rewrite (bind_run _ _ _ _ _ Hfind).
Qed.

Lemma clean_sanitize_input value : clean (sanitize_input value).
Proof. intros c. apply sanitize_input_clean. Qed.

Lemma clean_literal (s : str) :
  forallb (λ c, negb (bool_decide (c ∈ dangerous_chars))) s = true → clean s.
Proof.
  intros H c Hc Hin. rewrite forallb_forall in H.
  specialize (H c (proj1 (list_elem_of_In _ _) Hin)).
  by rewrite bool_decide_eq_true_2 in H.
Qed.



End Playbooks.

Lemma missing_playbook_runs_nothing_witness :
  (ansible_run_playbook sample_root engine_ok "deploy" "" "" "" "no" sample_site).1
  = Ok ("ERROR: Playbook not found: deploy.yml" : str)
  ∧ fs (ansible_edit_playbook sample_root engine_ok "deploy" "- hosts: all"
          sample_site).2 = fs sample_site.
Proof.
  destruct (missing_playbook_runs_nothing sample_root engine_ok "deploy" "" "" "" "no"
              "- hosts: all" sample_site) as (Hrun & _ & Hedit & _).
  - discriminate.
  - vm_compute. intros H.
    repeat (apply elem_of_cons in H as [H|H]; [discriminate H|]).
    by apply elem_of_nil in H.
  - vm_compute. reflexivity.
  - vm_compute. reflexivity.
  - split; [by rewrite Hrun|]. rewrite Hedit; [reflexivity | discriminate].
Defined.


(** ** Creating, editing and deleting playbooks *)

Section PlaybookFiles.
Variable root : str.
Variable engine : run_args → gmap str node → proc_result * gmap str node.
Implicit Types (w : World) (name p content : str).

Lemma literal_no_slash (s : str) :
  forallb (λ c, negb (bool_decide (c = "/"%char))) s = true → "/"%char ∉ s.
Proof.
  intros H Hin. rewrite forallb_forall in H.
  specialize (H _ (proj1 (list_elem_of_In _ _) Hin)).
  by rewrite bool_decide_eq_true_2 in H.
Qed.

Lemma new_playbook_name_no_slash name : "/"%char ∉ new_playbook_name name.
Proof.
  unfold new_playbook_name. destruct (negb _); [|apply sanitize_filename_no_slash].
  rewrite not_elem_of_app. split; [apply sanitize_filename_no_slash|].
  by apply literal_no_slash.
Qed.

Lemma new_template_name_no_slash name : "/"%char ∉ new_template_name name.
Proof.
  unfold new_template_name. destruct (negb _); [|apply sanitize_filename_no_slash].
  rewrite not_elem_of_app. split; [apply sanitize_filename_no_slash|].
  by apply literal_no_slash.
Qed.

(** X17.  [ansible_create_playbook] never overwrites: when the playbook
    exists it answers that it does and touches nothing.  Otherwise it
    writes the description as a comment line, when there is one, and
    the content, directly under the playbooks directory whatever the
    name given, and then runs the syntax check: the file system
    afterwards is the one the check left, so a playbook with syntax
    errors stays where it was written. *)
Theorem create_playbook_never_overwrites name content description w :
  let n := new_playbook_name name in
  let p := Path.join (PLAYBOOKS_DIR root) n in
  let written := <[p := File (playbook_text description content)]> (fs w) in
  name ≠ [] → content ≠ [] →
  (p = PLAYBOOKS_DIR root ++ "/" ++ n ∧ "/"%char ∉ n)
  ∧ (is_Some (fs w !! p) →
     ansible_create_playbook root engine name content description w
     = (Ok ("ERROR: Playbook '" ++ n ++
            "' already exists. Use ansible_edit_playbook to modify."),
        log_call (SysExists p) w))
  ∧ (fs w !! p = None → fs w !! PLAYBOOKS_DIR root = Some Dir →
     ∃ msg w', ansible_create_playbook root engine name content description w
               = (Ok msg, w')
             ∧ fs w' = (engine (syntax_check_args root p) written).2
             ∧ calls w' = [ SysRun (syntax_check_args root p); SysWrite p;
                            SysMakedirs (PLAYBOOKS_DIR root); SysExists p ]
                          ++ calls w).
Proof.
  intros n p written Hn Hc.
  assert (Hp : p = PLAYBOOKS_DIR root ++ "/" ++ n ∧ "/"%char ∉ n).
  { split; [|apply new_playbook_name_no_slash].
    apply join_child; [apply playbooks_dir_last | apply new_playbook_name_no_slash]. }
  split; [exact Hp|].
  destruct name as [|n0 ns]; [done|]. destruct content as [|c0 cs]; [done|].
  unfold ansible_create_playbook. cbn [Py.falsy].
  fold (new_playbook_name (n0 :: ns)). fold n. fold p.
  rewrite (bind_run _ _ _ _ _ (path_exists_run p w)). split.
  - intros Hex. by rewrite bool_decide_eq_true_2.
  - intros Hnone Hdir. rewrite Hnone, bool_decide_eq_false_2 by (by intros [? ?]).
    destruct (playbooks_dir_last root) as (c & Hl & Hne).
    rewrite (bind_run _ _ _ _ _
               (makedirs_existing _ (log_call _ w) (last_nonempty _ _ Hl) Hdir)).
    fold (playbook_text description (c0 :: cs)). fold (syntax_check_args root p).
    assert (Hcreate : can_create (fs w) p).
    { destruct Hp as [Ep Hs]. split; [by rewrite Hnone|].
      apply parent_dir_ok. rewrite Ep, dirname_child; eauto. }
    destruct (engine (syntax_check_args root p) written) as [[rc out err|e] f'] eqn:Heng.
    + destruct (bool_decide (rc = 0%Z)) eqn:Hrc.
      all: erewrite try_except_ok;
        [|erewrite bind_run; [|apply write_text_run; exact Hcreate];
          erewrite bind_run;
            [|apply subprocess_run_completed; cbn [fs set_fs log_call]; exact Heng];
          cbn [returncode]; rewrite Hrc; reflexivity].
      all: eexists _, _; split; [reflexivity|done].
    + erewrite try_except_raise.
      2:{ erewrite bind_run; [|apply write_text_run; exact Hcreate].
          erewrite bind_raise; [reflexivity|].
          apply subprocess_run_failed. cbn [fs set_fs log_call]. exact Heng. }
      eexists _, _. split; [reflexivity|done].
Qed.

Lemma yaml_name_last (n : str) : is_yaml_name n = true → last n = Some "l"%char.
Proof.
  unfold is_yaml_name, Py.endswith. intros H.
  rewrite <- (reverse_involutive n), last_reverse.
  destruct (reverse n) as [|x r]; [done|]. lits in H. cbn in H.
  apply orb_true_iff in H as [H|H];
    apply andb_true_iff in H as [H%bool_decide_eq_true _]; by subst x.
Qed.

Lemma playbook_file_name_yaml name : is_yaml_name (playbook_file_name name) = true.
Proof.
  unfold playbook_file_name. destruct (is_yaml_name (sanitize_input name)) eqn:E;
    cbn [negb]; [done|].
  unfold is_yaml_name, Py.endswith. rewrite reverse_app. lits. cbn.
  apply orb_true_iff. left. reflexivity.
Qed.

Lemma join_last_name d n : n ≠ [] → last (Path.join d n) = last n.
Proof.
  intros Hn. destruct (last n) as [c|] eqn:E.
  - apply last_Some in E as [n' ->]. unfold Path.join.
    destruct (Py.startswith _ _); [by rewrite last_app|].
    destruct (_ || _); rewrite ?app_assoc; by rewrite last_app.
  - by apply last_None in E.
Qed.

Lemma backup_name_last p (t : datetime) : last (backup_name p t) = Some "k"%char.
Proof. unfold backup_name. rewrite !app_assoc. lits. by rewrite last_app. Qed.

(** X18.  [ansible_edit_playbook] keeps the old text in the backup and
    puts the new content in its place, and [ansible_read_playbook]
    then returns that content, with the line ends read as newlines.
    (The playbook is a regular file that can be backed up and
    rewritten; the syntax check leaves the file system alone.) *)
Theorem edit_playbook_backs_up_and_is_read_back name content w p c :
  let n := playbook_file_name name in
  let bk := backup_name p (now w) in
  let written := <[p := File content]> (<[bk := File c]> (fs w)) in
  name ≠ [] → content ≠ [] →
  located root (fs w) n = Some p → fs w !! p = Some (File c) →
  can_create (fs w) bk → OS.parent_ok (fs w) p = Ok tt →
  (engine (syntax_check_args root p) written).2 = written →
  ∃ msg w', ansible_edit_playbook root engine name content w = (Ok msg, w')
          ∧ fs w' !! bk = Some (File c)
          ∧ fs w' !! p = Some (File content)
          ∧ (ansible_read_playbook root name w').1
            = Ok ("=== PLAYBOOK: " ++ n ++ " ===" ++ nl ++ nl ++
                  OS.universal_newlines content).
Proof.
  intros n bk written Hn Hc Hloc Hfile Hbk Hpar Hkeep.
  assert (Hwp : written !! p = Some (File content))
    by (unfold written; by rewrite lookup_insert_eq).
  assert (Hwb : written !! bk = Some (File c)).
  { unfold written.
    rewrite lookup_insert_ne by (intros H; by apply (backup_name_fresh p (now w))).
    by rewrite lookup_insert_eq. }
  assert (Hread : ∀ w', fs w' = written →
            (ansible_read_playbook root name w').1
            = Ok ("=== PLAYBOOK: " ++ n ++ " ===" ++ nl ++ nl ++
                  OS.universal_newlines content)).
  { intros w' Hfs. unfold ansible_read_playbook. destruct name as [|n0 ns]; [done|].
    cbn [Py.falsy]. fold n.
    rewrite (bind_run _ _ _ _ _ (find_playbook_run root n w')).
    assert (located root (fs w') n = Some p) as ->.
    { rewrite Hfs.
      destruct (decide (Path.join (PLAYBOOKS_DIR root) n = p)) as [E|E].
      { rewrite <- E. apply located_in_playbooks. rewrite E, Hwp. eauto. }
      assert (Hp2 : p = Path.join root n)
        by (destruct (located_cases root _ _ _ Hloc) as [_ [?|?]]; congruence).
      assert (Hnone : fs w !! Path.join (PLAYBOOKS_DIR root) n = None).
      { destruct (fs w !! Path.join (PLAYBOOKS_DIR root) n) eqn:En; [|done].
        exfalso. apply E. unfold located in Hloc. rewrite En in Hloc.
        rewrite bool_decide_eq_true_2 in Hloc by eauto. congruence. }
      assert (Hnn : n ≠ []).
      { intros En. pose proof (playbook_file_name_yaml (n0 :: ns)) as Hy.
        fold n in Hy. by rewrite En in Hy. }
      assert (Hw : written !! Path.join (PLAYBOOKS_DIR root) n = None).
      { unfold written. rewrite lookup_insert_ne by done.
        rewrite lookup_insert_ne; [done|].
        intros E'. apply (f_equal last) in E'.
        unfold bk in E'. rewrite backup_name_last, join_last_name in E' by done.
        rewrite (yaml_name_last n) in E' by apply playbook_file_name_yaml. done. }
      unfold located. rewrite Hw.
      rewrite bool_decide_eq_false_2 by (by intros [? ?]).
      rewrite <- Hp2, Hwp. by rewrite bool_decide_eq_true_2 by eauto. }
    erewrite try_except_ok; [reflexivity|].
    erewrite bind_run; [reflexivity|]. apply read_text_run.
    cbn [fs]. by rewrite Hfs. }
  unfold ansible_edit_playbook. destruct name as [|n0 ns]; [done|].
  destruct content as [|c0 cs]; [done|]. cbn [Py.falsy]. fold n.
  rewrite (bind_run _ _ _ _ _ (find_playbook_run root n w)), Hloc.
  set (w1 := mkWorld _ _ _).
  rewrite (bind_run _ _ _ _ _ (backup_file_run p w1 c Hfile Hbk)).
  cbn [now w1]. fold bk. fold (syntax_check_args root p).
  assert (Hcreate : can_create (<[bk := File c]> (fs w)) p).
  { apply can_create_insert_file; [|apply Hbk]. split; [by rewrite Hfile|done]. }
  destruct (engine (syntax_check_args root p) written) as [[rc out err|e] f'] eqn:Heng;
    cbn [snd] in Hkeep; subst f'.
  - destruct (bool_decide (rc = 0%Z)) eqn:Hrc.
    all: erewrite try_except_ok;
      [|erewrite bind_run; [|apply write_text_run; exact Hcreate];
        erewrite bind_run;
          [|apply subprocess_run_completed; cbn [fs set_fs log_call]; exact Heng];
        cbn [returncode]; rewrite Hrc; reflexivity].
    all: eexists _, _; (split; [reflexivity|]); cbn [fs set_fs].
    all: split; [exact Hwb|]; split; [exact Hwp|]; by apply Hread.
  - erewrite try_except_raise.
    2:{ erewrite bind_run; [|apply write_text_run; exact Hcreate].
        erewrite bind_raise; [reflexivity|].
        apply subprocess_run_failed. cbn [fs set_fs log_call]. exact Heng. }
    eexists _, _. split; [reflexivity|]. cbn [fs set_fs ret snd].
    split; [exact Hwb|]. split; [exact Hwp|]. by apply Hread.
Qed.

(** X19.  [ansible_delete_playbook], confirmed, and given a name without
    a slash, copies the playbook it finds under the playbooks directory
    to its backup and then removes it: afterwards the playbook is gone
    and the backup holds its text.  For such a name it tests the
    playbooks directory only: a playbook that is not there is reported
    as not found after that one test, whatever lies under the root,
    where the other playbook tools would look next.  (A name with a
    slash may reach a file elsewhere through ".." or as an absolute
    path; nothing is said of such names here.) *)
Theorem delete_playbook_keeps_a_backup name confirm w :
  let n := playbook_file_name name in
  let p := Path.join (PLAYBOOKS_DIR root) n in
  let bk := backup_name p (now w) in
  name ≠ [] → "/"%char ∉ n → affirmative confirm = true →
  (∀ c, fs w !! p = Some (File c) → can_create (fs w) bk →
     ∃ w', ansible_delete_playbook root name confirm w
           = (Ok ("SUCCESS: Playbook '" ++ n ++ "' deleted (backup created)."), w')
         ∧ fs w' = delete p (<[bk := File c]> (fs w))
         ∧ fs w' !! p = None
         ∧ fs w' !! bk = Some (File c))
  ∧ (fs w !! p = None →
     ansible_delete_playbook root name confirm w
     = (Ok ("ERROR: Playbook not found: " ++ n), log_call (SysExists p) w)).
Proof.
  intros n p bk Hn _ Hconf. destruct name as [|n0 ns]; [done|].
  unfold ansible_delete_playbook. cbn [Py.falsy]. rewrite Hconf. cbn [negb].
  fold (playbook_file_name (n0 :: ns)). fold n. fold p.
  rewrite (bind_run _ _ _ _ _ (path_exists_run p w)). split.
  - intros c Hfile Hbk. rewrite Hfile, bool_decide_eq_true_2 by eauto. cbn [negb].
    erewrite try_except_ok.
    2:{ erewrite bind_run;
          [|apply (backup_file_run p (log_call (SysExists p) w) c Hfile Hbk)].
        erewrite bind_run; [reflexivity|].
        unfold OS.remove, bind, sys, modify_world, get_world, ret.
        cbn [fst snd fs set_fs log_call now]. fold bk.
        rewrite lookup_insert_ne
          by (intros H; by apply (backup_name_fresh p (now w))).
        rewrite Hfile. reflexivity. }
    eexists. split; [reflexivity|]. cbn [fs set_fs log_call now]. fold bk.
    split; [done|]. split; [apply lookup_delete_eq|].
    rewrite lookup_delete_ne
      by (intros H; by apply (backup_name_fresh p (now w))).
    by rewrite lookup_insert_eq.
  - intros Hnone. by rewrite Hnone, bool_decide_eq_false_2 by (by intros [? ?]).
Qed.

End PlaybookFiles.

Section AbsoluteNames.
Variable root : str.

(** X20.  The playbook tools sanitize the name as an argument, not as a
    file name, so slashes stay: a name that begins with a slash is
    taken as an absolute path.  [ansible_read_playbook] returns the
    text of the file at that path, wherever it lies. *)
Theorem read_playbook_takes_absolute_names (name : str) (w : World) (c : str) :
  let n := playbook_file_name name in
  name ≠ [] → Py.startswith n "/" = true → fs w !! n = Some (File c) →
  (ansible_read_playbook root name w).1
  = Ok ("=== PLAYBOOK: " ++ n ++ " ===" ++ nl ++ nl ++ OS.universal_newlines c).
Proof.
  intros n Hn Habs Hfile. unfold ansible_read_playbook.
  destruct name as [|n0 ns]; [done|]. cbn [Py.falsy]. fold n.
  rewrite (bind_run _ _ _ _ _ (find_playbook_run root n w)).
  assert (Hj : Path.join (PLAYBOOKS_DIR root) n = n) by (unfold Path.join; by rewrite Habs).
  unfold located. rewrite Hj, Hfile, bool_decide_eq_true_2 by eauto.
  erewrite try_except_ok; [reflexivity|].
  erewrite bind_run; [reflexivity|]. by apply read_text_run.
Qed.

End AbsoluteNames.

Lemma create_playbook_never_overwrites_witness :
  ansible_create_playbook sample_root engine_ok "site" "- hosts: all" "" sample_site
  = (Ok ("ERROR: Playbook 'site.yml' already exists. Use ansible_edit_playbook to modify." : str),
     log_call (SysExists "/root/ansible/playbooks/site.yml") sample_site)
  ∧ ∃ msg w', ansible_create_playbook sample_root engine_rejects "../deploy" "- hosts: all"
                "Deploy" sample_site = (Ok msg, w')
            ∧ fs w' !! ("/root/ansible/playbooks/deploy.yml" : str)
              = Some (File ("# Deploy" ++ nl ++ "- hosts: all")).
Proof.
  split.
  - destruct (create_playbook_never_overwrites sample_root engine_ok "site"
                "- hosts: all" "" sample_site) as (_ & Hex & _);
      [discriminate | discriminate |].
    apply Hex. vm_compute. eauto.
  - destruct (create_playbook_never_overwrites sample_root engine_rejects "../deploy"
                "- hosts: all" "Deploy" sample_site) as (_ & _ & Hnew);
      [discriminate | discriminate |].
    destruct Hnew as (msg & w' & Hrun & Hfs & _).
    + vm_compute. reflexivity.
    + vm_compute. reflexivity.
    + exists msg, w'. split; [exact Hrun|]. rewrite Hfs. vm_compute. reflexivity.
Defined.

Lemma edit_playbook_backs_up_and_is_read_back_witness :
  ∃ msg w', ansible_edit_playbook sample_root engine_rejects "site" "- hosts: core"
              sample_site = (Ok msg, w')
          ∧ fs w' !! ("/root/ansible/playbooks/site.yml.20261103_090500.bak" : str)
            = Some (File ("# Site" ++ nl ++ "- hosts: all"))
          ∧ (ansible_read_playbook sample_root "site" w').1
            = Ok ("=== PLAYBOOK: site.yml ===" ++ nl ++ nl ++ "- hosts: core").
Proof.
  destruct (edit_playbook_backs_up_and_is_read_back sample_root engine_rejects "site"
              "- hosts: core" sample_site "/root/ansible/playbooks/site.yml"
              ("# Site" ++ nl ++ "- hosts: all"))
    as (msg & w' & Hrun & Hbk & _ & Hread).
  - discriminate.
  - discriminate.
  - vm_compute. reflexivity.
  - vm_compute. reflexivity.
  - split; [vm_compute; discriminate | vm_compute; reflexivity].
  - vm_compute. reflexivity.
  - reflexivity.
  - exists msg, w'. split; [exact Hrun|]. split; [exact Hbk | exact Hread].
Defined.

Lemma delete_playbook_keeps_a_backup_witness :
  ∃ w', ansible_delete_playbook sample_root "site" "yes" sample_site
        = (Ok ("SUCCESS: Playbook 'site.yml' deleted (backup created)." : str), w')
      ∧ fs w' !! ("/root/ansible/playbooks/site.yml" : str) = None
      ∧ fs w' !! ("/root/ansible/playbooks/site.yml.20261103_090500.bak" : str)
        = Some (File ("# Site" ++ nl ++ "- hosts: all")).
Proof.
  destruct (delete_playbook_keeps_a_backup sample_root "site" "yes" sample_site)
    as (Hdel & _).
  - discriminate.
  - vm_compute. intros H.
    repeat (apply elem_of_cons in H as [H|H]; [discriminate H|]).
    by apply elem_of_nil in H.
  - vm_compute. reflexivity.
  - destruct (Hdel ("# Site" ++ nl ++ "- hosts: all")) as (w' & Hrun & _ & Hgone & Hbk).
    + vm_compute. reflexivity.
    + split; [vm_compute; discriminate | vm_compute; reflexivity].
    + exists w'. split; [exact Hrun|]. split; [exact Hgone | exact Hbk].
Defined.

Lemma read_playbook_takes_absolute_names_witness :
  (ansible_read_playbook sample_root "/etc/site"
     (mkWorld (<[("/etc/site.yml" : str) := File "- hosts: all"]> (fs sample_site))
        (now sample_site) [])).1
  = Ok ("=== PLAYBOOK: /etc/site.yml ===" ++ nl ++ nl ++ "- hosts: all").
Proof.
  apply (read_playbook_takes_absolute_names sample_root "/etc/site"
           (mkWorld (<[("/etc/site.yml" : str) := File "- hosts: all"]> (fs sample_site))
              (now sample_site) []) "- hosts: all").
  - discriminate.
  - vm_compute. reflexivity.
  - vm_compute. reflexivity.
Defined.

(** ** The list of playbooks *)

Section Listing.
Variable root : str.
Implicit Types (w : World) (f : gmap str node) (p x : str).

Lemma elem_of_children f p x :
  x ∈ OS.children f p
  ↔ ∃ k, is_Some (f !! k) ∧ Path.dirname k = p ∧ k ≠ p ∧ Path.basename k = x.
Proof.
  unfold OS.children. rewrite list_elem_of_omap. split.
  - intros ([k v] & Hkv%elem_of_map_to_list & Hx). cbn [fst] in Hx.
    case_bool_decide as Hk; [|done]. injection Hx as <-.
    exists k. destruct Hk. eauto.
  - intros (k & [v Hv] & Hd & Hne & <-). exists (k, v).
    split; [by apply elem_of_map_to_list|]. cbn [fst].
    by rewrite bool_decide_eq_true_2.
Qed.

(** X21.  [get_available_playbooks] lists the names directly under the
    playbooks directory that end in [.yml] or [.yaml], and the marker
    "playbook.yml (root)" when the root holds a playbook.yml; it
    changes nothing.  A regular file in the place of the playbooks
    directory makes it raise [NotADirectoryError]. *)
Theorem available_playbooks_are_the_yaml_files w :
  ((∀ c, fs w !! PLAYBOOKS_DIR root ≠ Some (File c)) →
   ∃ names w', get_available_playbooks root w = (Ok names, w')
     ∧ fs w' = fs w
     ∧ ∀ n, n ∈ names ↔
         (fs w !! PLAYBOOKS_DIR root = Some Dir ∧ is_yaml_name n = true
          ∧ ∃ k, is_Some (fs w !! k) ∧ Path.dirname k = PLAYBOOKS_DIR root
                 ∧ k ≠ PLAYBOOKS_DIR root ∧ Path.basename k = n)
         ∨ (n = "playbook.yml (root)"
            ∧ is_Some (fs w !! Path.join root "playbook.yml")))
  ∧ (∀ c, fs w !! PLAYBOOKS_DIR root = Some (File c) →
     ∃ e, (get_available_playbooks root w).1 = Raise e
          ∧ exn_cls e = NotADirectoryError).
Proof.
  split.
  - intros Hnf. unfold get_available_playbooks.
    rewrite (bind_run _ _ _ _ _ (path_exists_run _ w)).
    set (w1 := log_call _ w). set (rp := Path.join root "playbook.yml").
    assert (Hlist : ∃ w2,
      (if bool_decide (is_Some (fs w !! PLAYBOOKS_DIR root))
       then let* names := OS.listdir (PLAYBOOKS_DIR root) in
            ret (filter (λ y, Is_true (is_yaml_name y)) names)
       else ret []) w1
      = (Ok (match fs w !! PLAYBOOKS_DIR root with
             | Some Dir => filter (λ y, Is_true (is_yaml_name y))
                             (OS.children (fs w) (PLAYBOOKS_DIR root))
             | _ => []
             end), w2) ∧ fs w2 = fs w).
    { destruct (fs w !! PLAYBOOKS_DIR root) as [[c|]|] eqn:E.
      - by destruct (Hnf c).
      - rewrite bool_decide_eq_true_2 by eauto.
        unfold bind, OS.listdir, bind, sys, modify_world, get_world, ret.
        cbn [fst snd fs log_call w1]. rewrite E. by eexists.
      - rewrite bool_decide_eq_false_2 by (by intros [? ?]). by eexists. }
    destruct Hlist as (w2 & Hlist & Hfs2). rewrite (bind_run _ _ _ _ _ Hlist).
    rewrite (bind_run _ _ _ _ _ (path_exists_run rp w2)). rewrite Hfs2.
    eexists _, _. split; [reflexivity|]. split; [done|]. intros n.
    assert (Hdir : n ∈ match fs w !! PLAYBOOKS_DIR root with
                       | Some Dir => filter (λ y, Is_true (is_yaml_name y))
                                       (OS.children (fs w) (PLAYBOOKS_DIR root))
                       | _ => []
                       end
                   ↔ fs w !! PLAYBOOKS_DIR root = Some Dir ∧ is_yaml_name n = true
                     ∧ ∃ k, is_Some (fs w !! k) ∧ Path.dirname k = PLAYBOOKS_DIR root
                            ∧ k ≠ PLAYBOOKS_DIR root ∧ Path.basename k = n).
    { destruct (fs w !! PLAYBOOKS_DIR root) as [[c|]|].
      - split; [by intros ?%elem_of_nil | by intros [? _]].
      - rewrite list_elem_of_filter, elem_of_children, Is_true_true.
        split; [intros [? ?]; auto | intros (_ & ? & ?); auto].
      - split; [by intros ?%elem_of_nil | by intros [? _]]. }
    clear Hlist. destruct (bool_decide (is_Some (fs w !! rp))) eqn:Hrp.
    + apply bool_decide_eq_true in Hrp.
      rewrite elem_of_app, Hdir, list_elem_of_singleton.
      split; (intros [H|H]; [by left | right]); [done | by destruct H].
    + apply bool_decide_eq_false in Hrp. rewrite Hdir.
      split; [intros H; by left | intros [H|[_ H]]; [done | by destruct Hrp]].
  - intros c Hc. unfold get_available_playbooks.
    rewrite (bind_run _ _ _ _ _ (path_exists_run _ w)).
    rewrite Hc, bool_decide_eq_true_2 by eauto.
    unfold bind, OS.listdir, bind, sys, modify_world, get_world, ret, raise.
    cbn [fst snd fs log_call]. rewrite Hc. eexists. by split.
Qed.

End Listing.

(** ** Templates *)

Section Templates.
Variable root : str.
Implicit Types (w : World) (name content : str).

(** X22.  [ansible_create_template] never overwrites: when the template
    exists it answers that it does and leaves the file system as it
    found it; otherwise it writes the content, and nothing else,
    directly under the templates directory whatever the name given. *)
Theorem create_template_never_overwrites name content w :
  let n := new_template_name name in
  let p := Path.join (TEMPLATES_DIR root) n in
  name ≠ [] → content ≠ [] → fs w !! TEMPLATES_DIR root = Some Dir →
  (p = TEMPLATES_DIR root ++ "/" ++ n ∧ "/"%char ∉ n)
  ∧ (is_Some (fs w !! p) →
     ∃ w', ansible_create_template root name content w
           = (Ok ("ERROR: Template '" ++ n ++ "' already exists."), w')
         ∧ fs w' = fs w)
  ∧ (fs w !! p = None →
     ∃ w', ansible_create_template root name content w
           = (Ok ("SUCCESS: Template '" ++ n ++ "' created."), w')
         ∧ fs w' = <[p := File content]> (fs w)).
Proof.
  intros n p Hn Hc Hdir.
  assert (Hp : p = TEMPLATES_DIR root ++ "/" ++ n ∧ "/"%char ∉ n).
  { split; [|apply new_template_name_no_slash].
    apply join_child; [apply templates_dir_last | apply new_template_name_no_slash]. }
  split; [exact Hp|].
  destruct name as [|n0 ns]; [done|]. destruct content as [|c0 cs]; [done|].
  unfold ansible_create_template. cbn [Py.falsy].
  fold (new_template_name (n0 :: ns)). fold n. fold p.
  destruct (templates_dir_last root) as (c & Hl & Hne).
  rewrite (bind_run _ _ _ _ _ (makedirs_existing _ w (last_nonempty _ _ Hl) Hdir)).
  rewrite (bind_run _ _ _ _ _ (path_exists_run p _)). cbn [fs log_call]. split.
  - intros Hex. rewrite bool_decide_eq_true_2 by done. by eexists.
  - intros Hnone. rewrite Hnone, bool_decide_eq_false_2 by (by intros [? ?]).
    erewrite bind_run.
    2:{ apply write_text_run. cbn [fs log_call]. destruct Hp as [Ep Hs].
        split; [by rewrite Hnone|]. apply parent_dir_ok.
        rewrite Ep, dirname_child; eauto. }
    by eexists.
Qed.

End Templates.

Lemma available_playbooks_are_the_yaml_files_witness :
  ∃ names w', get_available_playbooks sample_root sample_site = (Ok names, w')
            ∧ ("site.yml" : str) ∈ names.
Proof.
  destruct (available_playbooks_are_the_yaml_files sample_root sample_site)
    as (Hlist & _).
  destruct Hlist as (names & w' & Hrun & _ & Hin).
  - intros c. vm_compute. discriminate.
  - exists names, w'. split; [exact Hrun|]. apply Hin. left.
    split; [vm_compute; reflexivity|]. split; [vm_compute; reflexivity|].
    exists ("/root/ansible/playbooks/site.yml" : str).
    split; [vm_compute; eauto|]. split; [vm_compute; reflexivity|].
    split; [vm_compute; discriminate | vm_compute; reflexivity].
Defined.

Lemma create_template_never_overwrites_witness :
  (∃ w', ansible_create_template sample_root "base" "hostname x" sample_site
         = (Ok ("ERROR: Template 'base.j2' already exists." : str), w')
       ∧ fs w' = fs sample_site)
  ∧ ∃ w', ansible_create_template sample_root "../../etc/motd" "hello" sample_site
          = (Ok ("SUCCESS: Template 'etc_motd.j2' created." : str), w')
        ∧ fs w' = <[("/root/ansible/templates/etc_motd.j2" : str) := File "hello"]>
                    (fs sample_site).
Proof.
  split.
  - destruct (create_template_never_overwrites sample_root "base" "hostname x"
                sample_site) as (_ & Hex & _);
      [discriminate | discriminate | vm_compute; reflexivity |].
    apply Hex. vm_compute. eauto.
  - destruct (create_template_never_overwrites sample_root "../../etc/motd" "hello"
                sample_site) as (_ & _ & Hnew);
      [discriminate | discriminate | vm_compute; reflexivity |].
    apply Hnew. vm_compute. reflexivity.
Defined.

(** ** Device tools *)

Section DeviceTools.
Variable root : str.
Variable engine : run_args → gmap str node → proc_result * gmap str node.
Implicit Types (w : World).

Lemma only_calls_ret {A} P (a : A) : only_calls P (ret a).
Proof. intros w. apply added_calls_refl. Qed.

Lemma only_calls_bind {A B} P (m : M A) (k : A → M B) :
  only_calls P m → (∀ a, only_calls P (k a)) → only_calls P (bind m k).
Proof.
  intros Hm Hk w. unfold bind. specialize (Hm w).
  destruct (m w) as [[a|e] w1]; [|done].
  eapply added_calls_trans; [exact Hm | apply Hk].
Qed.

Lemma only_calls_read_only {A} (P : syscall → bool) (m : M A) :
  (∀ c, negb (is_mutation c) = true → P c = true) → read_only m → only_calls P m.
Proof.
  intros HP Hm w. destruct (Hm w) as [_ (new & Hn & Hf)].
  exists new. split; [done|]. eapply Forall_impl; [exact Hf|]. intros c. apply HP.
Qed.

Lemma only_calls_run_ansible_command P cmd timeout :
  P (SysRun (runner_args root cmd timeout)) = true →
  only_calls P (run_ansible_command root engine cmd timeout).
Proof.
  intros HP w. destruct (run_ansible_command_run root engine cmd timeout w) as (s & ->).
  exists [SysRun (runner_args root cmd timeout)]. split; [done|]. by repeat constructor.
Qed.

Lemma only_calls_weaken {A} (P Q : syscall → bool) (m : M A) :
  (∀ c, P c = true → Q c = true) → only_calls P m → only_calls Q m.
Proof.
  intros HPQ Hm w. destruct (Hm w) as (new & Hn & Hf).
  exists new. split; [done|]. eapply Forall_impl; [exact Hf|]. exact HPQ.
Qed.

Lemma only_queries_path_exists p : only_calls is_query (OS.path_exists p).
Proof. intros w. exists [SysExists p]. split; [done|]. by repeat constructor. Qed.

Lemma only_queries_listdir p : only_calls is_query (OS.listdir p).
Proof.
  intros w. unfold OS.listdir, bind, sys, modify_world, get_world. simpl.
  destruct (fs w !! p) as [[]|]; exists [SysListdir p];
    (split; [done|]); by repeat constructor.
Qed.

Lemma only_queries_no_playbook_specified :
  only_calls is_query (no_playbook_specified root).
Proof.
  unfold no_playbook_specified, get_available_playbooks.
  apply only_calls_bind.
  - apply only_calls_bind; [apply only_queries_path_exists|]. intros ex.
    apply only_calls_bind.
    + destruct ex; [|apply only_calls_ret].
      apply only_calls_bind; [apply only_queries_listdir|]. intros. apply only_calls_ret.
    + intros pbs. apply only_calls_bind; [apply only_queries_path_exists|].
      intros. apply only_calls_ret.
  - intros [|]; apply only_calls_ret.
Qed.

Lemma only_queries_find_playbook name : only_calls is_query (find_playbook root name).
Proof.
  unfold find_playbook. apply only_calls_bind; [apply only_queries_path_exists|].
  intros [|]; cbn [negb]; [apply only_calls_ret|].
  apply only_calls_bind; [apply only_queries_path_exists|].
  intros [|]; apply only_calls_ret.
Qed.

Lemma query_is_dry c : is_query c = true → query_or_dry_run c = true.
Proof. by destruct c. Qed.

(** X23.  A dry run stays dry: [ansible_check_playbook] writes nothing
    itself, and every process it starts is started with [--check],
    whatever the playbook and the host limit. *)
Theorem check_playbook_only_dry_runs (name limit_hosts : str) w :
  added_calls query_or_dry_run w
    (ansible_check_playbook root engine name limit_hosts w).2.
Proof.
  revert w. change (only_calls query_or_dry_run
                      (ansible_check_playbook root engine name limit_hosts)).
  unfold ansible_check_playbook. destruct (Py.falsy name).
  { eapply only_calls_weaken; [exact query_is_dry|].
    apply only_queries_no_playbook_specified. }
  apply only_calls_bind.
  { eapply only_calls_weaken; [exact query_is_dry|]. apply only_queries_find_playbook. }
  intros [p|]; [|apply only_calls_ret].
  apply only_calls_bind; [|intros; apply only_calls_ret].
  apply only_calls_run_ansible_command. cbn [query_or_dry_run runner_args run_cmd].
  apply bool_decide_eq_true_2.
  destruct (negb _); [apply elem_of_app; left|]; do 4 right; left.
Qed.

(** *** The JSON argument *)

Lemma json_escape_printable c : forallb printable (json_escape c) = true.
Proof. destruct c as [[] [] [] [] [] [] [] []]; reflexivity. Qed.

Lemma json_string_printable (s : str) : Forall (λ c, printable c = true) (json_string s).
Proof.
  unfold json_string. apply Forall_app_2; [by repeat constructor|].
  apply Forall_app_2; [|by repeat constructor].
  induction s as [|c s IH]; [constructor|]. cbn [flat_map].
  apply Forall_app_2; [|exact IH].
  apply Forall_forall. intros x Hx. pose proof (json_escape_printable c) as H.
  rewrite forallb_forall in H. apply H. by apply list_elem_of_In.
Qed.

Lemma join_printable (sep : str) (parts : list str) :
  Forall (λ c, printable c = true) sep →
  Forall (Forall (λ c, printable c = true)) parts →
  Forall (λ c, printable c = true) (Py.join sep parts).
Proof.
  intros Hsep. induction 1 as [|p ps Hp Hps IH]; [constructor|].
  destruct ps as [|q ps]; [exact Hp|].
  change (Py.join sep (p :: q :: ps)) with (p ++ sep ++ Py.join sep (q :: ps)).
  by repeat apply Forall_app_2.
Qed.

Lemma printable_literal (s : str) :
  forallb printable s = true → Forall (λ c, printable c = true) s.
Proof.
  intros H. apply Forall_forall. intros x Hx. rewrite forallb_forall in H.
  apply H. by apply list_elem_of_In.
Qed.

Lemma json_dumps_printable (l : list str) :
  Forall (λ c, printable c = true) (json_dumps l).
Proof.
  unfold json_dumps. apply Forall_app_2; [by apply printable_literal|].
  apply Forall_app_2; [|by apply printable_literal].
  apply join_printable; [by apply printable_literal|].
  apply Forall_forall. intros x (s & -> & _)%list_elem_of_fmap.
  apply json_string_printable.
Qed.

Lemma or_default_nonempty (v d : str) : d ≠ [] → or_default v d ≠ [].
Proof. intros Hd. unfold or_default. by destruct v. Qed.

Lemma clean_or_default (v d : str) :
  clean d → clean (or_default (sanitize_input v) d).
Proof.
  intros Hd. unfold or_default. destruct (Py.falsy _); [done|].
  apply clean_sanitize_input.
Qed.

(** X24.  [ansible_run_command] starts one process, with a timeout of 180
    seconds: the junos_command module on the sanitized target ("all"
    when nothing is left of it), with the commands, split at the commas
    and trimmed, as a JSON list.  Whatever the commands hold, that
    argument is one line of printable ASCII. *)
Theorem run_command_sends_printable_json (target_hosts commands : str) w :
  let t := or_default (sanitize_input target_hosts) "all" in
  let arg := "commands=" ++ json_dumps (map Py.strip (Py.split "," commands)) in
  commands ≠ [] →
  ∃ s w', ansible_run_command root engine target_hosts commands w = (Ok s, w')
        ∧ calls w' = SysRun (runner_args root
                               (device_cmd root t "junipernetworks.junos.junos_command"
                                  [ "-a" : str ; arg ]) 180) :: calls w
        ∧ Forall (λ c, printable c = true) arg
        ∧ clean t ∧ t ≠ [].
Proof.
  intros t arg Hc. destruct commands as [|c0 cs]; [done|].
  unfold ansible_run_command. cbn [Py.falsy]. fold t. fold arg.
  destruct (run_ansible_command_run root engine
              (device_cmd root t "junipernetworks.junos.junos_command" [ "-a" : str ; arg ])
              180 w) as (s & Hs).
  exists s. eexists. split; [exact Hs|]. split; [reflexivity|].
  split; [|split].
  - unfold arg. apply Forall_app_2; [by apply printable_literal|].
    apply json_dumps_printable.
  - by apply clean_or_default, clean_literal.
  - by apply or_default_nonempty.
Qed.

(** X25.  [ansible_get_config] and [ansible_push_config] check the format
    before they run anything: a format outside the accepted ones is
    answered with the error and the world is left as it was, no process
    started.  So are a missing target and a missing configuration by
    [ansible_push_config]. *)
Theorem unknown_format_runs_nothing
    (target_hosts config_format config_lines commit check_mode : str) w :
  (or_default (sanitize_input config_format) "text"
     ∉ [ "text" : str ; "set" : str ; "json" : str ; "xml" : str ] →
   ansible_get_config root engine target_hosts config_format w
   = (Ok ("ERROR: Invalid format. Use: text, set, json, xml" : str), w))
  ∧ (or_default (sanitize_input config_format) "set"
       ∉ [ "set" : str ; "text" : str ; "json" : str ] →
     ∃ msg, ansible_push_config root engine target_hosts config_lines config_format
              commit check_mode w = (Ok msg, w)
            ∧ Py.startswith msg "ERROR: " = true)
  ∧ (target_hosts = [] ∨ config_lines = [] →
     ∃ msg, ansible_push_config root engine target_hosts config_lines config_format
              commit check_mode w = (Ok msg, w)
            ∧ Py.startswith msg "ERROR: " = true).
Proof.
  split; [|split].
  - intros Hf. unfold ansible_get_config, Py.str_in.
    by rewrite bool_decide_eq_false_2.
  - intros Hf. unfold ansible_push_config, Py.str_in.
    destruct (Py.falsy target_hosts); [by eexists|].
    destruct (Py.falsy config_lines); [by eexists|].
    rewrite bool_decide_eq_false_2 by done. by eexists.
  - intros [-> | ->]; unfold ansible_push_config; cbn [Py.falsy]; [by eexists|].
    destruct (Py.falsy target_hosts); by eexists.
Qed.

Lemma strip_idem (s : str) : Py.strip (Py.strip s) = Py.strip s.
Proof. apply strip_chars_idem. Qed.

(** X26.  [ansible_push_config], given a target, a configuration and an
    accepted format, starts one process with a timeout of 180 seconds:
    the junos_config module with the configuration lines as a JSON
    list.  The lines sent are the lines of the configuration trimmed,
    the blank ones left out; the commit flag is yes or no; and in check
    mode [--check] is added and the answer is headed as a dry run. *)
Theorem push_config_sends_trimmed_lines
    (target_hosts config_lines config_format commit check_mode : str) w :
  let sent :=
    map Py.strip
      (filter (λ line, Is_true (negb (Py.falsy (Py.strip line))))
         (Py.split LF config_lines)) in
  let arg := "lines=" ++ json_dumps sent ++ " update=merge commit=" ++
             (if affirmative commit then "yes" else "no") in
  target_hosts ≠ [] → config_lines ≠ [] →
  or_default (sanitize_input config_format) "set"
    ∈ [ "set" : str ; "text" : str ; "json" : str ] →
  ∃ s w', ansible_push_config root engine target_hosts config_lines config_format
            commit check_mode w = (Ok s, w')
        ∧ calls w' = SysRun (runner_args root
                               (device_cmd root (sanitize_input target_hosts)
                                  "junipernetworks.junos.junos_config"
                                  ([ "-a" : str ; arg ] ++
                                   (if affirmative check_mode
                                    then [ "--check" : str ] else [])))
                               180) :: calls w
        ∧ Forall (λ l, l ≠ [] ∧ Py.strip l = l) sent
        ∧ Forall (λ c, printable c = true) arg
        ∧ (affirmative check_mode = true →
           Py.startswith s ("=== DRY RUN ===" ++ nl) = true).
Proof.
  intros sent arg Ht Hl Hf.
  destruct target_hosts as [|t0 ts]; [done|]. destruct config_lines as [|l0 ls]; [done|].
  unfold ansible_push_config, Py.str_in. cbn [Py.falsy].
  rewrite bool_decide_eq_true_2 by done. cbn [negb]. fold sent. fold arg.
  assert (Hsent : Forall (λ l, l ≠ [] ∧ Py.strip l = l) sent).
  { apply Forall_forall. intros x (l & -> & Hin)%list_elem_of_fmap.
    apply list_elem_of_filter in Hin as [Hne _]. split; [|apply strip_idem].
    by destruct (Py.strip l). }
  assert (Harg : Forall (λ c, printable c = true) arg).
  { unfold arg. apply Forall_app_2; [by apply printable_literal|].
    apply Forall_app_2; [apply json_dumps_printable|].
    apply Forall_app_2; [by apply printable_literal|].
    destruct (affirmative commit); by apply printable_literal. }
  destruct (affirmative check_mode).
  - destruct (run_ansible_command_run root engine
                (device_cmd root (sanitize_input (t0 :: ts))
                   "junipernetworks.junos.junos_config" ([ "-a" : str ; arg ] ++ [ "--check" : str ]))
                180 w) as (s & Hs).
    eexists _, _. split; [erewrite bind_run; [reflexivity | exact Hs]|].
    split; [reflexivity|]. split; [exact Hsent|]. split; [exact Harg|]. intros _.
    rewrite app_assoc. apply startswith_app.
  - destruct (run_ansible_command_run root engine
                (device_cmd root (sanitize_input (t0 :: ts))
                   "junipernetworks.junos.junos_config" ([ "-a" : str ; arg ] ++ []))
                180 w) as (s & Hs).
    eexists _, _. split; [exact Hs|].
    split; [reflexivity|]. split; [exact Hsent|]. split; [exact Harg|]. done.
Qed.

(** X27.  The device tools never raise: whatever the process does,
    [ansible_adhoc_command], [ansible_get_facts], [ansible_get_config],
    [ansible_run_command] and [ansible_push_config] return a string. *)
Theorem device_tools_never_raise (a b c d e : str) w :
  (∃ s, (ansible_adhoc_command root engine a b c w).1 = Ok s)
  ∧ (∃ s, (ansible_get_facts root engine a b w).1 = Ok s)
  ∧ (∃ s, (ansible_get_config root engine a b w).1 = Ok s)
  ∧ (∃ s, (ansible_run_command root engine a b w).1 = Ok s)
  ∧ (∃ s, (ansible_push_config root engine a b c d e w).1 = Ok s).
Proof.
  assert (Hrun : ∀ cmd timeout w, ∃ s,
            (run_ansible_command root engine cmd timeout w).1 = Ok s).
  { intros cmd timeout w0.
    destruct (run_ansible_command_run root engine cmd timeout w0) as (s & ->). eauto. }
  repeat split.
  - unfold ansible_adhoc_command. destruct (Py.falsy a); [by eexists | apply Hrun].
  - unfold ansible_get_facts. apply Hrun.
  - unfold ansible_get_config. destruct (negb _); [by eexists | apply Hrun].
  - unfold ansible_run_command. destruct (Py.falsy b); [by eexists | apply Hrun].
  - unfold ansible_push_config. destruct (Py.falsy a); [by eexists|].
    destruct (Py.falsy b); [by eexists|]. destruct (negb _); [by eexists|].
    destruct (affirmative e); [|apply Hrun].
    unfold bind.
    match goal with
    | |- context [run_ansible_command root engine ?cmd ?t w] =>
        destruct (run_ansible_command_run root engine cmd t w) as (s & ->)
    end.
    by eexists.
Qed.

End DeviceTools.

Lemma run_command_sends_printable_json_witness :
  ∃ s w', ansible_run_command sample_root engine_ok "core"
            "show version, show interfaces" sample_site = (Ok s, w')
        ∧ Forall (λ c, printable c = true)
            ("commands=" ++
             json_dumps (map Py.strip (Py.split "," "show version, show interfaces"))).
Proof.
  destruct (run_command_sends_printable_json sample_root engine_ok "core"
              "show version, show interfaces" sample_site)
    as (s & w' & Hrun & _ & Hp & _); [discriminate|].
  exists s, w'. split; [exact Hrun | exact Hp].
Defined.

Lemma unknown_format_runs_nothing_witness :
  ansible_get_config sample_root engine_ok "core" "yaml" sample_site
  = (Ok ("ERROR: Invalid format. Use: text, set, json, xml" : str), sample_site)
  ∧ ∃ msg, ansible_push_config sample_root engine_ok "" "set system host-name sw1"
             "set" "yes" "no" sample_site = (Ok msg, sample_site)
           ∧ Py.startswith msg "ERROR: " = true.
Proof.
  destruct (unknown_format_runs_nothing sample_root engine_ok "core" "yaml" "" "yes" "no"
              sample_site) as (Hget & _ & _).
  destruct (unknown_format_runs_nothing sample_root engine_ok ""  "set"
              "set system host-name sw1" "yes" "no" sample_site) as (_ & _ & Hpush).
  split.
  - apply Hget. vm_compute. intros H.
    repeat (apply elem_of_cons in H as [H|H]; [discriminate H|]).
    by apply elem_of_nil in H.
  - apply Hpush. by left.
Defined.

Lemma push_config_sends_trimmed_lines_witness :
  ∃ s w', ansible_push_config sample_root engine_ok "core"
            ("  set system host-name sw1  " ++ nl ++ nl ++ "set system ntp") "set"
            "no" "yes" sample_site = (Ok s, w')
        ∧ Py.startswith s ("=== DRY RUN ===" ++ nl) = true.
Proof.
  destruct (push_config_sends_trimmed_lines sample_root engine_ok "core"
              ("  set system host-name sw1  " ++ nl ++ nl ++ "set system ntp") "set"
              "no" "yes" sample_site) as (s & w' & Hrun & _ & _ & _ & Hdry).
  - discriminate.
  - discriminate.
  - vm_compute. left.
  - exists s, w'. split; [exact Hrun|]. apply Hdry. vm_compute. reflexivity.
Defined.

(** ** Making the directories of a file *)

Section MakeDirs.
Implicit Types (f : gmap str node) (d p x : str) (ds : list str).

Lemma rstrip_chars_prefix (chars s : str) : Py.rstrip_chars chars s `prefix_of` s.
Proof.
  unfold Py.rstrip_chars. apply prefix_suffix_reverse.
  rewrite reverse_involutive. apply drop_while_suffix.
Qed.

Lemma dirname_prefix p : Path.dirname p `prefix_of` p.
Proof.
  unfold Path.dirname.
  set (head_ := reverse (Py.drop_while (λ c, bool_decide (c ≠ "/"%char)) (reverse p))).
  assert (Hh : head_ `prefix_of` p).
  { unfold head_. apply prefix_suffix_reverse.
    rewrite reverse_involutive. apply drop_while_suffix. }
  destruct (_ && _); [|done].
  etrans; [apply rstrip_chars_prefix | done].
Qed.

Lemma elem_of_prefixes {A} (l pre : list A) :
  pre ∈ OS.prefixes l → pre ≠ [] ∧ pre `prefix_of` l.
Proof.
  revert pre. induction l as [|a l IH]; intros pre; cbn [OS.prefixes].
  - by intros ?%elem_of_nil.
  - intros [->|H]%elem_of_cons.
    + split; [done|]. by exists l.
    + apply list_elem_of_fmap in H as (q & -> & Hq). split; [done|].
      apply prefix_cons. by apply IH.
Qed.

Lemma prefixes_whole {A} (l : list A) : l ≠ [] → l ∈ OS.prefixes l.
Proof.
  induction l as [|a l IH]; [done|]. intros _. cbn [OS.prefixes].
  destruct l as [|b l]; [by left|]. right.
  apply list_elem_of_fmap. exists (b :: l). split; [done|]. by apply IH.
Qed.

Lemma join_prefix_parts (sep : str) (pre rest : list str) :
  pre ≠ [] → Py.join sep pre `prefix_of` Py.join sep (pre ++ rest).
Proof.
  induction pre as [|a pre IH]; [done|]. intros _.
  destruct pre as [|b pre].
  - destruct rest as [|r rest]; [done|].
    change (Py.join sep ([a] ++ r :: rest)) with (a ++ sep ++ Py.join sep (r :: rest)).
    by eexists.
  - change (Py.join sep ((a :: b :: pre) ++ rest))
      with (a ++ sep ++ Py.join sep ((b :: pre) ++ rest)).
    change (Py.join sep (a :: b :: pre)) with (a ++ sep ++ Py.join sep (b :: pre)).
    do 2 apply prefix_app. by apply IH.
Qed.

(** The directories on the way to [d] are beginnings of [d], and [d] is
    the last of them. *)
Lemma dir_chain_prefix d x : x ∈ OS.dir_chain d → x `prefix_of` d.
Proof.
  unfold OS.dir_chain. intros [_ H]%list_elem_of_filter.
  apply list_elem_of_fmap in H as (pre & -> & [Hne [rest Hr]]%elem_of_prefixes).
  rewrite <- (join_split "/"%char d), Hr.
  by apply (join_prefix_parts ["/"%char]).
Qed.

Lemma dir_chain_self d : d ≠ [] → d ∈ OS.dir_chain d.
Proof.
  intros Hd. unfold OS.dir_chain. apply list_elem_of_filter. split; [done|].
  apply list_elem_of_fmap. exists (Py.split "/" d).
  split; [symmetry; apply (join_split "/"%char)|].
  apply prefixes_whole, split_nonempty.
Qed.

Lemma mkdir_chain_ok f ds :
  (∀ x c, x ∈ ds → f !! x ≠ Some (File c)) →
  ∃ f', OS.mkdir_chain f ds = Ok f'
        ∧ (∀ x, x ∈ ds → f' !! x = Some Dir)
        ∧ (∀ q, f !! q = Some Dir → f' !! q = Some Dir)
        ∧ (∀ q, q ∉ ds → f' !! q = f !! q).
Proof.
  revert f. induction ds as [|d ds IH]; intros f Hnf.
  - exists f. repeat split; try done. by intros x ?%elem_of_nil.
  - cbn [OS.mkdir_chain]. destruct (f !! d) as [[c|]|] eqn:E.
    + destruct (Hnf d c); [left | done].
    + destruct (IH f) as (f' & Hrun & Hall & Hkeep & Hframe).
      { intros x c Hx. apply Hnf. by right. }
      exists f'. split; [done|]. split; [|split; [done|]].
      * intros x [->|Hx]%elem_of_cons; [by apply Hkeep | by apply Hall].
      * intros q [_ Hq]%not_elem_of_cons. by apply Hframe.
    + destruct (IH (<[d := Dir]> f)) as (f' & Hrun & Hall & Hkeep & Hframe).
      { intros x c Hx. destruct (decide (x = d)) as [->|Hne].
        - by rewrite lookup_insert_eq.
        - rewrite lookup_insert_ne by done. apply Hnf. by right. }
      exists f'. split; [done|]. split; [|split].
      * intros x [->|Hx]%elem_of_cons; [|by apply Hall].
        apply Hkeep. by rewrite lookup_insert_eq.
      * intros q Hq. apply Hkeep. destruct (decide (q = d)) as [->|Hne].
        -- by rewrite lookup_insert_eq.
        -- by rewrite lookup_insert_ne.
      * intros q [Hne Hq]%not_elem_of_cons. rewrite Hframe by done.
        by rewrite lookup_insert_ne.
Qed.

(** [os.makedirs(d, exist_ok=True)] with no regular file in the way:
    afterwards [d] is a directory, and only paths on the way to [d] have
    changed. *)
Lemma makedirs_run d (w : World) :
  d ≠ [] →
  (∀ x c, x ∈ OS.dir_chain d → fs w !! x ≠ Some (File c)) →
  ∃ f', OS.makedirs d w = (Ok tt, set_fs f' (log_call (SysMakedirs d) w))
        ∧ f' !! d = Some Dir
        ∧ (∀ q, q ∉ OS.dir_chain d → f' !! q = fs w !! q).
Proof.
  intros Hd Hnf. unfold OS.makedirs, bind, sys, modify_world, get_world, ret.
  cbn [fst snd fs log_call]. destruct d as [|d0 ds]; [done|]. cbn [Py.falsy].
  destruct (fs w !! (d0 :: ds)) as [[c|]|] eqn:E.
  - destruct (Hnf (d0 :: ds) c); [by apply dir_chain_self | done].
  - exists (fs w). split; [by destruct w|]. by split.
  - destruct (mkdir_chain_ok (fs w) (OS.dir_chain (d0 :: ds)) Hnf)
      as (f' & Hrun & Hall & _ & Hframe).
    rewrite Hrun. exists f'. split; [done|]. split; [|done].
    by apply Hall, dir_chain_self.
Qed.

End MakeDirs.

Section WriteMakesDirs.
Variable root : str.

(** X28.  [ansible_write_file] makes the directories the file needs: for
    a new file under the root, with no regular file on the way to its
    directory, the write succeeds; afterwards the directory of the file
    is a directory and the file holds the content, and nothing has
    changed but the file and the directories on the way to it. *)
Theorem write_file_makes_the_directories
    (file_path content create_backup : str) (w : World) :
  let rel := Py.lstrip_chars "/" file_path in
  let full := resolved root file_path in
  let d := Path.dirname full in
  file_path ≠ [] → content ≠ [] → Py.startswith full root = true →
  d ≠ [] → d ≠ full →
  (∀ x c, x ∈ OS.dir_chain d → fs w !! x ≠ Some (File c)) →
  fs w !! full = None →
  ∃ w', ansible_write_file root file_path content create_backup w
        = (Ok ("SUCCESS: File written to " ++ rel), w')
      ∧ fs w' !! full = Some (File content)
      ∧ fs w' !! d = Some Dir
      ∧ (∀ q, q ≠ full → q ∉ OS.dir_chain d → fs w' !! q = fs w !! q).
Proof.
  intros rel full d.
  assert (Erel : rel = Py.lstrip_chars "/" file_path) by done.
  assert (Efull : full = resolved root file_path) by done.
  assert (Ed : d = Path.dirname full) by done.
  clearbody rel full d. intros Hp Hc Hin Hdn Hdf Hnf Hnone.
  destruct (makedirs_run d w Hdn Hnf) as (f' & Hmk & Hdir & Hframe).
  assert (Hout : full ∉ OS.dir_chain d).
  { intros Hx%dir_chain_prefix. apply Hdf. symmetry.
    apply prefix_length_eq; [done|]. apply prefix_length.
    rewrite Ed. apply dirname_prefix. }
  assert (Hnone' : f' !! full = None) by (by rewrite Hframe).
  unfold ansible_write_file. destruct file_path as [|a file_path]; [done|].
  destruct content as [|c0 cs]; [done|]. cbn [Py.falsy].
  fold (resolved root (a :: file_path)). rewrite <- Efull, <- Erel, Hin, <- Ed.
  cbn [negb]. rewrite (bind_run _ _ _ _ _ Hmk).
  set (w1 := set_fs f' _).
  assert (Hb : ∃ wb,
    (if affirmative create_backup then
       let* ex := OS.path_exists full in
       if ex then backup_file full else ret []
     else ret []) w1 = (Ok [], wb) ∧ fs wb = f').
  { destruct (affirmative create_backup); [|by exists w1].
    rewrite (bind_run _ _ _ _ _ (path_exists_run full w1)).
    cbn [fs w1 set_fs]. rewrite Hnone'.
    rewrite bool_decide_eq_false_2 by (by intros [? ?]). by eexists. }
  destruct Hb as (wb & Hb & Hfb). rewrite (bind_run _ _ _ _ _ Hb).
  erewrite try_except_ok.
  2:{ erewrite bind_run; [reflexivity|]. apply write_text_run. rewrite Hfb.
      split; [by rewrite Hnone'|]. apply parent_dir_ok. by rewrite <- Ed. }
  cbn [Py.falsy negb]. eexists. split; [reflexivity|].
  cbn [fs set_fs]. rewrite Hfb. split; [by rewrite lookup_insert_eq|].
  split.
  - rewrite lookup_insert_ne; [done|]. by intros <-.
  - intros q Hq Hqc. rewrite lookup_insert_ne by done. by apply Hframe.
Qed.

End WriteMakesDirs.

Lemma write_file_makes_the_directories_witness :
  ∃ w', ansible_write_file sample_root "roles/common/tasks/main.yml" "- debug:" "yes"
          sample_site
        = (Ok ("SUCCESS: File written to roles/common/tasks/main.yml" : str), w')
      ∧ fs w' !! ("/root/ansible/roles/common/tasks/main.yml" : str)
        = Some (File "- debug:")
      ∧ fs w' !! ("/root/ansible/roles/common/tasks" : str) = Some Dir.
Proof.
  destruct (write_file_makes_the_directories sample_root "roles/common/tasks/main.yml"
              "- debug:" "yes" sample_site) as (w' & Hrun & Hfile & Hdir & _).
  - discriminate.
  - discriminate.
  - vm_compute. reflexivity.
  - vm_compute. discriminate.
  - vm_compute. discriminate.
  - intros x c Hx. vm_compute in Hx.
    repeat (apply elem_of_cons in Hx as [->|Hx]; [vm_compute; discriminate|]).
    by apply elem_of_nil in Hx.
  - vm_compute. reflexivity.
  - exists w'. split; [exact Hrun|]. split; [exact Hfile | exact Hdir].
Defined.
